(** * MandalaNode: deployment pipeline, billing gate and project administration

    A shallow embedding of the upload handler ([src/routes/upload.ts]), of the
    manifest types ([utils.ts]) and of the project routes ([POST /:projectId/pay],
    [addAdmin], [removeAdmin], [delete], [create]).

    Handlers are modelled as computations in a small trace monad: each external
    action of the source (a database statement, a file write, a spawned command,
    a call to a collaborator) is recorded as an [Effect], in program order, and a
    handler ends by returning a value, by sending an HTTP response, or by
    throwing.  Database statements act on an explicit [Db] state: every
    [await db(...)] of the source is one statement, committed on its own.
    The tables' schema is not part of the sources: a column keeps the value
    written to it.  A handler run is one request served alone; [Overlap]
    has two requests in flight together.

    What lies outside the handlers is an input: the environment, [path.join],
    the file system of the extracted artifact, the result of each spawned
    command, the wallet's answer on a signature, and [enableIngress] are the
    fields of [Host].  Numbers the handlers compute with are JavaScript
    numbers, IEEE 754 doubles ([Js.Double]); row ids stay integers.

    Routes that only read the store, or whose statements are not needed by a
    handler above, are functions of the store: the project listing, the
    settings update, the resource logs ([kubectl] is then an input) and the
    custom domains (DNS and mail are inputs).  The Dockerfiles [utils.ts]
    generates are strings.

    The first part holds the definitions ([Js], [Manifest], [Store], [Chart],
    [Handler], [Upload], [Projects], [Examples], then [Access], [Lifecycle],
    [Verdict], [Footprint], [ChartSpec], [Dockerfiles], [Listings],
    [ResourceLogs], [Domains], [Wait], [Overlap]); the properties follow. *)

From Stdlib Require Import QArith Qround ZArith SpecFloat List String Ascii Lia Bool.
From stdpp Require Import gmap strings list pretty.

Open Scope Z_scope.

(** ** JavaScript values, as the handlers use them *)

Module Js.

(** [x ? .. : ..], [!x], [x || y] on an optional string: [undefined], [null]
    and the empty string are falsy. *)
Definition truthy (o : option string) : bool :=
  match o with
  | Some s => negb (String.eqb s "")
  | None => false
  end.

(** [a || b] on optional values whose present values are all truthy
    (objects, arrays). *)
Definition or_else {A : Type} (a : option A) (b : A) : A :=
  match a with Some x => x | None => b end.

(** [a || b] on optional strings. *)
Definition str_or (a : option string) (b : string) : string :=
  if truthy a then or_else a b else b.

(** [a || b] when both sides are optional strings. *)
Definition str_or_opt (a b : option string) : option string :=
  if truthy a then a else b.

(** [o?.flag || false] on an optional boolean. *)
Definition flag (o : option bool) : bool := or_else o false.

(** [n || d] on an optional number: [0] is falsy. *)
Definition num_or (o : option Z) (d : Z) : Z :=
  match o with
  | Some n => if Z.eqb n 0 then d else n
  | None => d
  end.

(** [s.substring(0, n)]. *)
Definition substring0 (n : nat) (s : string) : string := String.substring 0 n s.

(** [s.substr(0, n)]. *)
Definition substr0 (n : nat) (s : string) : string := String.substring 0 n s.

(** [s.includes(c)] for a one-character needle. *)
Fixpoint includes_char (c : ascii) (s : string) : bool :=
  match s with
  | EmptyString => false
  | String a r => if Ascii.eqb a c then true else includes_char c r
  end.

(** [hay.includes(needle)] *)
Fixpoint includes (needle hay : string) : bool :=
  String.prefix needle hay ||
  match hay with
  | EmptyString => false
  | String _ r => includes needle r
  end.

(** [needle] occurs in [hay] as a contiguous run of characters. *)
Definition occurs_in (needle hay : string) : Prop :=
  exists pre post, hay = pre +:+ needle +:+ post.

(** *** Numbers

    A JavaScript number is an IEEE 754 double: precision 53, exponents up to
    1024.  Zeros are signed, [NaN] compares false with everything. *)
Abbreviation Double := spec_float.

(** The double nearest to an integer ([Number(n)], a numeric literal). *)
Definition of_Z (z : Z) : Double := binary_normalize 53 1024 z 0 false.

(** [x + y] *)
Definition add (x y : Double) : Double := SFadd 53 1024 x y.

(** [x < y], [x <= y] *)
Definition ltb (x y : Double) : bool := SFltb x y.
Definition leb (x y : Double) : bool := SFleb x y.

(** The integer a finite double is, when it is one. *)
Definition to_Z (x : Double) : option Z :=
  match x with
  | S754_zero _ => Some 0
  | S754_finite s m e =>
      let magnitude :=
        if 0 <=? e then Some (Z.pos m * 2 ^ e)
        else if Z.pos m mod 2 ^ (- e) =? 0 then Some (Z.pos m / 2 ^ (- e))
        else None in
      option_map (fun n => if s then - n else n) magnitude
  | _ => None
  end.

(** [String(x)], as a template literal interpolates a number.  An integer
    below 10^21 prints its decimal digits; for every other finite number the
    text is the engine's shortest digits that read back as [x], here
    [digits x]. *)
Definition toString (digits : Double -> string) (x : Double) : string :=
  match x with
  | S754_nan => "NaN"
  | S754_infinity false => "Infinity"
  | S754_infinity true => "-Infinity"
  | _ =>
      match to_Z x with
      | Some z => if Z.abs z <? 10 ^ 21 then pretty z else digits x
      | None => digits x
      end
  end.

End Js.

#[global] Instance Double_eq_dec : EqDecision Js.Double.
Proof. solve_decision. Defined.

(** An integer where a number is expected is the double nearest to it. *)
Coercion Js.of_Z : Z >-> Js.Double.

(** ** Manifest types ([utils.ts]) *)

Module Manifest.

Record Agent := {
  agent_type : string;               (* 'openclaw' | 'agidentity' | 'custom' *)
  image : option string;
  dockerfile : option string;
  buildContext : option string;
  runtime : option string
}.

Record Resources := {
  cpu : option string;
  memory : option string;
  gpu : option string;
  tee : option bool;
  teeInferenceProxy : option bool
}.

Record HealthCheck := {
  hc_path : string;
  hc_port : option Z;
  intervalSeconds : option Z
}.

Record Frontend := {
  directory : option string;
  frontend_image : option string
}.

Record Storage := {
  enabled : bool;
  size : option string;
  mountPath : option string
}.

Record Databases := {
  mysql : option bool;
  mongo : option bool;
  redis : option bool
}.

(** One entry of [deployments].  The TypeScript type fixes [provider] to
    ['mandala'], the parsed JSON does not: it is compared at run time. *)
Record Target := {
  provider : string;
  projectID : option string;
  network : option string;
  MandalaCloudURL : option string
}.

(** The body shared by [AgentManifest] and [ServiceDefinition].  [agent] is
    optional here because the document is unvalidated JSON: the handler
    dereferences it only at the build step. *)
Record Body := {
  agent : option Agent;
  env : option (gmap string string);
  resources : option Resources;
  ports : option (list Z);
  healthCheck : option HealthCheck;
  frontend : option Frontend;
  storage : option Storage;
  databases : option Databases
}.

Record AgentManifest := {
  body : Body;
  deployments : option (list Target)
}.

(** A value stored under a key of [services]: a falsy JSON value ([null],
    [false], [0], the empty string) or an object.  Any other truthy value
    (a number, a string) reads like an object with none of the fields. *)
Inductive ServiceValue :=
| SvcFalsy
| SvcObject (svc : Body).

(** The parsed [agent-manifest.json].  A v1 document is used as it is
    ([rawManifest as AgentManifest]); a v2 document carries [services]. *)
Record RawManifest := {
  schema : option string;
  schemaVersion : option string;
  services : option (gmap string ServiceValue);
  raw_body : Body;                      (* the v1 fields and the document-level env *)
  raw_deployments : option (list Target)
}.

(** [isV2Manifest]: [m?.schemaVersion === '2.0' && m?.services != null]. *)
Definition isV2Manifest (m : RawManifest) : bool :=
  match schemaVersion m, services m with
  | Some v, Some _ => String.eqb v "2.0"
  | _, _ => false
  end.

(** Property names every object inherits from [Object.prototype]: a lookup
    [services[name]] with one of them finds a truthy inherited value that
    has none of the service fields. *)
Definition object_prototype_keys : list string :=
  [ "constructor"; "toString"; "toLocaleString"; "valueOf"; "hasOwnProperty";
    "isPrototypeOf"; "propertyIsEnumerable"; "__proto__";
    "__defineGetter__"; "__defineSetter__"; "__lookupGetter__";
    "__lookupSetter__" ]%string.

Definition empty_body : Body :=
  {| agent := None; env := None; resources := None; ports := None;
     healthCheck := None; frontend := None; storage := None;
     databases := None |}.

(** [rawManifest.services[serviceName]]: own property first, then the
    prototype chain; [None] is [undefined]. *)
Definition services_get (svcs : gmap string ServiceValue) (name : string)
  : option ServiceValue :=
  match svcs !! name with
  | Some v => Some v
  | None =>
      if bool_decide (name ∈ object_prototype_keys)
      then Some (SvcObject empty_body)
      else None
  end.

(** [!rawManifest.services[serviceName]] is false exactly on an object. *)
Definition service_object (svcs : gmap string ServiceValue) (name : string)
  : option Body :=
  match services_get svcs name with
  | Some (SvcObject b) => Some b
  | _ => None
  end.

(** [{ ...(a || {}), ...(b || {}) }]: the keys of [b] win. *)
Definition spread2 (a b : option (gmap string string)) : gmap string string :=
  Js.or_else b ∅ ∪ Js.or_else a ∅.

(** [manifest.resources?.gpu] as a condition. *)
Definition requests_gpu (b : Body) : bool :=
  match resources b with
  | Some r => Js.truthy (gpu r)
  | None => false
  end.

End Manifest.

(** ** Rows of the relational store and the statements the handlers issue *)

Module Store.

Record Project := {
  id : Z;
  project_uuid : string;
  name : string;
  network : string;
  balance : Js.Double;                   (* satoshis, as the handlers read and write them *)
  private_key : string;
  agent_config : option (gmap string string);  (* the parsed JSON text, [None] when it does not parse or is empty *)
  requires_blockchain_funding : bool;
  frontend_custom_domain : option string;
  backend_custom_domain : option string
}.

Record User := {
  identity_key : string;
  email : string
}.

Record Deploy := {
  deploy_id : Z;
  deployment_uuid : string;
  deploy_project_id : Z;
  file_path : option string;
  service_name : option string
}.

Record AdminRow := {
  admin_project_id : Z;
  admin_identity_key : string
}.

Record AccountingRow := {
  acc_project_id : Z;
  acc_type : string;                     (* 'credit' | 'debit' *)
  amount_sats : Js.Double;
  balance_after : Js.Double;
  metadata : string
}.

Record LogRow := {
  log_project_id : option Z;
  log_deploy_id : option Z;
  message : string
}.

(** Tables are lists of rows, oldest first; [next_project_id] is the
    auto-increment counter of [projects]. *)
Record Db := {
  projects : list Project;
  users : list User;
  deploys : list Deploy;
  project_admins : list AdminRow;
  project_accounting : list AccountingRow;
  logs : list LogRow;
  next_project_id : Z
}.

#[global] Instance AdminRow_eq_dec : EqDecision AdminRow.
Proof. solve_decision. Defined.

#[global] Instance AccountingRow_eq_dec : EqDecision AccountingRow.
Proof. solve_decision. Defined.

(** One statement sent to the store.  Each is executed (and committed) on
    its own: the handlers open no transaction. *)
Inductive Stmt :=
| UpdateProjectBalance (pid : Z) (b : Js.Double)
| InsertAccounting (r : AccountingRow)
| InsertLog (r : LogRow)
| UpdateDeployFilePath (did : Z) (p : string)
| UpdateDeployServiceName (did : Z) (s : string)
| InsertProject (p : Project)
| InsertAdmin (r : AdminRow)
| DeleteAdmin (pid : Z) (key : string)
| DeleteAccountingOf (pid : Z)
| DeleteDeploysOf (pid : Z)
| DeleteAdminsOf (pid : Z)
| DeleteLogsOf (pid : Z)
| DeleteProject (pid : Z).

Definition set_balance (b : Js.Double) (p : Project) : Project :=
  {| id := id p; project_uuid := project_uuid p; name := name p;
     network := network p; balance := b; private_key := private_key p;
     agent_config := agent_config p;
     requires_blockchain_funding := requires_blockchain_funding p;
     frontend_custom_domain := frontend_custom_domain p;
     backend_custom_domain := backend_custom_domain p |}.

Definition set_file_path (fp : string) (d : Deploy) : Deploy :=
  {| deploy_id := deploy_id d; deployment_uuid := deployment_uuid d;
     deploy_project_id := deploy_project_id d; file_path := Some fp;
     service_name := service_name d |}.

Definition set_service_name (s : string) (d : Deploy) : Deploy :=
  {| deploy_id := deploy_id d; deployment_uuid := deployment_uuid d;
     deploy_project_id := deploy_project_id d; file_path := file_path d;
     service_name := Some s |}.

Definition with_projects (f : list Project -> list Project) (db : Db) : Db :=
  {| projects := f (projects db); users := users db; deploys := deploys db;
     project_admins := project_admins db;
     project_accounting := project_accounting db; logs := logs db;
     next_project_id := next_project_id db |}.

Definition with_deploys (f : list Deploy -> list Deploy) (db : Db) : Db :=
  {| projects := projects db; users := users db; deploys := f (deploys db);
     project_admins := project_admins db;
     project_accounting := project_accounting db; logs := logs db;
     next_project_id := next_project_id db |}.

Definition with_admins (f : list AdminRow -> list AdminRow) (db : Db) : Db :=
  {| projects := projects db; users := users db; deploys := deploys db;
     project_admins := f (project_admins db);
     project_accounting := project_accounting db; logs := logs db;
     next_project_id := next_project_id db |}.

Definition with_accounting (f : list AccountingRow -> list AccountingRow) (db : Db) : Db :=
  {| projects := projects db; users := users db; deploys := deploys db;
     project_admins := project_admins db;
     project_accounting := f (project_accounting db); logs := logs db;
     next_project_id := next_project_id db |}.

Definition with_logs (f : list LogRow -> list LogRow) (db : Db) : Db :=
  {| projects := projects db; users := users db; deploys := deploys db;
     project_admins := project_admins db;
     project_accounting := project_accounting db; logs := f (logs db);
     next_project_id := next_project_id db |}.

Definition eq_opt_Z (o : option Z) (z : Z) : bool :=
  match o with Some x => Z.eqb x z | None => false end.

(** The effect of one statement on the store. *)
Definition run_stmt (s : Stmt) (db : Db) : Db :=
  match s with
  | UpdateProjectBalance pid b =>
      with_projects (map (fun p => if Z.eqb (id p) pid then set_balance b p else p)) db
  | InsertAccounting r => with_accounting (fun t => t ++ [r]) db
  | InsertLog r => with_logs (fun t => t ++ [r]) db
  | UpdateDeployFilePath did fp =>
      with_deploys (map (fun d => if Z.eqb (deploy_id d) did then set_file_path fp d else d)) db
  | UpdateDeployServiceName did s =>
      with_deploys (map (fun d => if Z.eqb (deploy_id d) did then set_service_name s d else d)) db
  | InsertProject p =>
      {| projects := projects db ++ [p]; users := users db; deploys := deploys db;
         project_admins := project_admins db;
         project_accounting := project_accounting db; logs := logs db;
         next_project_id := next_project_id db + 1 |}
  | InsertAdmin r => with_admins (fun t => t ++ [r]) db
  | DeleteAdmin pid key =>
      with_admins (List.filter (fun r =>
        negb (Z.eqb (admin_project_id r) pid && String.eqb (admin_identity_key r) key))) db
  | DeleteAccountingOf pid =>
      with_accounting (List.filter (fun r => negb (Z.eqb (acc_project_id r) pid))) db
  | DeleteDeploysOf pid =>
      with_deploys (List.filter (fun d => negb (Z.eqb (deploy_project_id d) pid))) db
  | DeleteAdminsOf pid =>
      with_admins (List.filter (fun r => negb (Z.eqb (admin_project_id r) pid))) db
  | DeleteLogsOf pid =>
      with_logs (List.filter (fun r => negb (eq_opt_Z (log_project_id r) pid))) db
  | DeleteProject pid =>
      with_projects (List.filter (fun p => negb (Z.eqb (id p) pid))) db
  end.

(** Queries. [.first()] is the head of the selected rows. *)
Definition project_by_uuid (db : Db) (uuid : string) : option Project :=
  List.find (fun p => String.eqb (project_uuid p) uuid) (projects db).

Definition project_by_id (db : Db) (pid : Z) : option Project :=
  List.find (fun p => Z.eqb (id p) pid) (projects db).

Definition deploy_by_uuid (db : Db) (uuid : string) : option Deploy :=
  List.find (fun d => String.eqb (deployment_uuid d) uuid) (deploys db).

Definition user_by_identity (db : Db) (key : string) : option User :=
  List.find (fun u => String.eqb (identity_key u) key) (users db).

Definition user_by_email (db : Db) (e : string) : option User :=
  List.find (fun u => String.eqb (email u) e) (users db).

Definition admins_of (db : Db) (pid : Z) : list AdminRow :=
  List.filter (fun r => Z.eqb (admin_project_id r) pid) (project_admins db).

Definition admin_row (db : Db) (pid : Z) (key : string) : option AdminRow :=
  List.find (fun r => Z.eqb (admin_project_id r) pid && String.eqb (admin_identity_key r) key)
    (project_admins db).

Definition accounting_of (db : Db) (pid : Z) : list AccountingRow :=
  List.filter (fun r => Z.eqb (acc_project_id r) pid) (project_accounting db).

(** [project_admins JOIN users ON identity_key WHERE project_id = pid],
    selecting the e-mail addresses. *)
Definition admin_emails (db : Db) (pid : Z) : list string :=
  flat_map (fun r =>
    map email (List.filter (fun u => String.eqb (identity_key u) (admin_identity_key r)) (users db)))
    (admins_of db pid).

End Store.

(** ** The generated Helm chart (steps 13, 13a-13h of the upload handler)

    The source writes each template as text with two layers of holes: the
    JavaScript interpolations, filled when the file is written, and the Helm
    expressions ([.Values.x], [include "mandala-project.fullname"]), filled when
    the chart is rendered.  A [Template] carries the first layer as constructor
    arguments; [render] fills the second. *)

Module Chart.

Import Manifest Store.

Record Values := {
  agentImage : option string;
  frontendImage : option string;
  ingressHostFrontend : option string;
  ingressCustomFrontend : option string;
  ingressHostBackend : string;
  ingressCustomBackend : option string;
  useMySQL : bool;
  useMongo : bool;
  useRedis : bool;
  mysqlSize : string;
  mongoSize : string;
  redisSize : string;
  agentSize : string
}.

Inductive Kind :=
| Deployment
| HorizontalPodAutoscaler
| Service
| Ingress
| StatefulSet
| PersistentVolumeClaim.

#[global] Instance Kind_eq_dec : EqDecision Kind.
Proof. solve_decision. Defined.

(** The hosts an ingress template names through [.Values]. *)
Inductive HostRef :=
| HostFrontend            (* {{ .Values.ingressHostFrontend }} *)
| CustomFrontend          (* {{ .Values.ingressCustomFrontend }} *)
| WwwCustomFrontend       (* www.{{ .Values.ingressCustomFrontend }} *)
| WwwHostFrontend         (* www.{{ .Values.ingressHostFrontend }} *)
| HostBackend             (* {{ .Values.ingressHostBackend }} *)
| CustomBackend.          (* {{ .Values.ingressCustomBackend }} *)

Record Probe := {
  probe_path : string;
  probe_port : option Z;
  initialDelaySeconds : Z;
  periodSeconds : Z
}.

Record ResourcesYaml := {
  requests_cpu : string;
  requests_memory : option string;
  limits_cpu : option string;
  limits_memory : option string;
  gpuLine : option string
}.

Record DeploymentTemplate := {
  gpuSchedulingYaml : bool;             (* runtimeClassName nvidia + toleration *)
  envYaml : gmap string string;         (* one entry per key of mergedEnv, in the engine's key
                                           order: the name raw, the value through JSON.stringify *)
  fundingYaml : option (string * string); (* then SERVER_PRIVATE_KEY and NETWORK, raw between quotes *)
  containerPortsYaml : list Z;
  livenessProbe : option Probe;
  readinessProbe : option Probe;
  resourcesYaml : ResourcesYaml;
  agentVolumeMount : option string      (* mount path; the volume comes with it *)
}.

(** One file under [helm/templates]. *)
Inductive Template :=
| deployment_yaml (t : DeploymentTemplate)
| hpa_yaml (hpaMaxReplicas : Z)
| service_yaml (agentPorts : list Z)
| ingress_yaml (tlsHosts : list HostRef) (rules : list (HostRef * option Z)) (secretName : string)
| www_ingress_yaml (secretName : string)
| mysql_statefulset_yaml
| mongo_statefulset_yaml
| redis_yaml
| agent_pvc_yaml.

Definition file_name (t : Template) : string :=
  match t with
  | deployment_yaml _ => "deployment.yaml"
  | hpa_yaml _ => "hpa.yaml"
  | service_yaml _ => "service.yaml"
  | ingress_yaml _ _ _ => "ingress.yaml"
  | www_ingress_yaml _ => "www-ingress.yaml"
  | mysql_statefulset_yaml => "mysql-statefulset.yaml"
  | mongo_statefulset_yaml => "mongo-statefulset.yaml"
  | redis_yaml => "redis.yaml"
  | agent_pvc_yaml => "agent-pvc.yaml"
  end.

(** *** Rendered resources *)

Record Hpa := {
  maxReplicas : Z;
  minReplicas : Z;
  metric_resource_name : string;
  metric_target_type : string;
  averageUtilization : Z;
  scaleTargetRef_kind : Kind;
  scaleTargetRef_name : string
}.

Inductive Spec :=
| DeploymentSpec (replicas : Z) (containers : list string) (t : option DeploymentTemplate)
| HpaSpec (h : Hpa)
| ServiceSpec (ports : list (Z * string))
| IngressSpec (tls : list string) (rules : list (string * option Z)) (secret : string)
| StatefulSetSpec (image : string) (claim_storage : string)
| PvcSpec (claim_storage : string).

Record Doc := {
  kind : Kind;
  doc_name : string;
  spec : Spec
}.

(** Helm's [if] on a value: [null] and the empty string are false. *)
Definition helm_true (o : option string) : bool := Js.truthy o.

Definition host (v : Values) (h : HostRef) : string :=
  match h with
  | HostFrontend => Js.or_else (ingressHostFrontend v) ""
  | CustomFrontend => Js.or_else (ingressCustomFrontend v) ""
  | WwwCustomFrontend => "www." +:+ Js.or_else (ingressCustomFrontend v) ""
  | WwwHostFrontend => "www." +:+ Js.or_else (ingressHostFrontend v) ""
  | HostBackend => ingressHostBackend v
  | CustomBackend => Js.or_else (ingressCustomBackend v) ""
  end.

(** [servicePortsYaml]: [agent], [agent-1], [agent-2], ... *)
Definition servicePorts (agentPorts : list Z) : list (Z * string) :=
  imap (fun i p => (p, "agent" +:+ (if Nat.ltb 0 i then "-" +:+ pretty i else ""))) agentPorts.

Definition headless (nm : string) (port : Z) (port_name : string) : Doc :=
  {| kind := Service; doc_name := nm; spec := ServiceSpec [(port, port_name)] |}.

(** [helm template]: the resources one template file yields for a release
    named [fullname] under the values [v], when the strings the handler and
    Helm paste into the text leave its structure alone ([chart_plain] below).
    The files are text: a pasted string with a line break or a Helm action
    can add keys and whole documents, which this reading does not show. *)
Definition render (fullname : string) (v : Values) (t : Template) : list Doc :=
  match t with
  | deployment_yaml d =>
      [ {| kind := Deployment; doc_name := fullname +:+ "-deployment";
           spec := DeploymentSpec 1
                     ((if helm_true (agentImage v) then ["agent"] else []) ++
                      (if helm_true (frontendImage v) then ["frontend"] else []))
                     (if helm_true (agentImage v) then Some d else None) |} ]
  | hpa_yaml hpaMaxReplicas =>
      [ {| kind := HorizontalPodAutoscaler; doc_name := fullname +:+ "-deployment";
           spec := HpaSpec
                     {| maxReplicas := hpaMaxReplicas;
                        minReplicas := 1;
                        metric_resource_name := "cpu";
                        metric_target_type := "Utilization";
                        averageUtilization := 50;
                        scaleTargetRef_kind := Deployment;
                        scaleTargetRef_name := fullname +:+ "-deployment" |} |} ]
  | service_yaml agentPorts =>
      [ {| kind := Service; doc_name := fullname +:+ "-service";
           spec := ServiceSpec
                     ((if helm_true (agentImage v) then servicePorts agentPorts else []) ++
                      (if helm_true (frontendImage v) then [(80, "frontend")] else [])) |} ]
  | ingress_yaml tlsHosts rules secretName =>
      [ {| kind := Ingress; doc_name := fullname +:+ "-ingress";
           spec := IngressSpec (map (host v) tlsHosts)
                     (map (fun r => (host v (fst r), snd r)) rules) secretName |} ]
  | www_ingress_yaml secretName =>
      [ {| kind := Ingress; doc_name := fullname +:+ "-www";
           spec := IngressSpec [host v WwwCustomFrontend]
                     [(host v WwwHostFrontend, Some 80)] secretName |} ]
  | mysql_statefulset_yaml =>
      if useMySQL v then
        [ {| kind := StatefulSet; doc_name := "mysql";
             spec := StatefulSetSpec "mysql:8.0" (mysqlSize v) |};
          headless "mysql-headless" 3306 "mysql";
          headless "mysql" 3306 "mysql" ]
      else []
  | mongo_statefulset_yaml =>
      if useMongo v then
        [ {| kind := StatefulSet; doc_name := "mongo";
             spec := StatefulSetSpec "mongo:6.0" (mongoSize v) |};
          headless "mongo-headless" 27017 "mongo";
          headless "mongo" 27017 "mongo" ]
      else []
  | redis_yaml =>
      if useRedis v then
        [ {| kind := Deployment; doc_name := "redis";
             spec := DeploymentSpec 1 ["redis"] None |};
          headless "redis" 6379 "redis" ]
      else []
  | agent_pvc_yaml =>
      [ {| kind := PersistentVolumeClaim; doc_name := fullname +:+ "-agent-pvc";
           spec := PvcSpec (agentSize v) |} ]
  end.

(** The resource set of template files: each one rendered, in file order. *)
Definition render_chart (fullname : string) (v : Values) (ts : list Template) : list Doc :=
  flat_map (render fullname v) ts.

(** *** Strings pasted into the templates

    Env names, the health-check path, cpu, memory and gpu quantities, the
    mount path, the funding key and network and the project id of the secret
    names are interpolated raw by the handler; images and hosts are pasted by
    Helm from [values.yaml].  A string of the characters below stays one
    plain scalar on its line. *)
Definition plain_char (c : ascii) : bool :=
  let n := nat_of_ascii c in
  Nat.leb 48 n && Nat.leb n 57 || Nat.leb 65 n && Nat.leb n 90 ||
  Nat.leb 97 n && Nat.leb n 122 ||
  Ascii.eqb c "_" || Ascii.eqb c "-" || Ascii.eqb c "." || Ascii.eqb c "/" || Ascii.eqb c ":".

Fixpoint plain (s : string) : bool :=
  match s with
  | EmptyString => true
  | String c r => plain_char c && plain r
  end.

Definition plain_opt (o : option string) : bool :=
  match o with Some s => plain s | None => true end.

(** An env value goes through [JSON.stringify], which quotes it; Helm still
    reads an action in it. *)
Definition no_action (s : string) : bool := negb (Js.includes "{{" s).

Definition probe_plain (o : option Probe) : bool :=
  match o with Some pr => plain (probe_path pr) | None => true end.

Definition deployment_plain (d : DeploymentTemplate) : bool :=
  forallb (fun kv => plain (fst kv) && no_action (snd kv)) (map_to_list (envYaml d)) &&
  match fundingYaml d with Some (key, net) => plain key && plain net | None => true end &&
  probe_plain (livenessProbe d) && probe_plain (readinessProbe d) &&
  plain (requests_cpu (resourcesYaml d)) && plain_opt (requests_memory (resourcesYaml d)) &&
  plain_opt (limits_cpu (resourcesYaml d)) && plain_opt (limits_memory (resourcesYaml d)) &&
  plain_opt (gpuLine (resourcesYaml d)) &&
  plain_opt (agentVolumeMount d).

Definition template_plain (t : Template) : bool :=
  match t with
  | deployment_yaml d => deployment_plain d
  | ingress_yaml _ _ secretName => plain secretName
  | www_ingress_yaml secretName => plain secretName
  | _ => true
  end.

Definition values_plain (v : Values) : bool :=
  plain_opt (agentImage v) && plain_opt (frontendImage v) &&
  plain_opt (ingressHostFrontend v) && plain_opt (ingressCustomFrontend v) &&
  plain (ingressHostBackend v) && plain_opt (ingressCustomBackend v).

Definition chart_plain (v : Values) (ts : list Template) : bool :=
  values_plain v && forallb template_plain ts.

(** *** The chart directory

    Helm renders every file under [helm/templates].  The directory lies
    inside the unpacked artifact and is never emptied, so it can hold files
    the handler did not write in this run: files of the tarball, files of an
    earlier upload of the same deployment.  [found] lists them by name, each
    with the resources it renders to; a file of the same name as a written
    one is overwritten.  The result is [None] when a pasted string is not
    plain: the text is then not read here. *)
Definition chart_documents (found : list (string * list Doc)) (fullname : string)
    (v : Values) (ts : list Template) : option (list Doc) :=
  if chart_plain v ts then
    Some (render_chart fullname v ts ++
          flat_map snd
            (List.filter (fun f => negb (existsb (String.eqb (fst f)) (map file_name ts)))
               found))
  else None.

(** *** What the handler computes before writing the chart *)

Definition useStorage (m : Body) : bool :=
  match storage m with Some s => enabled s | None => false end.

(** [manifest.ports || (manifest.agent.type === 'agidentity' ? [3000] : [8080])] *)
Definition agentPorts_of (m : Body) (a : Agent) : list Z :=
  Js.or_else (ports m) (if String.eqb (agent_type a) "agidentity" then [3000] else [8080]).

Definition ingressHost (projectsDomain : string) (p : Project) : string :=
  project_uuid p +:+ "." +:+ projectsDomain.

Definition valuesObj (projectsDomain : string) (m : Body) (p : Project)
    (agentImg frontendImg : option string) : Values :=
  {| agentImage := agentImg;
     frontendImage := frontendImg;
     ingressHostFrontend :=
       match frontend m with
       | Some _ => Some ("frontend." +:+ ingressHost projectsDomain p)
       | None => None
       end;
     ingressCustomFrontend := frontend_custom_domain p;
     ingressHostBackend := "agent." +:+ ingressHost projectsDomain p;
     ingressCustomBackend := backend_custom_domain p;
     useMySQL := match databases m with Some d => Js.flag (mysql d) | None => false end;
     useMongo := match databases m with Some d => Js.flag (mongo d) | None => false end;
     useRedis := match databases m with Some d => Js.flag (redis d) | None => false end;
     mysqlSize := "20Gi";
     mongoSize := "20Gi";
     redisSize := "5Gi";
     agentSize := match storage m with Some s => Js.str_or (size s) "10Gi" | None => "10Gi" end |}.

(** [const hpaMaxReplicas = manifest.resources?.gpu ? 1 : 10] *)
Definition hpaMaxReplicas (m : Body) : Z :=
  if requests_gpu m then 1 else 10.

Definition probes (m : Body) (agentPorts : list Z) : option Probe * option Probe :=
  match healthCheck m with
  | Some hc =>
      let hcPort :=
        match hc_port hc with
        | Some n => if Z.eqb n 0 then head agentPorts else Some n
        | None => head agentPorts
        end in
      let hcInterval := Js.num_or (intervalSeconds hc) 30 in
      (Some {| probe_path := hc_path hc; probe_port := hcPort;
               initialDelaySeconds := 15; periodSeconds := hcInterval |},
       Some {| probe_path := hc_path hc; probe_port := hcPort;
               initialDelaySeconds := 5; periodSeconds := hcInterval |})
  | None => (None, None)
  end.

Definition resourcesYaml_of (m : Body) : ResourcesYaml :=
  match resources m with
  | Some r =>
      {| requests_cpu := Js.str_or (cpu r) "100m";
         requests_memory := Some (Js.str_or (memory r) "128Mi");
         limits_cpu := Some (Js.str_or (cpu r) "1000m");
         limits_memory := Some (Js.str_or (memory r) "512Mi");
         gpuLine := if Js.truthy (gpu r) then gpu r else None |}
  | None =>
      {| requests_cpu := "100m"; requests_memory := None; limits_cpu := None;
         limits_memory := None; gpuLine := None |}
  end.

(** [mergedEnv] (step 11): the manifest's env, overridden by the project's
    settings. *)
Definition mergedEnv (m : Body) (p : Project) : gmap string string :=
  spread2 (env m) (agent_config p).

(** The funding variables (step 13): the project's key and network. *)
Definition funding_of (p : Project) : option (string * string) :=
  if requires_blockchain_funding p then Some (private_key p, network p) else None.

Definition deployment_template (m : Body) (a : Agent) (p : Project) : DeploymentTemplate :=
  let agentPorts := agentPorts_of m a in
  {| gpuSchedulingYaml := requests_gpu m;
     envYaml := mergedEnv m p;
     fundingYaml := funding_of p;
     containerPortsYaml := agentPorts;
     livenessProbe := fst (probes m agentPorts);
     readinessProbe := snd (probes m agentPorts);
     resourcesYaml := resourcesYaml_of m;
     agentVolumeMount :=
       if useStorage m
       then Some (match storage m with Some s => Js.str_or (mountPath s) "/data" | None => "/data" end)
       else None |}.

Definition tlsHosts_of (m : Body) (v : Values) : list HostRef :=
  (match frontend m with
   | Some _ => HostFrontend :: (if Js.truthy (ingressCustomFrontend v) then [CustomFrontend] else [])
   | None => []
   end) ++
  [HostBackend] ++
  (if Js.truthy (ingressCustomBackend v) then [CustomBackend] else []).

Definition ingress_rules (m : Body) (p : Project) (primaryAgentPort : option Z)
  : list (HostRef * option Z) :=
  (match frontend m with
   | Some _ =>
       (HostFrontend, Some 80) ::
       (if Js.truthy (frontend_custom_domain p)
        then [(CustomFrontend, Some 80); (WwwCustomFrontend, Some 80)] else [])
   | None => []
   end) ++
  [(HostBackend, primaryAgentPort)] ++
  (if Js.truthy (backend_custom_domain p) then [(CustomBackend, primaryAgentPort)] else []).

(** The template files of step 13, in the order the handler writes them. *)
Definition templates (m : Body) (a : Agent) (p : Project) (v : Values) : list Template :=
  let agentPorts := agentPorts_of m a in
  [ deployment_yaml (deployment_template m a p);
    hpa_yaml (hpaMaxReplicas m);
    service_yaml agentPorts;
    ingress_yaml (tlsHosts_of m v) (ingress_rules m p (head agentPorts))
      ("project-" +:+ project_uuid p +:+ "-tls") ] ++
  (if Js.truthy (ingressCustomFrontend v)
   then [www_ingress_yaml ("project-" +:+ project_uuid p +:+ "-www-tls")] else []) ++
  [ mysql_statefulset_yaml; mongo_statefulset_yaml; redis_yaml ] ++
  (if useStorage m then [agent_pvc_yaml] else []).

(** [helmReleaseName] and [namespace] (step 14). *)
Definition helmReleaseName (p : Project) : string :=
  "mandala-project-" +:+ Js.substr0 24 (project_uuid p).

Definition namespace (p : Project) : string :=
  "mandala-project-" +:+ project_uuid p.

(** The resource set the release applies: the chart directory of step 13,
    with the template files [found] in it, rendered for this project's
    release. *)
Definition applied_topology (found : list (string * list Doc)) (projectsDomain : string)
    (m : Body) (a : Agent) (p : Project) (agentImg frontendImg : option string)
  : option (list Doc) :=
  let v := valuesObj projectsDomain m p agentImg frontendImg in
  chart_documents found (helmReleaseName p) v (templates m a p v).

(** Every file found in the chart directory is one this run overwrites. *)
Definition overwritten (found : list (string * list Doc)) (ts : list Template) : Prop :=
  forall f, In f found -> In (fst f) (map file_name ts).

(** The names the database templates give their resources. *)
Definition database_names : list string :=
  ["mysql"; "mysql-headless"; "mongo"; "mongo-headless"; "redis"]%string.

(** The manifest asks for no database and declares no storage. *)
Definition stateless (m : Body) : Prop :=
  match databases m with
  | Some d => Js.flag (mysql d) = false /\ Js.flag (mongo d) = false /\ Js.flag (redis d) = false
  | None => True
  end /\ storage m = None.

End Chart.

(** ** Handlers: responses, effects and the trace monad *)

Module Handler.

Import Store.

Inductive ResponseBody :=
| ErrorBody (error : string)
| MessageBody (message : string)
| DeployedBody (message agentUrl : string)
    (frontendUrl frontendCustomDomain agentCustomDomain : option string)
| ProjectCreatedBody (projectId message : string).

Record Response := {
  status : Z;
  json : ResponseBody
}.

Inductive Level := info | error | warn.

Inductive FileContent :=
| RequestBody
| AgidentityDockerfile (ports : list Z) (copyMpc copyWorkspace : bool)
| AgentDockerfile (runtime : string) (ports : list Z)
| NginxConf
| FrontendDockerfile
| ChartYaml
| ValuesYaml (v : Chart.Values)
| HelpersTpl
| TemplateFile (t : Chart.Template).

(** Everything a handler does to the world outside its own variables. *)
Inductive Effect :=
| Sql (s : Stmt)
| WriteFile (path : string) (c : FileContent)
| EnsureDir (path : string)
| CopyFile (src dst : string)
| Exec (cmd : string) (cwd : option string)
| Logger (lvl : Level) (fields : list (string * string)) (msg : string)
| FundKey (wallet key : string) (sats : Z) (net : string)
| RefreshAdvertisement
| EnableIngress (uuid : string)
| Email (to : list string) (subject body : string).

(** How a (partial) run ends: with a value for the rest of the handler, with
    the response sent ([return res.status(..).json(..)]), or with an
    exception. *)
Inductive Outcome (A : Type) :=
| Value (a : A)
| Sent (r : Response)
| Thrown (message : string).

Arguments Value {A} a.
Arguments Sent {A} r.
Arguments Thrown {A} message.

Record Run (A : Type) := {
  outcome : Outcome A;
  db_after : Db;
  trace : list Effect
}.

Arguments outcome {A} r.
Arguments db_after {A} r.
Arguments trace {A} r.

Definition M (A : Type) : Type := Db -> Run A.

Definition ret {A} (a : A) : M A :=
  fun db => {| outcome := Value a; db_after := db; trace := [] |}.

(** The run [r] with the effects [es] done before it. *)
Definition prepend {A} (es : list Effect) (r : Run A) : Run A :=
  {| outcome := outcome r; db_after := db_after r; trace := es ++ trace r |}.

(** [m] then [k]: the rest of the handler runs only if [m] produced a value. *)
Definition bind {A B} (m : M A) (k : A -> M B) : M B :=
  fun db =>
    let r := m db in
    match outcome r with
    | Value a => prepend (trace r) (k a (db_after r))
    | Sent resp => {| outcome := Sent resp; db_after := db_after r; trace := trace r |}
    | Thrown e => {| outcome := Thrown e; db_after := db_after r; trace := trace r |}
    end.

Declare Scope handler_scope.
Delimit Scope handler_scope with handler.

Notation "x <- m ;; k" := (bind m (fun x => k))
  (at level 100, m at next level, right associativity) : handler_scope.
Notation "m ;; k" := (bind m (fun _ => k))
  (at level 100, right associativity) : handler_scope.

(** [await db(..)...] for a statement that writes. *)
Definition sql (s : Stmt) : M unit :=
  fun db => {| outcome := Value tt; db_after := run_stmt s db; trace := [Sql s] |}.

(** [await db(..)...] for a query. *)
Definition query {A} (q : Db -> A) : M A :=
  fun db => {| outcome := Value (q db); db_after := db; trace := [] |}.

Definition emit (e : Effect) : M unit :=
  fun db => {| outcome := Value tt; db_after := db; trace := [e] |}.

Definition send {A} (st : Z) (b : ResponseBody) : M A :=
  fun db => {| outcome := Sent {| status := st; json := b |}; db_after := db; trace := [] |}.

Definition throw {A} (message : string) : M A :=
  fun db => {| outcome := Thrown message; db_after := db; trace := [] |}.

(** [try { m } catch (error) { h error.message }] *)
Definition try_catch {A} (m : M A) (h : string -> M A) : M A :=
  fun db =>
    let r := m db in
    match outcome r with
    | Thrown e => prepend (trace r) (h e (db_after r))
    | _ => r
    end.

Definition when (b : bool) (m : M unit) : M unit :=
  if b then m else ret tt.

Fixpoint for_each {A} (l : list A) (f : A -> M unit) : M unit :=
  match l with
  | [] => ret tt
  | x :: r => bind (f x) (fun _ => for_each r f)
  end.

(** Every effect of every run of [m] satisfies [P]. *)
Definition respects (P : Effect -> Prop) {A} (m : M A) : Prop :=
  forall db, Forall P (trace (m db)).

(** The store after replaying the statements of a trace. *)
Definition replay (es : list Effect) (db : Db) : Db :=
  fold_left (fun d e => match e with Sql s => run_stmt s d | _ => d end) es db.

(** The stores a run passes through: one per prefix of its trace. *)
Definition states_along (es : list Effect) (db : Db) : list Db :=
  map (fun n => replay (take n es) db) (seq 0 (S (length es))).

(** The host: environment variables, library functions and collaborators
    whose code is outside the handlers. *)
Inductive ExecResult :=
| ExecOk (output : string)
| ExecFail (err_stderr err_stdout err_message : string).

Inductive ManifestFile :=
| ParseError (message : string)
| Parsed (m : Manifest.RawManifest).

(** [await wallet.verifySignature(..)]: it resolves to [{ valid }], or it
    rejects, as the wallet does on a signature it cannot verify. *)
Inductive SignatureCheck :=
| SigValid (valid : bool)
| SigThrows (message : string).

Record Host := {
  GPU_ENABLED : option string;
  DOCKER_REGISTRY : option string;
  PROJECT_DEPLOYMENT_DNS_NAME : string;
  path_join : string -> string -> string;
  existsSync : string -> bool;
  readManifest : string -> ManifestFile;       (* JSON.parse(fs.readFileSync(path)) *)
  execSync : string -> option string -> ExecResult;
  verifySignature : string -> string -> SignatureCheck;
  findBalanceForKey : string -> string -> Z;
  enableIngress : string -> bool;
  numberDigits : Js.Double -> string;          (* the digits of a number that is not a small integer *)
  templatesFound : string -> list (string * list Chart.Doc)
    (* the template files already in a chart directory before step 13, each
       with the resources Helm renders from it *)
}.

(** [`${x}`] for a number [x]. *)
Definition show_number (h : Host) (x : Js.Double) : string :=
  Js.toString (numberDigits h) x.

End Handler.

(** ** The upload handler ([src/routes/upload.ts]) *)

Module Upload.

Import Manifest Store Chart Handler.
Local Open Scope handler_scope.

(** The double-quote character, for the messages that quote a name. *)
Definition dq : string := String "034"%char EmptyString.

Record Request := {
  deploymentId : string;
  signature : string;
  query_serviceName : option string;         (* req.query.serviceName *)
  header_x_mandala_service : option string;  (* req.headers['x-mandala-service'] *)
  user_identity_key : option string;         (* req.user?.identity_key *)
  user_email : option string
}.

(** A template literal prints a missing value as [undefined]. *)
Definition show_opt (o : option string) : string := Js.or_else o "undefined".

Section Steps.

Variable h : Host.
Variable req : Request.

Definition logStep (deploy : Deploy) (message : string) (level : Level) : M unit :=
  sql (InsertLog {| log_project_id := Some (deploy_project_id deploy);
                    log_deploy_id := Some (deploy_id deploy);
                    message := message |}) ;;
  emit (Logger level [("deploymentId", deploymentId req)] message).

(** The message of the error [runCmd] throws:
    [`Command failed (${cmd}): ${stderr || stdout || err.message}`], with
    [stderr] and [stdout] cut to 3000 characters. *)
Definition failure_message (cmd err_stderr err_stdout err_message : string) : string :=
  let stderr := Js.substring0 3000 err_stderr in
  let stdout := Js.substring0 3000 err_stdout in
  "Command failed (" +:+ cmd +:+ "): " +:+
  Js.str_or (Some stderr) (Js.str_or (Some stdout) err_message).

(** [runCmd]: run a command synchronously; on failure keep at most 3000
    characters of each captured stream, log them and throw.  [execSync] gets
    the options [stdio] and [encoding] and those of the caller, of which
    [cwd] is the only one any caller passes: no call sets a [timeout]. *)
Definition runCmd (cmd : string) (cwd : option string) : M unit :=
  emit (Exec cmd cwd) ;;
  match execSync h cmd cwd with
  | ExecOk output =>
      when (Js.truthy (Some output))
        (emit (Logger info [("cmd", Js.substring0 80 cmd)] (Js.substring0 2000 output)))
  | ExecFail err_stderr err_stdout err_message =>
      let stderr := Js.substring0 3000 err_stderr in
      let stdout := Js.substring0 3000 err_stdout in
      emit (Logger error [("cmd", cmd); ("stderr", stderr); ("stdout", stdout)]
              ("Command failed: " +:+ cmd)) ;;
      throw (failure_message cmd err_stderr err_stdout err_message)
  end.

(** Step 8b: a v2 document is reduced to the selected service. *)
Definition serviceName_of : option string :=
  Js.str_or_opt (query_serviceName req) (header_x_mandala_service req).

Definition selected_service (raw : RawManifest) : option Body :=
  if Js.truthy serviceName_of
  then service_object (Js.or_else (services raw) ∅) (Js.or_else serviceName_of EmptyString)
  else None.

Definition service_manifest (raw : RawManifest) (svc : Body) : AgentManifest :=
  {| body :=
       {| agent := agent svc;
          env := Some (spread2 (env (raw_body raw)) (env svc));
          resources := resources svc;
          ports := ports svc;
          healthCheck := healthCheck svc;
          frontend := frontend svc;
          storage := storage svc;
          databases := databases svc |};
     deployments := raw_deployments raw |}.

Definition missing_service_selector : string :=
  "v2 manifest requires serviceName param identifying which service to deploy".

Definition select_manifest (deploy : Deploy) (raw : RawManifest)
  : M (AgentManifest * option string) :=
  if isV2Manifest raw then
    match selected_service raw with
    | None =>
        logStep deploy missing_service_selector error ;;
        send 400 (ErrorBody missing_service_selector)
    | Some svc =>
        logStep deploy ("v2 manifest detected, deploying service: " +:+
                        Js.or_else serviceName_of EmptyString) info ;;
        ret (service_manifest raw svc, serviceName_of)
    end
  else ret ({| body := raw_body raw; deployments := raw_deployments raw |}, None).

(** Step 9: the first target of this provider whose project id is this
    project's. *)
Definition deployConfig (manifest : AgentManifest) (project : Project) : option Target :=
  match deployments manifest with
  | Some ds =>
      List.find (fun d => String.eqb (provider d) "mandala" &&
                          bool_decide (projectID d = Some (project_uuid project))) ds
  | None => None
  end.

(** The checks of step 9 on the target found. *)
Definition target_ok (manifest : AgentManifest) (project : Project) : bool :=
  match deployConfig manifest project with
  | Some d =>
      Js.truthy (projectID d) &&
      negb (Js.truthy (Manifest.network d) &&
            negb (bool_decide (Manifest.network d = Some (Store.network project))))
  | None => false
  end.

Definition no_matching_target : string :=
  "No matching Mandala deployment config or projectID in agent-manifest.json".

Definition network_mismatch (project : Project) (declared : string) : string :=
  "Network mismatch: Project is on " +:+ network project +:+
  " but deployment config specifies " +:+ declared.

Definition check_target (deploy : Deploy) (manifest : AgentManifest) (project : Project)
  : M unit :=
  match deployConfig manifest project with
  | Some d =>
      if negb (Js.truthy (projectID d)) then
        logStep deploy no_matching_target error ;;
        send 400 (ErrorBody no_matching_target)
      else if Js.truthy (Manifest.network d) &&
              negb (bool_decide (Manifest.network d = Some (Store.network project))) then
        logStep deploy (network_mismatch project (Js.or_else (Manifest.network d) EmptyString)) error ;;
        send 400 (ErrorBody (network_mismatch project (Js.or_else (Manifest.network d) EmptyString)))
      else ret tt
  | None =>
      logStep deploy no_matching_target error ;;
      send 400 (ErrorBody no_matching_target)
  end.

Definition registryHost : string := Js.str_or (DOCKER_REGISTRY h) "mandala-registry:5000".

(** Step 10, agent image. *)
Definition build_agent (deploy : Deploy) (project : Project) (uploadDir : string)
    (m : Body) (a : Agent) : M string :=
  if Js.truthy (image a) then
    logStep deploy ("Using pre-built agent image: " +:+ Js.or_else (image a) EmptyString) info ;;
    ret (Js.or_else (image a) EmptyString)
  else
    let agentImage := registryHost +:+ "/mandala-project-" +:+ project_uuid project +:+
                      "/agent:" +:+ deploymentId req in
    logStep deploy "Building agent image..." info ;;
    let buildContext := Js.str_or (buildContext a) "." in
    let buildDir := path_join h uploadDir buildContext in
    if negb (existsSync h buildDir) then
      let errMsg := "Build context directory " +:+ dq +:+ buildContext +:+ dq +:+
                    " not found in artifact." in
      logStep deploy errMsg error ;;
      send 400 (ErrorBody errMsg)
    else
      (if String.eqb (agent_type a) "agidentity" then
         emit (WriteFile (path_join h buildDir "Dockerfile")
                 (AgidentityDockerfile (Js.or_else (ports m) [3000])
                    (existsSync h (path_join h buildDir "mpc"))
                    (existsSync h (path_join h buildDir "workspace"))))
       else if Js.truthy (dockerfile a) then
         let userDockerfilePath := path_join h uploadDir (Js.or_else (dockerfile a) EmptyString) in
         if negb (existsSync h userDockerfilePath) then
           let errMsg := "Specified Dockerfile " +:+ dq +:+ Js.or_else (dockerfile a) EmptyString +:+
                         dq +:+ " not found." in
           logStep deploy errMsg error ;;
           send 400 (ErrorBody errMsg)
         else
           let targetDockerfile := path_join h buildDir "Dockerfile" in
           when (negb (String.eqb userDockerfilePath targetDockerfile))
             (emit (CopyFile userDockerfilePath targetDockerfile))
       else
         emit (WriteFile (path_join h buildDir "Dockerfile")
                 (AgentDockerfile (Js.str_or (runtime a) "node") (Js.or_else (ports m) [8080])))) ;;
      runCmd ("buildah build --storage-driver=vfs --isolation=chroot -t " +:+ agentImage +:+
              " " +:+ buildDir) None ;;
      logStep deploy ("Agent image built: " +:+ agentImage) info ;;
      runCmd ("buildah push --tls-verify=false --storage-driver=vfs " +:+ agentImage) None ;;
      logStep deploy ("Agent image pushed: " +:+ agentImage) info ;;
      ret agentImage.

(** Step 10, frontend image. *)
Definition build_frontend (deploy : Deploy) (project : Project) (uploadDir : string)
    (m : Body) : M (option string) :=
  match frontend m with
  | None => ret None
  | Some f =>
      if Js.truthy (frontend_image f) then
        logStep deploy ("Using pre-built frontend image: " +:+
                        Js.or_else (frontend_image f) EmptyString) info ;;
        ret (frontend_image f)
      else
        let frontendImage := registryHost +:+ "/mandala-project-" +:+ project_uuid project +:+
                             "/frontend:" +:+ deploymentId req in
        logStep deploy "Building frontend image..." info ;;
        let frontendDir := path_join h uploadDir (Js.str_or (directory f) "frontend") in
        if negb (existsSync h frontendDir) then
          let errMsg := "Frontend directory not found but frontend config specified." in
          logStep deploy errMsg error ;;
          send 400 (ErrorBody errMsg)
        else
          emit (WriteFile (path_join h frontendDir "nginx.conf") NginxConf) ;;
          emit (WriteFile (path_join h frontendDir "Dockerfile") FrontendDockerfile) ;;
          runCmd ("buildah build --storage-driver=vfs --isolation=chroot -t " +:+ frontendImage +:+
                  " .") (Some frontendDir) ;;
          logStep deploy ("Frontend image built: " +:+ frontendImage) info ;;
          runCmd ("buildah push --storage-driver=vfs --tls-verify=false " +:+ frontendImage)
            (Some frontendDir) ;;
          logStep deploy ("Frontend image pushed: " +:+ frontendImage) info ;;
          ret (Some frontendImage)
  end.

(** Step 12: top up the project key when funding is required. *)
Definition fund_project_key (project : Project) : M unit :=
  when (requires_blockchain_funding project)
    (let keyBalance := findBalanceForKey h (private_key project) (Store.network project) in
     when (keyBalance <? 100)
       (emit (FundKey (if String.eqb (Store.network project) "mainnet" then "mainnet" else "testnet")
                (private_key project) 500 (Store.network project)))).

(** Step 13: write the chart. *)
Definition write_chart (deploy : Deploy) (helmDir : string) (v : Values)
    (ts : list Template) : M unit :=
  emit (EnsureDir helmDir) ;;
  emit (WriteFile (path_join h helmDir "Chart.yaml") ChartYaml) ;;
  emit (WriteFile (path_join h helmDir "values.yaml") (ValuesYaml v)) ;;
  emit (EnsureDir (path_join h helmDir "templates")) ;;
  emit (WriteFile (path_join h (path_join h helmDir "templates") "_helpers.tpl") HelpersTpl) ;;
  for_each ts (fun t =>
    emit (WriteFile (path_join h (path_join h helmDir "templates") (file_name t))
            (TemplateFile t))) ;;
  logStep deploy ("Helm chart generated at " +:+ helmDir) info.

(** Steps 14, 15, 15b and the success response. *)
Definition release (deploy : Deploy) (project : Project) (helmDir : string)
    (m : Body) (v : Values) : M unit :=
  let namespace := Chart.namespace project in
  let helmReleaseName := Chart.helmReleaseName project in
  runCmd ("helm upgrade --install " +:+ helmReleaseName +:+ " " +:+ helmDir +:+
          " --namespace " +:+ namespace +:+ " --atomic --create-namespace") None ;;
  logStep deploy ("Helm release " +:+ helmReleaseName +:+ " deployed for project " +:+
                  project_uuid project) info ;;
  runCmd ("kubectl rollout status deployment/" +:+ helmReleaseName +:+ "-deployment -n " +:+
          namespace) None ;;
  logStep deploy ("Project " +:+ project_uuid project +:+ ", release " +:+ deploymentId req +:+
                  " rolled out successfully.") info ;;
  emit RefreshAdvertisement ;;
  when (bool_decide (is_Some (frontend m)))
    (logStep deploy ("Frontend URL: " +:+ show_opt (ingressHostFrontend v)) info) ;;
  logStep deploy ("Agent URL: " +:+ ingressHostBackend v) info ;;
  send 200
    (DeployedBody "Deployment completed successfully" (ingressHostBackend v)
       (if bool_decide (is_Some (frontend m)) then ingressHostFrontend v else None)
       (if bool_decide (is_Some (frontend m)) && Js.truthy (frontend_custom_domain project)
        then frontend_custom_domain project else None)
       (if Js.truthy (backend_custom_domain project) then backend_custom_domain project else None)).

(** Paths of the staging area, scoped by the deployment id. *)
Definition filePath : string := path_join h "/tmp" ("artifact_" +:+ deploymentId req +:+ ".tgz").
Definition uploadDir : string := path_join h "/tmp" ("build_" +:+ deploymentId req).
Definition manifestPath : string := path_join h uploadDir "agent-manifest.json".
Definition helmDir : string := path_join h uploadDir "helm".

Definition invalid_schema : string :=
  "Invalid schema in agent-manifest.json (expected " +:+ dq +:+ "mandala-agent" +:+ dq +:+ ")".

(** Steps 5 to 8: store and extract the artifact, read the manifest. *)
Definition stage (deploy : Deploy) : M RawManifest :=
  (* 5) store the artifact *)
  emit (WriteFile filePath RequestBody) ;;
  sql (UpdateDeployFilePath (deploy_id deploy) filePath) ;;
  logStep deploy ("File uploaded successfully, saved to " +:+ filePath) info ;;
  (* 6) working directory, 7) extraction *)
  emit (EnsureDir uploadDir) ;;
  runCmd ("tar -xzf " +:+ filePath +:+ " -C " +:+ uploadDir) None ;;
  logStep deploy ("Tarball extracted at " +:+ uploadDir) info ;;
  (* 8) the manifest *)
  if negb (existsSync h manifestPath) then
    logStep deploy "agent-manifest.json not found in tarball." error ;;
    send 400 (ErrorBody "agent-manifest.json not found in tarball.")
  else
    match readManifest h manifestPath with
    | ParseError e => throw e
    | Parsed rawManifest =>
        if negb (bool_decide (schema rawManifest = Some "mandala-agent")) then
          logStep deploy invalid_schema error ;;
          send 400 (ErrorBody invalid_schema)
        else ret rawManifest
    end.

Definition gpu_unsupported : string := "This node does not support GPU workloads.".

(** Steps 8b, 8c and 9: from the parsed document to the single-service
    manifest this node accepts, with the selected service name. *)
Definition compile (deploy : Deploy) (project : Project) (rawManifest : RawManifest)
  : M (AgentManifest * option string) :=
  (* 8b) v2 detection *)
  sel <- select_manifest deploy rawManifest ;;
  (* 8c) GPU requests on non-GPU nodes *)
  if requests_gpu (body (fst sel)) && negb (bool_decide (GPU_ENABLED h = Some "true")) then
    send 400 (ErrorBody gpu_unsupported)
  else
    (* 9) deployment target *)
    check_target deploy (fst sel) project ;;
    ret sel.

(** Steps 9b to 15: build, generate the chart, release. *)
Definition deploy_manifest (deploy : Deploy) (project : Project)
    (manifest : AgentManifest) (serviceName : option string) : M unit :=
  let m := body manifest in
  (* 9b) *)
  when (Js.truthy serviceName)
    (sql (UpdateDeployServiceName (deploy_id deploy) (Js.or_else serviceName EmptyString))) ;;
  (* 10) images *)
  match agent m with
  | None => throw "Cannot read properties of undefined (reading 'image')"
  | Some a =>
      agentImage <- build_agent deploy project uploadDir m a ;;
      frontendImage <- build_frontend deploy project uploadDir m ;;
      (* 12) funding *)
      fund_project_key project ;;
      (* 13) chart *)
      let v := valuesObj (PROJECT_DEPLOYMENT_DNS_NAME h) m project
                 (Some agentImage) frontendImage in
      write_chart deploy helmDir v (templates m a project v) ;;
      (* 14), 15) *)
      release deploy project helmDir m v
  end.

(** The [try] block after the signature and balance checks. *)
Definition pipeline (deploy : Deploy) (project : Project) : M unit :=
  rawManifest <- stage deploy ;;
  sel <- compile deploy project rawManifest ;;
  deploy_manifest deploy project (fst sel) (snd sel).

(** The [catch] block: record the error, try to notify the admins, answer 500
    with the error message. *)
Definition on_error (deploy : Deploy) (project : Project) (message : string) : M unit :=
  sql (InsertLog {| log_project_id := Some (id project);
                    log_deploy_id := Some (deploy_id deploy);
                    message := "Error handling upload: " +:+ message |}) ;;
  emit (Logger error [("deploymentId", deploymentId req); ("error", message)]
          ("Error handling upload: " +:+ message)) ;;
  emails <- query (fun db => admin_emails db (id project)) ;;
  emit (Email emails ("Deployment Failure for Project: " +:+ name project)
          ("Hello,

A deployment for project " +:+ dq +:+ name project +:+ dq +:+ " (ID: " +:+ project_uuid project +:+ ") has failed.
Deployment ID: " +:+ deployment_uuid deploy +:+ "

Error Details:
" +:+ message +:+ "

Originated by: " +:+ show_opt (user_identity_key req) +:+ " (" +:+ show_opt (user_email req) +:+ ")

Please check the logs for more details.

Regards,
Mandala Network")) ;;
  send 500 (ErrorBody ("Error handling upload: " +:+ message)).

(** The handler. *)
Definition upload : M unit :=
  (* 1) the deployment record *)
  deploy <- query (fun db => deploy_by_uuid db (deploymentId req)) ;;
  match deploy with
  | None => send 400 (ErrorBody "Invalid deploymentId")
  | Some deploy =>
      (* 2) the project *)
      project <- query (fun db => project_by_id db (deploy_project_id deploy)) ;;
      match project with
      | None => send 400 (ErrorBody "Project not found")
      | Some project =>
          try_catch
            ((* 3) signature *)
             match verifySignature h (deploymentId req) (signature req) with
             | SigThrows message => throw message
             | SigValid valid =>
                 if negb valid then
                   send 401 (ErrorBody "Invalid signature")
                 (* 4) balance *)
                 else if Js.ltb (balance project) 1 then
                   send 401 (ErrorBody
                     ("Project balance must be at least 1 satoshi to upload a deployment. Current balance: "
                      +:+ show_number h (balance project)))
                 else pipeline deploy project
             end)
            (on_error deploy project)
      end
  end.

End Steps.

(** What [runCmd] hands to the logger when a command fails. *)
Definition failure_log (cmd err_stderr err_stdout : string) : Effect :=
  Logger error [("cmd", cmd); ("stderr", Js.substring0 3000 err_stderr);
                ("stdout", Js.substring0 3000 err_stdout)]
    ("Command failed: " +:+ cmd).

(** A run that executed a failing command logged it and ended by throwing
    that command's failure message. *)
Definition fails_loudly (h : Host) {A} (m : M A) : Prop :=
  forall db cmd cwd e o msg,
    In (Exec cmd cwd) (trace (m db)) ->
    execSync h cmd cwd = ExecFail e o msg ->
    outcome (m db) = Thrown (failure_message cmd e o msg) /\
    In (failure_log cmd e o) (trace (m db)).

(** An effect of the [catch] block: a row or a line of the log, or a mail. *)
Definition reports_only (e : Effect) : Prop :=
  match e with
  | Sql (InsertLog _) | Logger _ _ _ | Email _ _ _ => True
  | _ => False
  end.

(** The request passes steps 1 to 4. *)
Definition accepted (h : Host) (req : Request) (db : Db) (deploy : Deploy) (project : Project)
  : Prop :=
  deploy_by_uuid db (deploymentId req) = Some deploy /\
  project_by_id db (deploy_project_id deploy) = Some project /\
  verifySignature h (deploymentId req) (signature req) = SigValid true /\
  Js.ltb (balance project) 1 = false.

(** The artifact unpacks and holds a manifest of the right schema. *)
Definition staged (h : Host) (req : Request) (raw : RawManifest) : Prop :=
  (exists out,
     execSync h ("tar -xzf " +:+ filePath h req +:+ " -C " +:+ uploadDir h req) None
     = ExecOk out) /\
  existsSync h (manifestPath h req) = true /\
  readManifest h (manifestPath h req) = Parsed raw /\
  schema raw = Some "mandala-agent".

(** An effect that builds or pushes an image. *)
Definition is_build_or_push (e : Effect) : bool :=
  match e with
  | Exec cmd _ => String.prefix "buildah " cmd
  | _ => false
  end.

(** An effect that applies a release to the cluster. *)
Definition is_apply (e : Effect) : bool :=
  match e with
  | Exec cmd _ => String.prefix "helm upgrade " cmd
  | _ => false
  end.

Definition no_build (e : Effect) : Prop := is_build_or_push e = false.

(** An effect that applies no release. *)
Definition no_apply (e : Effect) : Prop := is_apply e = false.

(** The template files a trace writes, in order. *)
Definition written_templates (es : list Effect) : list Chart.Template :=
  flat_map (fun e => match e with WriteFile _ (TemplateFile t) => [t] | _ => [] end) es.

(** The values files a trace writes, in order. *)
Definition written_values (es : list Effect) : list Chart.Values :=
  flat_map (fun e => match e with WriteFile _ (ValuesYaml v) => [v] | _ => [] end) es.

(** An effect that writes no template file. *)
Definition no_template (e : Effect) : Prop :=
  match e with WriteFile _ (TemplateFile _) => False | _ => True end.

(** An effect that spawns no command. *)
Definition not_exec (e : Effect) : Prop :=
  match e with Exec _ _ => False | _ => True end.

End Upload.

(** ** The project routes (create, pay, addAdmin, removeAdmin, delete) *)

Module Projects.

Import Store Handler.
Local Open Scope handler_scope.

Definition dq : string := Upload.dq.

(** A value of the request body where the handler expects a number:
    [typeof amount === 'number'] holds on [JNumber] only. *)
Inductive JsonValue :=
| JNumber (n : Js.Double)
| JOther.

(** [/^[0-9a-f]{64}$/] *)
Definition is_lower_hex (c : ascii) : bool :=
  let n := nat_of_ascii c in
  ((48 <=? n)%nat && (n <=? 57)%nat) || ((97 <=? n)%nat && (n <=? 102)%nat).

Definition valid_private_key (s : string) : bool :=
  Nat.eqb (String.length s) 64 && forallb is_lower_hex (list_ascii_of_string s).

Section Routes.

Variable h : Host.
Variable identityKey : string.          (* req.auth.identityKey *)

(** *** Middleware *)

Definition requireRegisteredUser (next : User -> M unit) : M unit :=
  user <- query (fun db => user_by_identity db identityKey) ;;
  match user with
  | None =>
      emit (Logger warn [("identityKey", identityKey)] "User not registered") ;;
      send 401 (ErrorBody "User not registered")
  | Some user => next user
  end.

Definition requireProject (projectId : string) (next : Project -> M unit) : M unit :=
  project <- query (fun db => project_by_uuid db projectId) ;;
  match project with
  | None =>
      emit (Logger warn [("projectId", projectId)] "Project not found") ;;
      send 404 (ErrorBody "Project not found")
  | Some project => next project
  end.

Definition requireProjectAdmin (project : Project) (next : M unit) : M unit :=
  admin <- query (fun db => admin_row db (id project) identityKey) ;;
  match admin with
  | None =>
      emit (Logger warn [("identityKey", identityKey); ("projectId", project_uuid project)]
              "User is not admin of project") ;;
      send 403 (ErrorBody "User not admin")
  | Some _ => next
  end.

(** The chain [requireRegisteredUser, requireProject, requireProjectAdmin]. *)
Definition as_project_admin (projectId : string) (next : User -> Project -> M unit) : M unit :=
  requireRegisteredUser (fun user =>
    requireProject projectId (fun project =>
      requireProjectAdmin project (next user project))).

(** *** POST /create *)

Definition create (name network privateKey : option string)
    (requiresBlockchainFunding : option bool)
    (randomProjectId randomPrivateKey : string) : M unit :=
  requireRegisteredUser (fun _ =>
    let projectId := randomProjectId in
    emit (Exec ("kubectl create namespace mandala-project-" +:+ projectId +:+ " || true") None) ;;
    emit (Logger info [] ("Namespace mandala-project-" +:+ projectId +:+ " ensured.")) ;;
    if Js.truthy privateKey && negb (valid_private_key (Js.or_else privateKey EmptyString)) then
      send 400 (ErrorBody "Invalid private key")
    else
      let privateKey := Js.str_or privateKey randomPrivateKey in
      projId <- query next_project_id ;;
      sql (InsertProject
             {| id := projId;
                project_uuid := projectId;
                Store.name := Js.str_or name "Unnamed Project";
                balance := 0;
                Store.network := if bool_decide (network = Some "testnet")
                                 then "testnet" else "mainnet";
                private_key := privateKey;
                agent_config := Some ∅;
                requires_blockchain_funding := Js.flag requiresBlockchainFunding;
                frontend_custom_domain := None;
                backend_custom_domain := None |}) ;;
      sql (InsertAdmin {| admin_project_id := projId; admin_identity_key := identityKey |}) ;;
      sql (InsertLog {| log_project_id := None; log_deploy_id := None;
                        message := "Project created" |}) ;;
      emit (Logger info [("projectId", projectId); ("name", Upload.show_opt name)]
              "Project created") ;;
      send 200 (ProjectCreatedBody projectId "Project created")).

(** *** POST /:projectId/pay *)

Definition credit_row (project : Project) (amount newBalance : Js.Double) : AccountingRow :=
  {| acc_project_id := id project;
     acc_type := "credit";
     amount_sats := amount;
     balance_after := newBalance;
     metadata := "{" +:+ dq +:+ "reason" +:+ dq +:+ ":" +:+ dq +:+ "Admin payment" +:+ dq +:+ "}" |}.

Definition project_log (project : Project) (msg : string) : Stmt :=
  InsertLog {| log_project_id := Some (id project); log_deploy_id := None; message := msg |}.

Definition pay_body (amount : JsonValue) (project : Project) : M unit :=
  match amount with
  | JNumber amount =>
      if Js.leb amount 0 then
        send 400 (ErrorBody "Invalid amount. Must be a positive number.")
      else
        let oldBalance := balance project in           (* Number(project.balance) *)
        let newBalance := Js.add oldBalance amount in
        sql (UpdateProjectBalance (id project) newBalance) ;;
        (* Insert accounting record (credit) *)
        sql (InsertAccounting (credit_row project amount newBalance)) ;;
        sql (project_log project
               ("Balance increased by " +:+ show_number h amount +:+ ". New balance: " +:+
                show_number h newBalance)) ;;
        (* If balance was negative and now is >=0, re-enable ingress *)
        when (Js.ltb oldBalance 0 && Js.leb 0 newBalance)
          (emit (EnableIngress (project_uuid project)) ;;
           if enableIngress h (project_uuid project) then
             sql (project_log project
                    ("Ingress re-enabled after payment. Balance: " +:+ show_number h newBalance))
           else
             sql (project_log project
                    "Unable to re-enable ingress after payment, project needs to be redeployed.")) ;;
        send 200 (MessageBody ("Paid " +:+ show_number h amount +:+ " sats. New balance: " +:+
                               show_number h newBalance))
  | JOther => send 400 (ErrorBody "Invalid amount. Must be a positive number.")
  end.

Definition pay (projectId : string) (amount : JsonValue) : M unit :=
  as_project_admin projectId (fun _ project => pay_body amount project).

(** *** Admins *)

(** [resolveUser]: by identity key, else by e-mail when the text has an [@]. *)
Definition resolveUser (db : Db) (identityOrEmail : string) : option User :=
  match user_by_identity db identityOrEmail with
  | Some u => Some u
  | None =>
      if Js.includes_char "@"%char identityOrEmail
      then user_by_email db identityOrEmail
      else None
  end.

Definition originated_by (user : User) : string :=
  "Originated by: " +:+ identity_key user +:+ " (" +:+ email user +:+ ")

Regards,
Mandala Network".

Definition project_ref (project : Project) : string :=
  "project " +:+ dq +:+ name project +:+ dq +:+ " (ID: " +:+ project_uuid project +:+ ")".

Definition addAdmin_body (identityKeyOrEmail : string) (user : User) (project : Project)
  : M unit :=
  targetUser <- query (fun db => resolveUser db identityKeyOrEmail) ;;
  match targetUser with
  | None => send 400 (ErrorBody "Target user not registered")
  | Some targetUser =>
      existing <- query (fun db => admin_row db (id project) (identity_key targetUser)) ;;
      match existing with
      | None =>
          sql (InsertAdmin {| admin_project_id := id project;
                              admin_identity_key := identity_key targetUser |}) ;;
          sql (project_log project ("Admin added: " +:+ identity_key targetUser)) ;;
          emails <- query (fun db => admin_emails db (id project)) ;;
          emit (Email emails ("Admin Added to Project: " +:+ name project)
                  ("Hello,

User " +:+ identity_key targetUser +:+ " (" +:+ email targetUser +:+
                   ") has been added as an admin to " +:+ project_ref project +:+ ".

" +:+ originated_by user)) ;;
          emit (Email [email targetUser]
                  ("You have been added as an admin to: " +:+ name project)
                  ("Hello,

You have been added as an admin to " +:+ project_ref project +:+ ".

" +:+ originated_by user)) ;;
          send 200 (MessageBody "Admin added")
      | Some _ => send 200 (MessageBody "User is already an admin")
      end
  end.

Definition addAdmin (projectId identityKeyOrEmail : string) : M unit :=
  as_project_admin projectId (addAdmin_body identityKeyOrEmail).

Definition is_target (targetUser : User) (a : AdminRow) : bool :=
  String.eqb (admin_identity_key a) (identity_key targetUser).

Definition removeAdmin_body (identityKeyOrEmail : string) (user : User) (project : Project)
  : M unit :=
  targetUser <- query (fun db => resolveUser db identityKeyOrEmail) ;;
  match targetUser with
  | None => send 400 (ErrorBody "Target user not registered")
  | Some targetUser =>
      admins <- query (fun db => admins_of db (id project)) ;;
      if Nat.eqb (length admins) 1 &&
         match head admins with Some a => is_target targetUser a | None => false end then
        send 400 (ErrorBody "Cannot remove last admin")
      else
        match List.find (is_target targetUser) admins with
        | None => send 400 (ErrorBody "User not an admin")
        | Some _ =>
            sql (DeleteAdmin (id project) (identity_key targetUser)) ;;
            sql (project_log project ("Admin removed: " +:+ identity_key targetUser)) ;;
            emails <- query (fun db => admin_emails db (id project)) ;;
            emit (Email emails ("Admin Removed from Project: " +:+ name project)
                    ("Hello,

User " +:+ identity_key targetUser +:+ " (" +:+ email targetUser +:+
                     ") has been removed as an admin from " +:+ project_ref project +:+ ".

" +:+ originated_by user)) ;;
            send 200 (MessageBody "Admin removed")
        end
  end.

Definition removeAdmin (projectId identityKeyOrEmail : string) : M unit :=
  as_project_admin projectId (removeAdmin_body identityKeyOrEmail).

(** *** POST /:projectId/delete *)

Definition delete_body (user : User) (project : Project) : M unit :=
  let namespace := Chart.namespace project in
  let helmReleaseName := Chart.helmReleaseName project in
  emit (Exec ("helm uninstall " +:+ helmReleaseName +:+ " -n " +:+ namespace) None) ;;
  emit (Exec ("kubectl delete namespace " +:+ namespace) None) ;;
  emails <- query (fun db => admin_emails db (id project)) ;;
  emit (Email emails ("Project Deleted: " +:+ name project)
          ("Hello,

Project " +:+ dq +:+ name project +:+ dq +:+ " (ID: " +:+ project_uuid project +:+ ") has been deleted.

Originated by: " +:+ identity_key user +:+ " (" +:+ email user +:+ ")

All resources have been removed.

Regards,
Mandala Network")) ;;
  sql (DeleteAccountingOf (id project)) ;;
  sql (DeleteDeploysOf (id project)) ;;
  sql (DeleteAdminsOf (id project)) ;;
  sql (DeleteLogsOf (id project)) ;;
  sql (DeleteProject (id project)) ;;
  send 200 (MessageBody "Project deleted").

Definition delete (projectId : string) : M unit :=
  as_project_admin projectId delete_body.

End Routes.

(** *** Sequences of requests *)

(** Requests served one after another: one request served to completion
    before the next one starts, or any other write that leaves the project
    ids and the admin rows alone (uploads, settings, billing, user
    registration).  The handlers are [async] and open no transaction, so
    requests in flight together can interleave at every [await]; runs of that
    kind are not steps of this relation (see [Overlap] for two of them). *)
Inductive step (h : Host) (db : Db) : Db -> Prop :=
| step_create key name network privateKey funding rid rkey :
    step h db (db_after (create key name network privateKey funding rid rkey db))
| step_pay key projectId amount :
    step h db (db_after (pay h key projectId amount db))
| step_addAdmin key projectId target :
    step h db (db_after (addAdmin key projectId target db))
| step_removeAdmin key projectId target :
    step h db (db_after (removeAdmin key projectId target db))
| step_delete key projectId :
    step h db (db_after (delete key projectId db))
| step_other db' :
    map id (projects db') = map id (projects db) ->
    project_admins db' = project_admins db ->
    next_project_id db' = next_project_id db ->
    step h db db'.

(** A store with no project yet. *)
Definition fresh (db : Db) : Prop :=
  projects db = [] /\ project_admins db = [].

Inductive reachable (h : Host) : Db -> Prop :=
| reachable_fresh db : fresh db -> reachable h db
| reachable_step db db' : reachable h db -> step h db db' -> reachable h db'.

Definition pids (db : Db) : list Z := map id (projects db).

(** What every store reached through the routes satisfies. *)
Record admin_inv (db : Db) : Prop := {
  inv_ids : forall i, In i (pids db) -> i < next_project_id db;
  inv_ref : forall r, In r (project_admins db) -> In (admin_project_id r) (pids db);
  inv_nodup : List.NoDup (project_admins db);
  inv_admin : forall i, In i (pids db) -> admins_of db i <> []
}.

(** The balance a query by id reads. *)
Definition balance_of (db : Db) (pid : Z) : option Js.Double :=
  option_map balance (project_by_id db pid).

(** In [db], every balance that differs from its value in [db0] has its
    ledger row: the ledger of [db] extends that of [db0] with a row of that
    project whose [balance_after] is the new balance. *)
Definition ledger_paired (db0 db : Db) : Prop :=
  forall pid b0 b,
    balance_of db0 pid = Some b0 -> balance_of db pid = Some b -> b <> b0 ->
    exists news r,
      project_accounting db = project_accounting db0 ++ news /\ In r news /\
      acc_project_id r = pid /\ balance_after r = b.

(** What the balance update of a payment to [project] does to a row. *)
Definition credit (project : Project) (newBalance : Js.Double) (p : Project) : Project :=
  if id p =? id project then set_balance newBalance p else p.

(** The effects of an accepted payment, in order. *)
Definition pay_trace (h : Host) (project : Project) (amount : Js.Double) : list Effect :=
  let newBalance := Js.add (balance project) amount in
  [ Sql (UpdateProjectBalance (id project) newBalance);
    Sql (InsertAccounting (credit_row project amount newBalance));
    Sql (project_log project
           ("Balance increased by " +:+ show_number h amount +:+ ". New balance: " +:+
            show_number h newBalance)) ] ++
  (if Js.ltb (balance project) 0 && Js.leb 0 newBalance then
     [ EnableIngress (project_uuid project);
       Sql (project_log project
              (if enableIngress h (project_uuid project)
               then "Ingress re-enabled after payment. Balance: " +:+ show_number h newBalance
               else "Unable to re-enable ingress after payment, project needs to be redeployed.")) ]
   else []).

(** Effects that leave the projects and the ledger as they are. *)
Definition log_only (e : Effect) : Prop :=
  match e with
  | Sql (InsertLog _) => True
  | Sql _ => False
  | _ => True
  end.

(** An effect that only writes to the store. *)
Definition is_store_write (e : Effect) : bool :=
  match e with Sql _ => true | _ => false end.

End Projects.

(** ** Concrete projects, manifests and hosts *)

Module Examples.

Import Manifest Store Chart Handler Upload Projects.

Definition alice : User :=
  {| identity_key := "02alice"; email := "alice@example.com" |}.

Definition uuid1 : string := "0123456789abcdef0123456789abcdef".

Definition project1 (b : Z) : Project :=
  {| id := 1; project_uuid := uuid1; name := "demo"; Store.network := "mainnet";
     balance := b; private_key := "k"; agent_config := Some ∅;
     requires_blockchain_funding := false;
     frontend_custom_domain := None; backend_custom_domain := None |}.

Definition deploy1 : Deploy :=
  {| deploy_id := 7; deployment_uuid := "d1"; deploy_project_id := 1;
     file_path := None; service_name := None |}.

(** A store with one project of balance [b], administered by alice. *)
Definition db1 (b : Z) : Db :=
  {| projects := [project1 b]; users := [alice]; deploys := [deploy1];
     project_admins := [{| admin_project_id := 1; admin_identity_key := "02alice" |}];
     project_accounting := []; logs := []; next_project_id := 2 |}.

(** A store before any project exists. *)
Definition db0 : Db :=
  {| projects := []; users := [alice]; deploys := []; project_admins := [];
     project_accounting := []; logs := []; next_project_id := 1 |}.

Definition agent_custom : Agent :=
  {| agent_type := "custom"; image := None; dockerfile := None; buildContext := None;
     runtime := None |}.

(** Ports [8080], a health check on [/health] every 30s, no frontend, no
    database, no storage. *)
Definition body_plain : Body :=
  {| agent := Some agent_custom; env := None; resources := None; ports := Some [8080];
     healthCheck := Some {| hc_path := "/health"; hc_port := None;
                            intervalSeconds := Some 30 |};
     frontend := None; storage := None;
     databases := Some {| mysql := Some false; mongo := Some false; redis := Some false |} |}.

Definition body_gpu : Body :=
  {| agent := Some agent_custom; env := None;
     resources := Some {| cpu := None; memory := None; gpu := Some "1"; tee := None;
                          teeInferenceProxy := None |};
     ports := None; healthCheck := None; frontend := None; storage := None;
     databases := None |}.

Definition target (net : string) : Target :=
  {| provider := "mandala"; projectID := Some uuid1; Manifest.network := Some net;
     MandalaCloudURL := None |}.

Definition manifest_v1 (b : Body) (ts : list Target) : RawManifest :=
  {| schema := Some "mandala-agent"; schemaVersion := Some "1.0"; services := None;
     raw_body := b; raw_deployments := Some ts |}.

Definition manifest_v2 : RawManifest :=
  {| schema := Some "mandala-agent"; schemaVersion := Some "2.0";
     services := Some {[ "api" := SvcObject body_plain ]};
     raw_body := empty_body; raw_deployments := Some [target "mainnet"] |}.

Definition exec_ok : string -> option string -> ExecResult :=
  fun _ _ => ExecOk EmptyString.

(** The image build fails and the builder prints to stderr. *)
Definition exec_build_fails : string -> option string -> ExecResult :=
  fun cmd _ =>
    if String.prefix "buildah build" cmd
    then ExecFail "Error: open /app/.env: permission denied" EmptyString "exit status 125"
    else ExecOk EmptyString.

Definition host (gpu : option string) (raw : RawManifest)
    (exec : string -> option string -> ExecResult) : Host :=
  {| GPU_ENABLED := gpu; DOCKER_REGISTRY := None;
     PROJECT_DEPLOYMENT_DNS_NAME := "example.com";
     path_join := fun a b => a +:+ "/" +:+ b;
     existsSync := fun _ => true;
     readManifest := fun _ => Parsed raw;
     execSync := exec;
     verifySignature := fun _ _ => SigValid true;
     findBalanceForKey := fun _ _ => 0;
     enableIngress := fun _ => true;
     numberDigits := fun _ => "?";
     templatesFound := fun _ => [] |}.

(** The host [h] with a wallet that rejects every signature. *)
Definition rejecting_signature (h : Host) : Host :=
  {| GPU_ENABLED := GPU_ENABLED h; DOCKER_REGISTRY := DOCKER_REGISTRY h;
     PROJECT_DEPLOYMENT_DNS_NAME := PROJECT_DEPLOYMENT_DNS_NAME h;
     path_join := path_join h; existsSync := existsSync h;
     readManifest := readManifest h; execSync := execSync h;
     verifySignature := fun _ _ => SigThrows "Signature is not valid";
     findBalanceForKey := findBalanceForKey h; enableIngress := enableIngress h;
     numberDigits := numberDigits h; templatesFound := templatesFound h |}.

(** The claim an earlier upload with storage left in the chart directory. *)
Definition stale_claim : string * list Doc :=
  ("agent-pvc.yaml",
   [ {| kind := PersistentVolumeClaim;
        doc_name := "mandala-project-0123456789abcdef01234567-agent-pvc";
        spec := PvcSpec "10Gi" |} ]).

(** The host [h] with [found] in every chart directory. *)
Definition with_found (found : list (string * list Doc)) (h : Host) : Host :=
  {| GPU_ENABLED := GPU_ENABLED h; DOCKER_REGISTRY := DOCKER_REGISTRY h;
     PROJECT_DEPLOYMENT_DNS_NAME := PROJECT_DEPLOYMENT_DNS_NAME h;
     path_join := path_join h; existsSync := existsSync h;
     readManifest := readManifest h; execSync := execSync h;
     verifySignature := verifySignature h;
     findBalanceForKey := findBalanceForKey h; enableIngress := enableIngress h;
     numberDigits := numberDigits h; templatesFound := fun _ => found |}.

Definition request (sel : option string) : Request :=
  {| deploymentId := "d1"; signature := "00"; query_serviceName := sel;
     header_x_mandala_service := None; user_identity_key := None; user_email := None |}.

(** Two targets for this project: the first names another network, the
    second the project's own. *)
Definition two_targets : RawManifest :=
  manifest_v1 body_plain [target "testnet"; target "mainnet"].

End Examples.

(** ** Access to the project routes, and what a refusal is *)

Module Access.

Import Store Handler Projects.

(** The caller passes [requireRegisteredUser], [requireProject] and
    [requireProjectAdmin]. *)
Definition authorized (db : Db) (key projectId : string) : bool :=
  match user_by_identity db key, project_by_uuid db projectId with
  | Some _, Some project =>
      match admin_row db (id project) key with Some _ => true | None => false end
  | _, _ => false
  end.

(** A run that was refused: an error response of the middleware, the store
    as it was, and nothing done but a warning in the log. *)
Definition is_warning (e : Effect) : Prop :=
  match e with Logger warn _ _ => True | _ => False end.

Definition refused (db : Db) (r : Run unit) : Prop :=
  (exists st msg, outcome r = Sent {| status := st; json := ErrorBody msg |} /\
                  In st [401; 404; 403]) /\
  db_after r = db /\
  Forall is_warning (trace r).

(** The amount passes [typeof amount !== 'number' || amount <= 0]. *)
Definition valid_amount (amount : JsonValue) : bool :=
  match amount with JNumber n => negb (Js.leb n 0) | JOther => false end.

(** The statements of a trace. *)
Definition statements (es : list Effect) : list Stmt :=
  flat_map (fun e => match e with Sql s => [s] | _ => [] end) es.

(** The row POST /:projectId/addAdmin inserts for [targetUser]. *)
Definition admin_added (project : Project) (targetUser : User) : AdminRow :=
  {| admin_project_id := id project; admin_identity_key := identity_key targetUser |}.

End Access.

(** ** The rows of a project *)

Module Lifecycle.

Import Store Handler Projects.

(** The rows of each table that belong to project [pid]. *)
Definition deploys_of (db : Db) (pid : Z) : list Deploy :=
  List.filter (fun d => Z.eqb (deploy_project_id d) pid) (deploys db).

Definition logs_of (db : Db) (pid : Z) : list LogRow :=
  List.filter (fun r => eq_opt_Z (log_project_id r) pid) (logs db).

Definition projects_with_id (db : Db) (pid : Z) : list Project :=
  List.filter (fun p => Z.eqb (id p) pid) (projects db).

(** [create] is given no key, or one that passes the format check. *)
Definition key_accepted (privateKey : option string) : bool :=
  negb (Js.truthy privateKey) || valid_private_key (Js.or_else privateKey EmptyString).

End Lifecycle.

(** ** What the upload handler answers, and what a release is *)

Module Verdict.

Import Manifest Store Chart Handler Upload.

(** Every response [m] sends satisfies [Q]. *)
Definition replies (Q : Response -> Prop) {A} (m : M A) : Prop :=
  forall db r, outcome (m db) = Sent r -> Q r.

(** [m] ends by responding or by throwing, never by falling through. *)
Definition never_returns {A} (m : M A) : Prop :=
  forall db a, outcome (m db) <> Value a.

Definition client_error (r : Response) : Prop := status r = 400.

(** The commands of steps 14 and 15. *)
Definition helm_upgrade (h : Host) (req : Request) (project : Project) : string :=
  "helm upgrade --install " +:+ helmReleaseName project +:+ " " +:+ helmDir h req +:+
  " --namespace " +:+ namespace project +:+ " --atomic --create-namespace".

Definition rollout_status (project : Project) : string :=
  "kubectl rollout status deployment/" +:+ helmReleaseName project +:+ "-deployment -n " +:+
  namespace project.

(** The release was applied, then its rollout awaited, then the node's
    advertisement refreshed. *)
Definition rolled_out (h : Host) (req : Request) (project : Project) (es : list Effect)
  : Prop :=
  exists before between after,
    es = before ++ Exec (helm_upgrade h req project) None :: between ++
         Exec (rollout_status project) None :: after /\
    In RefreshAdvertisement after.

(** [compile] hands [manifest] and the selected service name to the steps
    that build, write the chart and release. *)
Definition selected (h : Host) (req : Request) (deploy : Deploy) (project : Project)
    (manifest : AgentManifest) (sn : option string) : Prop :=
  exists raw db,
    readManifest h (manifestPath h req) = Parsed raw /\
    outcome (compile h req deploy project raw db) = Value (manifest, sn).

(** The template directory of this deployment's chart, and a file in it. *)
Definition templates_dir (h : Host) (req : Request) : string :=
  path_join h (helmDir h req) "templates".

Definition template_path (h : Host) (req : Request) (name : string) : string :=
  path_join h (templates_dir h req) name.

(** The template files found in this deployment's chart directory. *)
Definition found_in_chart (h : Host) (req : Request) : list (string * list Doc) :=
  templatesFound h (templates_dir h req).

(** The effects [es] write the values [v] and the template files [ts], each
    under its name in the chart directory, and no other template file, and
    then apply the release from that directory. *)
Definition released_chart (h : Host) (req : Request) (project : Project)
    (v : Values) (ts : list Template) (es : list Effect) : Prop :=
  exists before after,
    es = before ++ Exec (helm_upgrade h req project) None :: after /\
    In (WriteFile (path_join h (helmDir h req) "values.yaml") (ValuesYaml v)) before /\
    written_templates before = ts /\
    (forall t, In t ts ->
               In (WriteFile (template_path h req (file_name t)) (TemplateFile t)) before) /\
    written_templates after = [].

(** The effects release the chart of [manifest] for the images the run
    resolved. *)
Definition releases (h : Host) (req : Request) (project : Project)
    (manifest : AgentManifest) (es : list Effect) : Prop :=
  exists a ai fi,
    agent (body manifest) = Some a /\
    let v := valuesObj (PROJECT_DEPLOYMENT_DNS_NAME h) (body manifest) project (Some ai) fi in
    released_chart h req project v (templates (body manifest) a project v) es.

Definition selects_and_releases (h : Host) (req : Request) (deploy : Deploy)
    (project : Project) (es : list Effect) : Prop :=
  exists manifest sn,
    selected h req deploy project manifest sn /\ releases h req project manifest es.

(** The command of the wait names no timeout. *)
Definition no_timeout (cmd : string) : bool := negb (Js.includes "--timeout" cmd).

(** A 200 is sent only by runs whose effects satisfy [P]. *)
Definition succeeds_with (P : list Effect -> Prop) {A} (m : M A) : Prop :=
  forall db r, outcome (m db) = Sent r -> status r = 200 -> P (trace (m db)).

(** Both images of the manifest are given, none is to be built. *)
Definition prebuilt (m : Body) : bool :=
  match agent m with Some a => Js.truthy (image a) | None => true end &&
  match frontend m with Some f => Js.truthy (frontend_image f) | None => true end.

Definition all_prebuilt (raw : RawManifest) : Prop :=
  if isV2Manifest raw
  then forall name b, Js.or_else (services raw) ∅ !! name = Some (SvcObject b) ->
                      prebuilt b = true
  else prebuilt (raw_body raw) = true.

End Verdict.

(** ** What an upload may change in the store *)

Module Footprint.

Import Manifest Store Chart Handler Upload.

(** What identifies a deployment row. *)
Definition deploy_key (d : Deploy) : Z * string * Z :=
  (deploy_id d, deployment_uuid d, deploy_project_id d).

(** [db'] differs from [db] in new log rows and in the artifact path and
    service name of the deployment rows with id [did], and in nothing else. *)
Definition touches_only (did : Z) (db db' : Db) : Prop :=
  projects db' = projects db /\ users db' = users db /\
  project_admins db' = project_admins db /\
  project_accounting db' = project_accounting db /\
  next_project_id db' = next_project_id db /\
  Forall2 (fun d d' => deploy_key d' = deploy_key d /\ (deploy_id d <> did -> d' = d))
    (deploys db) (deploys db') /\
  exists news, logs db' = logs db ++ news.

Definition keeps_to (did : Z) {A} (m : M A) : Prop :=
  forall db, touches_only did db (db_after (m db)).

End Footprint.

(** ** Readings of the generated chart *)

Module ChartSpec.

Import Manifest Store Chart.

(** The value the deployment gives variable [k]: the project's settings
    first, then the service's [env], then the document's. *)
Definition env_value (raw : RawManifest) (svc : Body) (p : Project) (k : string)
  : option string :=
  match Js.or_else (agent_config p) ∅ !! k with
  | Some v => Some v
  | None =>
      match Js.or_else (env svc) ∅ !! k with
      | Some v => Some v
      | None => Js.or_else (env (raw_body raw)) ∅ !! k
      end
  end.

(** What names a resource in its namespace. *)
Definition resource_id (d : Doc) : Kind * string := (kind d, doc_name d).

(** The name [servicePorts] gives the port at index [i]. *)
Definition port_name (i : nat) : string :=
  "agent" +:+ (if Nat.ltb 0 i then "-" +:+ pretty i else EmptyString).

End ChartSpec.

(** ** The generated Dockerfiles ([utils.ts]) *)

Module Dockerfiles.

Import Manifest Handler.

Definition dq : string := Upload.dq.

(** The line feed of a template literal and of [join('\n')]. *)
Definition lf : string := String "010"%char EmptyString.

(** [ports.map(p => `EXPOSE ${p}`).join('\n')] *)
Definition exposeStatements (ports : list Z) : string :=
  String.concat lf (map (fun p => "EXPOSE " +:+ pretty p) ports).

(** [generateAgentDockerfile]: a Dockerfile by runtime; anything but [node]
    and [python] gets the generic one. *)
Definition generateAgentDockerfile (manifest : Body) (a : Agent) : string :=
  let runtime := Js.str_or (runtime a) "node" in
  let ports := Js.or_else (ports manifest) [8080] in
  let exposeStatements := exposeStatements ports in
  if String.eqb runtime "node" then
    "FROM docker.io/node:22-alpine
WORKDIR /app
COPY package*.json ./
RUN npm install --production
COPY . ." +:+ lf +:+ exposeStatements +:+ lf +:+
    "CMD [" +:+ dq +:+ "node" +:+ dq +:+ ", " +:+ dq +:+ "index.js" +:+ dq +:+ "]"
  else if String.eqb runtime "python" then
    "FROM docker.io/python:3.12-slim
WORKDIR /app
COPY requirements.txt ./
RUN pip install --no-cache-dir -r requirements.txt
COPY . ." +:+ lf +:+ exposeStatements +:+ lf +:+
    "CMD [" +:+ dq +:+ "python" +:+ dq +:+ ", " +:+ dq +:+ "main.py" +:+ dq +:+ "]"
  else
    "FROM docker.io/node:22-alpine
WORKDIR /app
COPY . ." +:+ lf +:+ exposeStatements +:+ lf +:+
    "CMD [" +:+ dq +:+ "node" +:+ dq +:+ ", " +:+ dq +:+ "index.js" +:+ dq +:+ "]".

(** [generateFrontendDockerfile] *)
Definition generateFrontendDockerfile : string :=
  "FROM docker.io/nginx:alpine
COPY nginx.conf /etc/nginx/conf.d/default.conf
COPY . /usr/share/nginx/html
EXPOSE 80".

(** [generateAgidentityDockerfile]: [mpc/] and [workspace/] are copied only
    when the build context has them. *)
Definition generateAgidentityDockerfile (h : Host) (manifest : Body)
    (buildDir : option string) : string :=
  let ports := Js.or_else (ports manifest) [3000] in
  let exposeStatements := exposeStatements ports in
  let copyMpc :=
    if Js.truthy buildDir && existsSync h (path_join h (Js.or_else buildDir EmptyString) "mpc")
    then "COPY mpc/ ./mpc/" else EmptyString in
  let copyWorkspace :=
    if Js.truthy buildDir &&
       existsSync h (path_join h (Js.or_else buildDir EmptyString) "workspace")
    then "COPY workspace/ ./workspace/" else EmptyString in
  "FROM docker.io/node:22-slim
RUN apt-get update && apt-get install -y build-essential python3 && rm -rf /var/lib/apt/lists/*
WORKDIR /app
COPY package*.json tsconfig.json ./
" +:+ copyMpc +:+ "
RUN npm install --production=false
COPY src/ ./src/
" +:+ copyWorkspace +:+ "
RUN npm run build
ENV NODE_ENV=production
ENV AUTH_SERVER_PORT=3000
ENV AGID_WORKSPACE_PATH=/data/workspace
ENV AGID_SESSIONS_PATH=/data/sessions" +:+ lf +:+ exposeStatements +:+ lf +:+
  "CMD [" +:+ dq +:+ "node" +:+ dq +:+ ", " +:+ dq +:+ "dist/start.js" +:+ dq +:+ "]".

(** [generateNginxConf] *)
Definition generateNginxConf : string :=
  "server {
    listen 80;
    server_name localhost;
    root /usr/share/nginx/html;
    location / {
        try_files $uri /404.html /index.html;
    }
}".

(** The Dockerfile step 10 of the upload generates for an agent that brings
    neither an image nor a Dockerfile of its own. *)
Definition generated_dockerfile (h : Host) (manifest : Body) (a : Agent) (buildDir : string)
  : string :=
  if String.eqb (agent_type a) "agidentity"
  then generateAgidentityDockerfile h manifest (Some buildDir)
  else generateAgentDockerfile manifest a.

(** [line] is a line of [text] that is neither its first nor its last. *)
Definition inner_line (line text : string) : Prop :=
  Js.occurs_in (lf +:+ line +:+ lf) text.

End Dockerfiles.

(** ** The read-only project routes and [settings/update] *)

Module Listings.

Import Manifest Store Chart Handler Projects.

(** [getBackendDomain]: the custom domain, else the default agent host. *)
Definition getBackendDomain (h : Host) (project : Project) : string :=
  Js.str_or (backend_custom_domain project)
    ("agent." +:+ project_uuid project +:+ "." +:+ PROJECT_DEPLOYMENT_DNS_NAME h).

(** What a read-only route answers: an error of the middleware, or rows. *)
Inductive Listing (A : Type) :=
| Denied (status : Z) (error : string)
| Rows (rows : list A).

Arguments Denied {A} status error.
Arguments Rows {A} rows.

(** [projects JOIN project_admins ON projects.id = project_admins.project_id
    WHERE project_admins.identity_key = identityKey] *)
Definition projects_of_admin (db : Db) (identityKey : string) : list Project :=
  flat_map (fun p =>
    map (fun _ => p)
      (List.filter (fun r => Z.eqb (admin_project_id r) (id p) &&
                             String.eqb (admin_identity_key r) identityKey)
         (project_admins db)))
    (projects db).

(** POST /list *)
Definition list_projects (db : Db) (identityKey : string) : Listing Project :=
  match user_by_identity db identityKey with
  | None => Denied 401 "User not registered"
  | Some _ => Rows (projects_of_admin db identityKey)
  end.

(** The rows POST /:projectId/logs/project selects:
    [where({ project_id }).whereNull('deploy_id')]. *)
Definition project_logs (db : Db) (project : Project) : list LogRow :=
  List.filter (fun l => eq_opt_Z (log_project_id l) (id project) &&
                        match log_deploy_id l with None => true | Some _ => false end)
    (logs db).

(** POST /:projectId/settings/update: the row after the update.  [env] is
    the request's [env] when it is an object, [requiresBlockchainFunding]
    the request's flag when it is a boolean. *)
Definition settings_update (env : option (gmap string string))
    (requiresBlockchainFunding : option bool) (project : Project) : Project :=
  {| id := id project; project_uuid := project_uuid project; name := name project;
     Store.network := Store.network project; balance := balance project;
     private_key := private_key project;
     agent_config := Some (spread2 (agent_config project) env);
     requires_blockchain_funding :=
       Js.or_else requiresBlockchainFunding (requires_blockchain_funding project);
     frontend_custom_domain := frontend_custom_domain project;
     backend_custom_domain := backend_custom_domain project |}.

End Listings.

(** ** POST /:projectId/logs/resource/:resource *)

Module ResourceLogs.

Import Store.

Definition VALID_LOG_PERIODS : list string :=
  ["5m"; "15m"; "30m"; "1h"; "2h"; "6h"; "12h"; "1d"; "2d"; "7d"]%string.

Definition VALID_LOG_LEVELS : list string := ["all"; "error"; "warn"; "info"]%string.

Definition MAX_TAIL_LINES : Z := 10000.

Definition RESOURCES : list string := ["frontend"; "agent"; "mongo"; "mysql"; "redis"]%string.

(** A JavaScript number, and what [Math.floor] makes of one. *)
Inductive Number :=
| Finite (q : Q)
| PlusInfinity
| MinusInfinity
| NaN.

Inductive Integral :=
| Int (n : Z)
| IntPlusInfinity
| IntMinusInfinity
| IntNaN.

Definition Math_floor (x : Number) : Integral :=
  match x with
  | Finite q => Int (Qfloor q)
  | PlusInfinity => IntPlusInfinity
  | MinusInfinity => IntMinusInfinity
  | NaN => IntNaN
  end.

Definition Math_max (a b : Integral) : Integral :=
  match a, b with
  | IntNaN, _ | _, IntNaN => IntNaN
  | IntPlusInfinity, _ | _, IntPlusInfinity => IntPlusInfinity
  | IntMinusInfinity, x | x, IntMinusInfinity => x
  | Int m, Int n => Int (Z.max m n)
  end.

Definition Math_min (a b : Integral) : Integral :=
  match a, b with
  | IntNaN, _ | _, IntNaN => IntNaN
  | IntMinusInfinity, _ | _, IntMinusInfinity => IntMinusInfinity
  | IntPlusInfinity, x | x, IntPlusInfinity => x
  | Int m, Int n => Int (Z.min m n)
  end.

(** [`${n}`] *)
Definition to_text (x : Integral) : string :=
  match x with
  | Int n => pretty n
  | IntPlusInfinity => "Infinity"
  | IntMinusInfinity => "-Infinity"
  | IntNaN => "NaN"
  end.

Definition isValidLogPeriod (period : option string) : bool :=
  match period with
  | Some s => bool_decide (s ∈ VALID_LOG_PERIODS)
  | None => false
  end.

Definition isValidLogLevel (level : option string) : bool :=
  match level with
  | Some s => bool_decide (s ∈ VALID_LOG_LEVELS)
  | None => false
  end.

(** [Math.min(Math.max(1, Math.floor(tail)), MAX_TAIL_LINES)] *)
Definition sanitizeTailValue (tail : Number) : Integral :=
  Math_min (Math_max (Int 1) (Math_floor tail)) (Int MAX_TAIL_LINES).

(** A field of the request body where the route expects text: absent, a
    string, or a value of another type (which no list of strings includes). *)
Inductive Field :=
| Absent
| Text (s : string)
| NotText.

(** [const { x = d } = req.body] *)
Definition or_default (f : Field) (d : string) : option string :=
  match f with
  | Absent => Some d
  | Text s => Some s
  | NotText => None
  end.

Record Pod := {
  pod_name : string;                     (* metadata.name *)
  containers : list string               (* spec.containers[].name *)
}.

(** The cluster as the route sees it: the pods [kubectl get pods] lists in a
    namespace and the output of a [kubectl logs] command ([None] when the
    command fails), and the test of a line against [\bLEVEL\b]. *)
Record Kubectl := {
  get_pods : string -> option (list Pod);
  get_logs : string -> option string;
  level_test : string -> string -> bool
}.

Inductive LogsAnswer :=
| LogsError (status : Z) (error : string)
| LogsFound (resource logs since : string) (tail : Integral) (level : string).

(** [s.split('\n')] *)
Fixpoint split_lines (s : string) : list string :=
  match s with
  | EmptyString => [EmptyString]
  | String c r =>
      if Ascii.eqb c "010"%char then EmptyString :: split_lines r
      else match split_lines r with
           | [] => [String c EmptyString]
           | l :: ls => String c l :: ls
           end
  end.

Definition filter_level (k : Kubectl) (level logs : string) : string :=
  if String.eqb level "all" then logs
  else String.concat Dockerfiles.lf (List.filter (level_test k level) (split_lines logs)).

(** The pod whose logs are read, and the command that reads them. *)
Definition logs_command (namespace resource since : string) (sanitizedTail : Integral)
    (items : list Pod) : LogsAnswer + string :=
  if String.eqb resource "mysql" || String.eqb resource "mongo" || String.eqb resource "redis"
  then
    if String.eqb resource "redis" then
      match List.find (fun p => String.prefix "redis-" (pod_name p)) items with
      | None => inl (LogsError 404 ("No logs found for " +:+ resource))
      | Some pod =>
          inr ("kubectl logs -n " +:+ namespace +:+ " " +:+ pod_name pod +:+
               " --since=" +:+ since +:+ " --tail=" +:+ to_text sanitizedTail)
      end
    else
      let podName := resource +:+ "-0" in
      match List.find (fun p => String.eqb (pod_name p) podName) items with
      | None =>
          inl (LogsError 404 ("No logs found for " +:+ resource +:+
                              ", does your project have it and is it deployed?"))
      | Some _ =>
          inr ("kubectl logs -n " +:+ namespace +:+ " " +:+ podName +:+
               " --since=" +:+ since +:+ " --tail=" +:+ to_text sanitizedTail)
      end
  else
    match List.find (fun p => String.prefix "mandala-project-" (pod_name p)) items with
    | None => inl (LogsError 404 ("No pod found for " +:+ resource))
    | Some pod =>
        match List.find (fun c => String.eqb c resource) (containers pod) with
        | None =>
            inl (LogsError 404 ("No container " +:+ resource +:+ " found in pod " +:+
                                pod_name pod))
        | Some _ =>
            inr ("kubectl logs -n " +:+ namespace +:+ " " +:+ pod_name pod +:+ " -c " +:+
                 resource +:+ " --since=" +:+ since +:+ " --tail=" +:+ to_text sanitizedTail)
        end
    end.

(** POST /:projectId/logs/resource/:resource, after the middleware: the
    commands it runs, in order, and its answer. *)
Definition resource_logs (k : Kubectl) (project : Project) (resource : string)
    (since : Field) (tail : option Number) (level : Field) : list string * LogsAnswer :=
  let since := or_default since "1h" in
  let tail := Js.or_else tail (Finite 1000) in
  let level := or_default level "all" in
  if negb (bool_decide (resource ∈ RESOURCES)) then
    ([], LogsError 400 "Invalid resource type")
  else if negb (isValidLogPeriod since) then
    ([], LogsError 400 "Invalid time period")
  else if negb (isValidLogLevel level) then
    ([], LogsError 400 "Invalid log level")
  else
    let since := Js.or_else since EmptyString in
    let level := Js.or_else level EmptyString in
    let sanitizedTail := sanitizeTailValue tail in
    let namespace := "mandala-project-" +:+ project_uuid project in
    let list_pods := "kubectl get pods -n " +:+ namespace +:+ " -o json" in
    match get_pods k namespace with
    | None => ([list_pods], LogsError 500 "Failed to get resource logs")
    | Some [] =>
        ([list_pods], LogsError 404 ("No " +:+ resource +:+
                                     " pods found, are things finished deploying?"))
    | Some items =>
        match logs_command namespace resource since sanitizedTail items with
        | inl answer => ([list_pods], answer)
        | inr cmd =>
            match get_logs k cmd with
            | None => ([list_pods; cmd], LogsError 500 "Failed to get resource logs")
            | Some logs =>
                ([list_pods; cmd],
                 LogsFound resource (filter_level k level logs) since sanitizedTail level)
            end
        end
    end.

(** A command line of [kubectl logs] whose arguments come from the lists the
    route accepts and from the pods of the namespace. *)
Definition whitelisted (project : Project) (items : list Pod) (cmd : string) : Prop :=
  exists pod container since n,
    (pod ∈ map pod_name items \/ pod ∈ ["mysql-0"; "mongo-0"]%string) /\
    (container = EmptyString \/
     exists r, r ∈ ["frontend"; "agent"]%string /\ container = " -c " +:+ r) /\
    since ∈ VALID_LOG_PERIODS /\ 1 <= n <= MAX_TAIL_LINES /\
    cmd = "kubectl logs -n mandala-project-" +:+ project_uuid project +:+ " " +:+ pod +:+
          container +:+ " --since=" +:+ since +:+ " --tail=" +:+ pretty n.

End ResourceLogs.

(** ** Custom domains ([handleCustomDomain]) *)

Module Domains.

Import Manifest Store Chart Handler Projects Listings.

(** [domainType: 'frontend' | 'agent'] *)
Inductive DomainType := ForFrontend | ForAgent.

Definition type_name (t : DomainType) : string :=
  match t with ForFrontend => "frontend" | ForAgent => "agent" end.

Definition toUpperCase_char (c : ascii) : ascii :=
  let n := nat_of_ascii c in
  if Nat.leb 97 n && Nat.leb n 122 then ascii_of_nat (n - 32) else c.

(** [s.charAt(0).toUpperCase() + s.slice(1)] *)
Definition capitalized (s : string) : string :=
  match s with
  | EmptyString => EmptyString
  | String c r => String (toUpperCase_char c) r
  end.

(** The character classes of the domain pattern. *)
Definition is_letter (c : ascii) : bool :=
  let n := nat_of_ascii c in
  Nat.leb 65 n && Nat.leb n 90 || Nat.leb 97 n && Nat.leb n 122.

Definition is_digit (c : ascii) : bool :=
  let n := nat_of_ascii c in Nat.leb 48 n && Nat.leb n 57.

Definition label_char (c : ascii) : bool :=
  is_letter c || is_digit c || Ascii.eqb c "." || Ascii.eqb c "-".

Fixpoint all_chars (f : ascii -> bool) (s : string) : bool :=
  match s with
  | EmptyString => true
  | String c r => f c && all_chars f r
  end.

(** [domain.match(/^[a-zA-Z0-9.-]+\.[a-zA-Z]{2,}$/)]: the string splits at
    some dot into a non-empty run of the first class and at least two
    letters. *)
Definition domain_format (s : string) : bool :=
  existsb (fun i =>
    match String.substring i (String.length s - i) s with
    | String "."%char b =>
        Nat.ltb 0 i && all_chars label_char (String.substring 0 i s) &&
        Nat.leb 2 (String.length b) && all_chars is_letter b
    | _ => false
    end) (seq 0 (String.length s)).

(** [dns.resolveTxt]: the record sets of a host, or a rejection. *)
Inductive TxtAnswer :=
| TxtRecords (records : list (list string))
| TxtError (message : string).

Record Resolver := {
  resolveTxt : string -> TxtAnswer;
  (* sendDomainChangeEmail: [None] when it resolves, the message when it rejects *)
  sendDomainChangeEmail : list string -> string -> string -> option string
}.

Inductive DomainAnswer :=
| DomainRefused (error : string) (instructions : option string)   (* status 400 *)
| DomainVerified (message domain : string).                         (* status 200 *)

Record DomainRun := {
  answer : DomainAnswer;
  store : Db;
  effects : list Effect
}.

Definition lf : string := String "010"%char EmptyString.

Definition expectedRecord (project : Project) (t : DomainType) : string :=
  "mandala-project-verification=" +:+ project_uuid project +:+ ":" +:+ type_name t.

Definition verificationHost (domain : string) : string := "mandala_project." +:+ domain.

(** [recordSet.includes(expectedRecord)] on an array of strings. *)
Definition includes (x : string) (l : list string) : bool :=
  existsb (String.eqb x) l.

Definition set_domain (t : DomainType) (domain : string) (p : Project) : Project :=
  {| id := id p; project_uuid := project_uuid p; name := name p;
     Store.network := Store.network p; balance := balance p;
     private_key := private_key p; agent_config := agent_config p;
     requires_blockchain_funding := requires_blockchain_funding p;
     frontend_custom_domain :=
       match t with ForFrontend => Some domain | ForAgent => frontend_custom_domain p end;
     backend_custom_domain :=
       match t with ForFrontend => backend_custom_domain p | ForAgent => Some domain end |}.

(** [db('projects').where({ id }).update({ [updateField]: domain })] *)
Definition update_domain (t : DomainType) (pid : Z) (domain : string) (db : Db) : Db :=
  {| projects := map (fun p => if Z.eqb (id p) pid then set_domain t domain p else p)
                   (projects db);
     users := users db; deploys := deploys db; project_admins := project_admins db;
     project_accounting := project_accounting db; logs := logs db;
     next_project_id := next_project_id db |}.

Definition failed (domain : string) (project : Project) (t : DomainType) (msg : string)
    (db : Db) : DomainRun :=
  {| answer :=
       DomainRefused "Failed to verify domain"
         (Some ("Please ensure that DNS is functioning and that you create a TXT record:" +:+
                lf +:+ lf +:+ "  " +:+ verificationHost domain +:+ lf +:+ lf +:+
                "With the value:" +:+ lf +:+ lf +:+ "  " +:+ expectedRecord project t +:+
                lf +:+ lf +:+ "Then try again."));
     store := db;
     effects := [Logger error [("err", msg)] "Error during DNS verification process"] |}.

(** [handleCustomDomain], for a request that passed the middleware; [domain]
    is the body's field when it is a string. *)
Definition handleCustomDomain (r : Resolver) (project : Project) (user : User)
    (t : DomainType) (domain : option string) (db : Db) : DomainRun :=
  if negb (Js.truthy domain) || negb (domain_format (Js.or_else domain EmptyString)) then
    {| answer := DomainRefused
         "Invalid domain format. Please provide a valid domain (e.g. example.com)" None;
       store := db; effects := [] |}
  else
    let domain := Js.or_else domain EmptyString in
    match resolveTxt r (verificationHost domain) with
    | TxtError msg => failed domain project t msg db
    | TxtRecords txtRecords =>
        if negb (existsb (includes (expectedRecord project t)) txtRecords) then
          {| answer := DomainRefused "DNS verification failed"
               (Some ("Please create a DNS TXT record at:" +:+ lf +:+ lf +:+ "  " +:+
                      verificationHost domain +:+ lf +:+ lf +:+ "With the exact value:" +:+
                      lf +:+ lf +:+ "  " +:+ expectedRecord project t +:+ lf +:+ lf +:+
                      "Once this TXT record is in place, please try again."));
             store := db; effects := [] |}
        else
          let db1 := update_domain t (id project) domain db in
          let db2 := run_stmt (project_log project
                       (capitalized (type_name t) +:+ " custom domain set: " +:+ domain)) db1 in
          let emails := admin_emails db2 (id project) in
          let subject := "Custom Domain Updated for Project: " +:+ name project in
          let body := "Hello," +:+ lf +:+ lf +:+ "The " +:+ type_name t +:+
                      " custom domain for project " +:+ Upload.dq +:+ name project +:+
                      Upload.dq +:+ " (ID: " +:+ project_uuid project +:+
                      ") has been set to: " +:+ domain +:+ lf +:+ lf +:+
                      "Originated by: " +:+ identity_key user +:+ " (" +:+ email user +:+ ")" +:+
                      lf +:+ lf +:+ "Regards," +:+ lf +:+ "Mandala Network" in
          match sendDomainChangeEmail r emails body subject with
          | Some msg =>
              {| answer := answer (failed domain project t msg db2);
                 store := db2;
                 effects := effects (failed domain project t msg db2) |}
          | None =>
              {| answer := DomainVerified
                   (capitalized (type_name t) +:+ " custom domain verified and set") domain;
                 store := db2;
                 effects := [Email emails subject body] |}
          end
    end.

(** A host name of the pattern: characters of the first class only, a last
    dot, and at least two letters after it. *)
Definition plain_host_name (s : string) : Prop :=
  (forall c, In c (list_ascii_of_string s) -> label_char c = true) /\
  exists a b, s = a +:+ "." +:+ b /\ a <> EmptyString /\
              (2 <= String.length b)%nat /\
              forall c, In c (list_ascii_of_string b) -> is_letter c = true.

(** The TXT record of [domain] that proves control for [project] and [t]. *)
Definition proved_by (r : Resolver) (project : Project) (t : DomainType) (domain : string)
    : Prop :=
  exists records recordSet,
    resolveTxt r ("mandala_project." +:+ domain) = TxtRecords records /\
    In recordSet records /\
    In ("mandala-project-verification=" +:+ project_uuid project +:+ ":" +:+ type_name t)
       recordSet.

End Domains.

(** ** Further concrete inputs *)

Module Examples2.
Import Manifest Store Handler Projects.

Definition bob : User :=
  {| identity_key := "03bob"; email := "bob@example.com" |}.

(** The store [db1 b] with a second registered user who administers nothing. *)
Definition db2 (b : Z) : Db :=
  {| projects := [Examples.project1 b]; users := [Examples.alice; bob];
     deploys := [Examples.deploy1];
     project_admins := [{| admin_project_id := 1; admin_identity_key := "02alice" |}];
     project_accounting := []; logs := []; next_project_id := 2 |}.

Definition alice_row : AdminRow :=
  {| admin_project_id := 1; admin_identity_key := "02alice" |}.

(** A manifest whose agent image is given. *)
Definition body_prebuilt : Body :=
  {| agent := Some {| agent_type := "custom"; image := Some "ghcr.io/acme/agent:1"%string;
                      dockerfile := None; buildContext := None; runtime := None |};
     env := None; resources := None; ports := Some [8080]; healthCheck := None;
     frontend := None; storage := None; databases := None |}.

End Examples2.

Module Examples3.

Import Store Handler ResourceLogs.

(** A namespace with the project's pod, which runs an agent container. *)
Definition kube1 : Kubectl :=
  {| get_pods := fun _ =>
       Some [ {| pod_name := "mandala-project-0123456789abcdef01234567-deployment-5d9f";
                 containers := ["agent"%string] |} ];
     get_logs := fun _ => Some "INFO started"%string;
     level_test := fun _ _ => true |}.

End Examples3.

Module Examples4.

Import Store Handler Domains.

(** A resolver that knows one TXT record, for the agent domain of the
    example project. *)
Definition resolver1 : Resolver :=
  {| resolveTxt := fun host =>
       if String.eqb host "mandala_project.api.example.com"
       then TxtRecords [["v=spf1 -all"];
              ["mandala-project-verification=0123456789abcdef0123456789abcdef:agent"]]
       else TxtError "queryTxt ENOTFOUND";
     sendDomainChangeEmail := fun _ _ _ => None |}.

End Examples4.

(** ** The wait for the rollout (step 15) *)

Module Wait.

Import Store Chart Handler Upload Verdict.

(** A command that waits for a rollout is the one of step 15 for [project],
    run without options.  [runCmd] hands [execSync] the options [stdio] and
    [encoding] and those of its caller, of which [cwd] is the only one any
    caller passes: a command run with [None] has no [timeout]. *)
Definition waits_plainly (project : Project) (e : Effect) : Prop :=
  match e with
  | Exec cmd cwd =>
      String.prefix "kubectl rollout status" cmd = true ->
      cmd = rollout_status project /\ cwd = None
  | _ => True
  end.

(** The rollout never completes in the eyes of [kubectl], which exits with
    an error. *)
Definition exec_rollout_fails : string -> option string -> ExecResult :=
  fun cmd _ =>
    if String.prefix "kubectl rollout status" cmd
    then ExecFail "error: deployment exceeded its progress deadline" EmptyString
           "exit status 1"
    else ExecOk EmptyString.

End Wait.

(** ** Requests in flight together

    A handler gives way to other requests at each [await], and the store
    runs no transaction around [removeAdmin]: between the read of the admin
    rows and the DELETE, another request can read and write. *)

Module Overlap.

Import Store Handler Projects.
Local Open Scope handler_scope.

(** What [removeAdmin] has in hand when it awaits its DELETE. *)
Record Parked := {
  parked_user : User;
  parked_project : Project;
  parked_target : User
}.

(** [removeAdmin] up to the [await] of the DELETE: the three middlewares,
    [resolveUser], the read of the admin rows and the two checks on them. *)
Definition removeAdmin_reads (identityKey projectId identityKeyOrEmail : string) : M Parked :=
  user <- query (fun db => user_by_identity db identityKey) ;;
  match user with
  | None =>
      emit (Logger warn [("identityKey", identityKey)] "User not registered") ;;
      send 401 (ErrorBody "User not registered")
  | Some user =>
  project <- query (fun db => project_by_uuid db projectId) ;;
  match project with
  | None =>
      emit (Logger warn [("projectId", projectId)] "Project not found") ;;
      send 404 (ErrorBody "Project not found")
  | Some project =>
  admin <- query (fun db => admin_row db (id project) identityKey) ;;
  match admin with
  | None =>
      emit (Logger warn [("identityKey", identityKey); ("projectId", project_uuid project)]
              "User is not admin of project") ;;
      send 403 (ErrorBody "User not admin")
  | Some _ =>
  targetUser <- query (fun db => resolveUser db identityKeyOrEmail) ;;
  match targetUser with
  | None => send 400 (ErrorBody "Target user not registered")
  | Some targetUser =>
      admins <- query (fun db => admins_of db (id project)) ;;
      if Nat.eqb (length admins) 1 &&
         match head admins with Some a => is_target targetUser a | None => false end then
        send 400 (ErrorBody "Cannot remove last admin")
      else
        match List.find (is_target targetUser) admins with
        | None => send 400 (ErrorBody "User not an admin")
        | Some _ =>
            ret {| parked_user := user; parked_project := project;
                   parked_target := targetUser |}
        end
  end end end end.

(** [removeAdmin] from the DELETE on. *)
Definition removeAdmin_writes (p : Parked) : M unit :=
  let user := parked_user p in
  let project := parked_project p in
  let targetUser := parked_target p in
  sql (DeleteAdmin (id project) (identity_key targetUser)) ;;
  sql (project_log project ("Admin removed: " +:+ identity_key targetUser)) ;;
  emails <- query (fun db => admin_emails db (id project)) ;;
  emit (Email emails ("Admin Removed from Project: " +:+ name project)
          ("Hello,

User " +:+ identity_key targetUser +:+ " (" +:+ email targetUser +:+
           ") has been removed as an admin from " +:+ project_ref project +:+ ".

" +:+ originated_by user)) ;;
  send 200 (MessageBody "Admin removed").

(** A request that was [parked] goes on from the store it finds; one that
    had answered already does nothing more. *)
Definition resume {X} (parked : Run X) (rest : X -> M unit) : M unit :=
  fun db =>
    match outcome parked with
    | Value x => rest x db
    | Sent r => {| outcome := Sent r; db_after := db; trace := [] |}
    | Thrown e => {| outcome := Thrown e; db_after := db; trace := [] |}
    end.

(** Two [removeAdmin] requests in flight together: the second does its reads
    while the first awaits its DELETE.  The result is the two responses and
    the store they leave. *)
Definition overlapped_removals (key1 target1 key2 target2 projectId : string) (db : Db)
  : Outcome unit * Outcome unit * Db :=
  let reads1 := removeAdmin_reads key1 projectId target1 db in
  let reads2 := removeAdmin_reads key2 projectId target2 (db_after reads1) in
  let writes1 := resume reads1 removeAdmin_writes (db_after reads2) in
  let writes2 := resume reads2 removeAdmin_writes (db_after writes1) in
  (outcome writes1, outcome writes2, db_after writes2).

(** Alice and bob are registered, no project exists. *)
Definition db_registered : Db :=
  {| projects := []; users := [Examples.alice; Examples2.bob]; deploys := [];
     project_admins := []; project_accounting := []; logs := []; next_project_id := 1 |}.

(** Alice has created a project and made bob an admin of it. *)
Definition db_two_admins : Db :=
  db_after (addAdmin "02alice" Examples.uuid1 "03bob"
              (db_after (create "02alice" (Some "demo") None None None Examples.uuid1 "k"
                           db_registered))).

End Overlap.

(** * Properties *)

(** ** Laws of the trace monad *)

Module HandlerFacts.

Import Store Handler.

Lemma prepend_nil {A} (r : Run A) : prepend [] r = r.
Proof. destruct r; reflexivity. Qed.

Lemma prepend_prepend {A} (es es' : list Effect) (r : Run A) :
  prepend es (prepend es' r) = prepend (es ++ es') r.
Proof. unfold prepend; simpl. now rewrite app_assoc. Qed.

Lemma outcome_prepend {A} es (r : Run A) : outcome (prepend es r) = outcome r.
Proof. reflexivity. Qed.

Lemma db_after_prepend {A} es (r : Run A) : db_after (prepend es r) = db_after r.
Proof. reflexivity. Qed.

Lemma trace_prepend {A} es (r : Run A) : trace (prepend es r) = es ++ trace r.
Proof. reflexivity. Qed.

Section Laws.

Context {A B : Type}.

Lemma bind_ret (a : A) (k : A -> M B) db : bind (ret a) k db = k a db.
Proof. unfold bind, ret; simpl. apply prepend_nil. Qed.

Lemma bind_query (q : Db -> A) (k : A -> M B) db : bind (query q) k db = k (q db) db.
Proof. unfold bind, query; simpl. apply prepend_nil. Qed.

Lemma bind_emit e (k : unit -> M B) db : bind (emit e) k db = prepend [e] (k tt db).
Proof. reflexivity. Qed.

Lemma bind_sql s (k : unit -> M B) db :
  bind (sql s) k db = prepend [Sql s] (k tt (run_stmt s db)).
Proof. reflexivity. Qed.

Lemma bind_send st b (k : A -> M B) db : bind (send st b) k db = send st b db.
Proof. reflexivity. Qed.

Lemma bind_throw e (k : A -> M B) db : bind (throw e) k db = throw e db.
Proof. reflexivity. Qed.

Lemma bind_if (c : bool) (m1 m2 : M A) (k : A -> M B) db :
  bind (if c then m1 else m2) k db = if c then bind m1 k db else bind m2 k db.
Proof. now destruct c. Qed.

End Laws.

Lemma bind_bind {A B C} (m : M A) (k : A -> M B) (k' : B -> M C) db :
  bind (bind m k) k' db = bind m (fun a => bind (k a) k') db.
Proof.
  unfold bind.
  destruct (m db) as [om dbm tm]; simpl.
  destruct om as [a|resp|e]; simpl; try reflexivity.
  destruct (k a dbm) as [ok dbk tk]; simpl.
  destruct ok as [b|resp|e]; simpl; try reflexivity.
  unfold prepend; simpl. now rewrite app_assoc.
Qed.

Lemma bind_when {B} (c : bool) (m : M unit) (k : unit -> M B) db :
  bind (when c m) k db = if c then bind m k db else k tt db.
Proof. destruct c; simpl; [reflexivity|apply bind_ret]. Qed.

Lemma try_catch_send {A} st b (h : string -> M A) db :
  try_catch (send st b) h db = send st b db.
Proof. reflexivity. Qed.

Lemma try_catch_throw {A} e (h : string -> M A) db :
  try_catch (throw e) h db = h e db.
Proof. unfold try_catch, throw; simpl. apply prepend_nil. Qed.

Lemma try_catch_if {A} (c : bool) (m1 m2 : M A) h db :
  try_catch (if c then m1 else m2) h db =
  if c then try_catch m1 h db else try_catch m2 h db.
Proof. now destruct c. Qed.

(** The outcome and the trace of a sequence, by cases on its first part. *)
Lemma bind_cases {A B} (m : M A) (k : A -> M B) db :
  (exists a, outcome (m db) = Value a /\
             bind m k db = prepend (trace (m db)) (k a (db_after (m db)))) \/
  ((forall a, outcome (m db) <> Value a) /\
   trace (bind m k db) = trace (m db) /\
   db_after (bind m k db) = db_after (m db) /\
   ((exists r, outcome (m db) = Sent r /\ outcome (bind m k db) = Sent r) \/
    (exists e, outcome (m db) = Thrown e /\ outcome (bind m k db) = Thrown e))).
Proof.
  unfold bind. destruct (outcome (m db)) as [a|r|e] eqn:Hm; simpl.
  - left. eauto.
  - right. repeat split; try discriminate. left. eauto.
  - right. repeat split; try discriminate. right. eauto.
Qed.

Lemma outcome_bind_value {A B} (m : M A) (k : A -> M B) db a :
  outcome (m db) = Value a ->
  outcome (bind m k db) = outcome (k a (db_after (m db))).
Proof. intros H. unfold bind. now rewrite H. Qed.

Lemma outcome_bind_sent {A B} (m : M A) (k : A -> M B) db r :
  outcome (m db) = Sent r -> outcome (bind m k db) = Sent r.
Proof. intros H. unfold bind. now rewrite H. Qed.

Lemma outcome_bind_thrown {A B} (m : M A) (k : A -> M B) db e :
  outcome (m db) = Thrown e -> outcome (bind m k db) = Thrown e.
Proof. intros H. unfold bind. now rewrite H. Qed.

Lemma outcome_try_catch_sent {A} (m : M A) (h : string -> M A) db r :
  outcome (m db) = Sent r -> outcome (try_catch m h db) = Sent r.
Proof. intros H. unfold try_catch. now rewrite H. Qed.

Lemma outcome_try_catch_thrown {A} (m : M A) (h : string -> M A) db e :
  outcome (m db) = Thrown e ->
  try_catch m h db = prepend (trace (m db)) (h e (db_after (m db))).
Proof. intros H. unfold try_catch. now rewrite H. Qed.

End HandlerFacts.

(** Run a handler symbolically: push the sequencing inwards one primitive at
    a time. *)
Ltac run1 :=
  first [ rewrite HandlerFacts.bind_bind | rewrite HandlerFacts.bind_query
        | rewrite HandlerFacts.bind_sql | rewrite HandlerFacts.bind_emit
        | rewrite HandlerFacts.bind_ret | rewrite HandlerFacts.bind_send
        | rewrite HandlerFacts.bind_throw | rewrite HandlerFacts.bind_when
        | rewrite HandlerFacts.bind_if ]; cbv beta.
Ltac run := repeat run1.

(** Split on how the first part of a sequence ends. *)
Ltac split_bind :=
  match goal with
  | |- context [Handler.outcome (Handler.bind ?m ?k ?db)] =>
      let H := fresh "Hrun" in
      destruct (Handler.outcome (m db)) as [?|?|?] eqn:H;
      [ rewrite (HandlerFacts.outcome_bind_value m k db _ H)
      | rewrite (HandlerFacts.outcome_bind_sent m k db _ H)
      | rewrite (HandlerFacts.outcome_bind_thrown m k db _ H) ]
  end.


(** ** Properties that every effect of a handler satisfies *)

Module Respects.

Import Store Handler.

Section Closure.

Variable P : Effect -> Prop.

Lemma respects_ret {A} (a : A) : respects P (ret a).
Proof. intros db. constructor. Qed.

Lemma respects_send {A} st b : respects P (@send A st b).
Proof. intros db. constructor. Qed.

Lemma respects_throw {A} e : respects P (@throw A e).
Proof. intros db. constructor. Qed.

Lemma respects_query {A} (q : Db -> A) : respects P (query q).
Proof. intros db. constructor. Qed.

Lemma respects_emit e : P e -> respects P (emit e).
Proof. intros He db. repeat constructor. exact He. Qed.

Lemma respects_sql s : P (Sql s) -> respects P (sql s).
Proof. intros He db. repeat constructor. exact He. Qed.

(** The continuation needs to behave only on the values [m] can return. *)
Lemma respects_bind_value {A B} (m : M A) (k : A -> M B) :
  respects P m ->
  (forall db a, outcome (m db) = Value a -> respects P (k a)) ->
  respects P (bind m k).
Proof.
  intros Hm Hk db. unfold bind.
  destruct (outcome (m db)) as [a|r|e] eqn:Ho; simpl; try apply Hm.
  apply Forall_app. split; [apply Hm|]. now apply (Hk db a).
Qed.

Lemma respects_bind {A B} (m : M A) (k : A -> M B) :
  respects P m -> (forall a, respects P (k a)) -> respects P (bind m k).
Proof. intros Hm Hk. apply respects_bind_value; auto. Qed.

Lemma respects_try_catch {A} (m : M A) (hd : string -> M A) :
  respects P m -> (forall e, respects P (hd e)) -> respects P (try_catch m hd).
Proof.
  intros Hm Hh db. unfold try_catch.
  destruct (outcome (m db)) as [a|r|e] eqn:Ho; simpl; try apply Hm.
  apply Forall_app. split; [apply Hm|apply Hh].
Qed.

Lemma respects_when (c : bool) (m : M unit) : respects P m -> respects P (when c m).
Proof. destruct c; simpl; [auto|intros _; apply respects_ret]. Qed.

Lemma respects_for_each {A} (l : list A) (f : A -> M unit) :
  (forall x, respects P (f x)) -> respects P (for_each l f).
Proof.
  intros Hf. induction l as [|x l IH]; simpl.
  - apply respects_ret.
  - apply respects_bind; auto.
Qed.

End Closure.

End Respects.

(** Walk down a handler, leaving the effects to be checked by computation. *)
Ltac respects_step :=
  lazymatch goal with
  | |- Handler.respects _ (Handler.ret _) => apply Respects.respects_ret
  | |- Handler.respects _ (Handler.send _ _) => apply Respects.respects_send
  | |- Handler.respects _ (Handler.throw _) => apply Respects.respects_throw
  | |- Handler.respects _ (Handler.query _) => apply Respects.respects_query
  | |- Handler.respects _ (Handler.sql _) =>
      apply Respects.respects_sql; first [reflexivity | exact I]
  | |- Handler.respects _ (Handler.emit _) =>
      apply Respects.respects_emit; first [reflexivity | exact I]
  | |- Handler.respects _ (Handler.when _ _) => apply Respects.respects_when
  | |- Handler.respects _ (Handler.for_each _ _) =>
      apply Respects.respects_for_each; intros ?
  | |- Handler.respects _ (Handler.bind _ _) => apply Respects.respects_bind; [|intros ?]
  | |- Handler.respects _ (if ?c then _ else _) => destruct c
  | |- Handler.respects _ (match ?x with _ => _ end) => destruct x
  end.
Ltac respects_auto := repeat respects_step.

(** ** The upload handler: what runs before an image is built *)

Module UploadFacts.

Import Manifest Store Chart Handler Upload HandlerFacts Respects.

Section Pipeline.

Variables (h : Host) (req : Request).

Lemma logStep_quiet deploy msg lvl : respects no_build (logStep req deploy msg lvl).
Proof. unfold logStep. respects_auto. Qed.

Lemma runCmd_quiet cmd cwd :
  String.prefix "buildah " cmd = false -> respects no_build (runCmd h cmd cwd).
Proof.
  intros Hc. unfold runCmd.
  apply respects_bind; [apply respects_emit; exact Hc|intros _].
  respects_auto.
Qed.

Lemma stage_quiet deploy : respects no_build (stage h req deploy).
Proof.
  unfold stage.
  repeat first [ apply logStep_quiet | apply runCmd_quiet; reflexivity | respects_step ].
Qed.

Lemma select_manifest_quiet deploy raw : respects no_build (select_manifest req deploy raw).
Proof.
  unfold select_manifest.
  repeat first [ apply logStep_quiet | respects_step ].
Qed.

Lemma check_target_quiet deploy manifest project :
  respects no_build (check_target req deploy manifest project).
Proof.
  unfold check_target.
  repeat first [ apply logStep_quiet | respects_step ].
Qed.

Lemma compile_quiet deploy project raw : respects no_build (compile h req deploy project raw).
Proof.
  unfold compile.
  repeat first [ apply select_manifest_quiet | apply check_target_quiet | respects_step ].
Qed.

Lemma on_error_quiet deploy project msg : respects no_build (on_error req deploy project msg).
Proof. unfold on_error. respects_auto. Qed.

Lemma runCmd_outcome cmd cwd db :
  outcome (runCmd h cmd cwd db) =
    match execSync h cmd cwd with
    | ExecOk _ => Value tt
    | ExecFail e o msg => Thrown (failure_message cmd e o msg)
    end.
Proof.
  unfold runCmd. run. destruct (execSync h cmd cwd) as [out|e o msg].
  - unfold when. now destruct (Js.truthy (Some out)).
  - now run.
Qed.

(** [stage] returns what [JSON.parse] read. *)
Lemma stage_value deploy db raw :
  outcome (stage h req deploy db) = Value raw ->
  readManifest h (manifestPath h req) = Parsed raw.
Proof.
  unfold stage, logStep. run. rewrite !outcome_prepend.
  split_bind; try discriminate.
  run. rewrite !outcome_prepend.
  destruct (existsSync h (manifestPath h req)); simpl; [|run; discriminate].
  destruct (readManifest h (manifestPath h req)) as [e|raw']; [discriminate|].
  destruct (bool_decide (schema raw' = Some "mandala-agent")); simpl.
  - now intros [= ->].
  - run. discriminate.
Qed.

Lemma stage_staged deploy db raw :
  staged h req raw -> outcome (stage h req deploy db) = Value raw.
Proof.
  intros ([out Htar] & Hex & Hread & Hschema).
  unfold stage, logStep. run. rewrite !outcome_prepend.
  rewrite (outcome_bind_value _ _ _ tt); [|now rewrite runCmd_outcome, Htar].
  run. rewrite !outcome_prepend, Hex, Hread. simpl.
  rewrite bool_decide_eq_true_2; [reflexivity|exact Hschema].
Qed.

(** No image is built or pushed unless [compile] hands over a manifest with
    an agent. *)
Lemma upload_no_build db deploy project raw :
  deploy_by_uuid db (deploymentId req) = Some deploy ->
  project_by_id db (deploy_project_id deploy) = Some project ->
  readManifest h (manifestPath h req) = Parsed raw ->
  (forall db' sel, outcome (compile h req deploy project raw db') = Value sel ->
                   agent (body (fst sel)) = None) ->
  Forall no_build (trace (upload h req db)).
Proof.
  intros Hd Hp Hread Hcompile.
  unfold upload. run. rewrite Hd. run. rewrite Hp.
  apply respects_try_catch; [|intros e; apply on_error_quiet].
  destruct (verifySignature h (deploymentId req) (signature req)) as [valid|message];
    [|apply respects_throw].
  destruct (negb valid); [apply respects_send|].
  destruct (Js.ltb (balance project) 1); [apply respects_send|].
  unfold pipeline.
  apply respects_bind_value; [apply stage_quiet|].
  intros db1 raw' Hstage. apply stage_value in Hstage.
  assert (raw' = raw) as -> by congruence.
  apply respects_bind_value; [apply compile_quiet|].
  intros db2 sel Hsel. apply Hcompile in Hsel.
  unfold deploy_manifest. rewrite Hsel.
  respects_auto.
Qed.

(** Before the deployment and its project are found nothing is done. *)
Lemma upload_unknown_quiet db :
  deploy_by_uuid db (deploymentId req) = None \/
  (exists deploy, deploy_by_uuid db (deploymentId req) = Some deploy /\
                  project_by_id db (deploy_project_id deploy) = None) ->
  trace (upload h req db) = [].
Proof.
  intros [Hd|(deploy & Hd & Hp)]; unfold upload; run; rewrite Hd; [reflexivity|].
  run. now rewrite Hp.
Qed.

(** A response sent by [compile] is the response of the upload. *)
Lemma upload_outcome_of_compile db deploy project raw r :
  accepted h req db deploy project -> staged h req raw ->
  (forall db', outcome (compile h req deploy project raw db') = Sent r) ->
  outcome (upload h req db) = Sent r.
Proof.
  intros (Hd & Hp & Hsig & Hbal) Hstaged Hcompile.
  unfold upload. run. rewrite Hd. run. rewrite Hp.
  apply outcome_try_catch_sent.
  rewrite Hsig. cbn [negb]. rewrite Hbal. unfold pipeline.
  rewrite (outcome_bind_value _ _ _ raw); [|now apply stage_staged].
  apply outcome_bind_sent. apply Hcompile.
Qed.

End Pipeline.

End UploadFacts.

(** ** The manifest compiler (steps 8b, 8c and 9) *)

Module CompilerFacts.

Import Manifest Store Chart Handler Upload HandlerFacts Respects UploadFacts.

Section Compiler.

Variables (h : Host) (req : Request).

Lemma select_manifest_value deploy raw db sel :
  outcome (select_manifest req deploy raw db) = Value sel ->
  (isV2Manifest raw = false /\
   sel = ({| body := raw_body raw; deployments := raw_deployments raw |}, None)) \/
  (isV2Manifest raw = true /\
   exists svc, selected_service req raw = Some svc /\
               sel = (service_manifest raw svc, serviceName_of req)).
Proof.
  unfold select_manifest. destruct (isV2Manifest raw).
  - destruct (selected_service req raw) as [svc|]; unfold logStep; run;
      rewrite ?outcome_prepend; simpl; [|discriminate].
    intros [= <-]. right. eauto.
  - simpl. intros [= <-]. now left.
Qed.

Lemma select_manifest_missing deploy raw db :
  isV2Manifest raw = true -> selected_service req raw = None ->
  outcome (select_manifest req deploy raw db) =
    Sent {| status := 400; json := ErrorBody missing_service_selector |}.
Proof.
  intros Hv2 Hsel. unfold select_manifest, logStep. rewrite Hv2, Hsel. now run.
Qed.

Lemma selected_service_missing raw :
  Js.truthy (serviceName_of req) = false -> selected_service req raw = None.
Proof. intros H. unfold selected_service. now rewrite H. Qed.

(** A name that is no key of [services] selects nothing, or the empty object
    found on the prototype chain. *)
Lemma selected_service_unknown raw name svcs :
  serviceName_of req = Some name -> services raw = Some svcs -> svcs !! name = None ->
  selected_service req raw =
    if negb (String.eqb name EmptyString) && bool_decide (name ∈ object_prototype_keys)
    then Some empty_body else None.
Proof.
  intros Hn Hs Hl. unfold selected_service, service_object, services_get.
  rewrite Hn, Hs. simpl. rewrite Hl.
  destruct (negb (name =? "")%string); [|reflexivity].
  now destruct (bool_decide (name ∈ object_prototype_keys)).
Qed.

Lemma check_target_ok deploy manifest project db :
  target_ok manifest project = true ->
  check_target req deploy manifest project db = ret tt db.
Proof.
  unfold target_ok, check_target.
  destruct (deployConfig manifest project) as [d|]; [|discriminate].
  destruct (Js.truthy (projectID d)); [|discriminate]. simpl.
  destruct (Js.truthy (Manifest.network d) &&
            negb (bool_decide (Manifest.network d = Some (Store.network project))));
    [discriminate|reflexivity].
Qed.

Lemma check_target_mismatch deploy manifest project db d n :
  deployConfig manifest project = Some d ->
  Js.truthy (projectID d) = true ->
  Manifest.network d = Some n -> n <> EmptyString -> n <> Store.network project ->
  outcome (check_target req deploy manifest project db) =
    Sent {| status := 400; json := ErrorBody (network_mismatch project n) |}.
Proof.
  intros Hd Hid Hn Hne Hneq. unfold check_target, logStep. rewrite Hd, Hid, Hn. simpl.
  apply String.eqb_neq in Hne. rewrite Hne. simpl.
  rewrite bool_decide_eq_false_2; [|congruence]. simpl. now run.
Qed.

Lemma check_target_none deploy manifest project db :
  deployConfig manifest project = None ->
  outcome (check_target req deploy manifest project db) =
    Sent {| status := 400; json := ErrorBody no_matching_target |}.
Proof. intros Hd. unfold check_target, logStep. rewrite Hd. now run. Qed.

(** [deployConfig] is the first target of this provider and project. *)
Lemma deployConfig_first manifest project d :
  deployConfig manifest project = Some d ->
  exists before after,
    deployments manifest = Some (before ++ d :: after) /\
    provider d = "mandala" /\ projectID d = Some (project_uuid project) /\
    Forall (fun t => ~ (provider t = "mandala" /\ projectID t = Some (project_uuid project)))
      before.
Proof.
  unfold deployConfig. destruct (deployments manifest) as [ds|]; [|discriminate].
  induction ds as [|t ds IH]; [discriminate|]. simpl.
  destruct (String.eqb (provider t) "mandala" &&
            bool_decide (projectID t = Some (project_uuid project))) eqn:Ht.
  - intros [= ->]. exists [], ds.
    apply andb_true_iff in Ht as [Hp Hi].
    apply String.eqb_eq in Hp. apply bool_decide_eq_true in Hi. repeat split; auto.
  - intros Hfind. destruct (IH Hfind) as (before & after & [= ->] & Hp & Hi & Hbefore).
    exists (t :: before), after. repeat split; auto.
    constructor; [|exact Hbefore]. intros [Hp' Hi'].
    apply String.eqb_eq in Hp'. rewrite Hp' in Ht.
    rewrite bool_decide_eq_true_2 in Ht; [discriminate|exact Hi'].
Qed.

(** What [compile] returns passed the selection, the GPU gate and the target
    check. *)
Lemma compile_value deploy project raw db sel :
  outcome (compile h req deploy project raw db) = Value sel ->
  (exists db', outcome (select_manifest req deploy raw db') = Value sel) /\
  (requests_gpu (body (fst sel)) = true -> GPU_ENABLED h = Some "true") /\
  target_ok (fst sel) project = true.
Proof.
  unfold compile. split_bind; try discriminate.
  destruct (requests_gpu (body (fst a)) && negb (bool_decide (GPU_ENABLED h = Some "true")))
    eqn:Hgpu; [discriminate|].
  split_bind; try discriminate.
  simpl. intros [= <-]. split; [eauto|]. split.
  - intros Hg. rewrite Hg in Hgpu. simpl in Hgpu.
    apply negb_false_iff, bool_decide_eq_true in Hgpu. exact Hgpu.
  - revert Hrun0. unfold check_target, target_ok, logStep.
    destruct (deployConfig (fst a) project) as [d|]; [|run; discriminate].
    destruct (Js.truthy (projectID d)); simpl; [|run; discriminate].
    destruct (Js.truthy (Manifest.network d) &&
              negb (bool_decide (Manifest.network d = Some (Store.network project))));
      [run; discriminate|reflexivity].
Qed.

Lemma compile_succeeds deploy project raw db sel :
  outcome (select_manifest req deploy raw db) = Value sel ->
  (requests_gpu (body (fst sel)) = true -> GPU_ENABLED h = Some "true") ->
  target_ok (fst sel) project = true ->
  outcome (compile h req deploy project raw db) = Value sel.
Proof.
  intros Hsel Hgpu Hok. unfold compile.
  rewrite (outcome_bind_value _ _ _ sel Hsel).
  assert (Hgate : requests_gpu (body (fst sel)) &&
                  negb (bool_decide (GPU_ENABLED h = Some "true")) = false).
  { destruct (requests_gpu (body (fst sel))); [|reflexivity].
    rewrite bool_decide_eq_true_2; auto. }
  rewrite Hgate. rewrite (outcome_bind_value _ _ _ tt); [reflexivity|].
  now rewrite check_target_ok.
Qed.

End Compiler.

End CompilerFacts.

(** ** Validation errors end the upload before any build *)

Module Validation.

Import Manifest Store Chart Handler Upload HandlerFacts Respects UploadFacts CompilerFacts.

Section NoBuild.

Variables (h : Host) (req : Request).

(** A v2 document whose selector finds no service, or only the empty object
    of the prototype chain, never reaches a build. *)
Lemma no_build_without_service db raw :
  readManifest h (manifestPath h req) = Parsed raw ->
  isV2Manifest raw = true ->
  selected_service req raw = None \/ selected_service req raw = Some empty_body ->
  Forall no_build (trace (upload h req db)).
Proof.
  intros Hread Hv2 Hsel.
  destruct (deploy_by_uuid db (deploymentId req)) as [deploy|] eqn:Hd;
    [|rewrite upload_unknown_quiet; [constructor|now left]].
  destruct (project_by_id db (deploy_project_id deploy)) as [project|] eqn:Hp;
    [|rewrite upload_unknown_quiet; [constructor|right; eauto]].
  apply (upload_no_build h req db deploy project raw); auto.
  intros db' sel Hc. apply compile_value in Hc as [[db'' Hs] _].
  apply select_manifest_value in Hs as [[Hv1 _]|[_ (svc & Hsvc & ->)]]; [congruence|].
  destruct Hsel as [Hnone|Hempty]; [congruence|].
  rewrite Hempty in Hsvc. now injection Hsvc as <-.
Qed.

(** A target check that fails is the end of [compile]. *)
Lemma no_build_without_target db deploy project raw :
  deploy_by_uuid db (deploymentId req) = Some deploy ->
  project_by_id db (deploy_project_id deploy) = Some project ->
  readManifest h (manifestPath h req) = Parsed raw ->
  (forall db' sel, outcome (select_manifest req deploy raw db') = Value sel ->
                   target_ok (fst sel) project = false) ->
  Forall no_build (trace (upload h req db)).
Proof.
  intros Hd Hp Hread Hbad.
  apply (upload_no_build h req db deploy project raw); auto.
  intros db' sel Hc. apply compile_value in Hc as ([db'' Hs] & _ & Hok).
  apply Hbad in Hs. congruence.
Qed.

End NoBuild.

(** C9 (as the code has it): an upload for a project whose balance is below 1
    satoshi stores, validates, builds and applies nothing, and leaves every
    table but the log as it was.  When the signature check resolves, the
    answer is 401 (invalid signature, else the balance message) with no
    effect at all; when it rejects, the catch block runs: one log row, a mail
    to the admins, and the answer is 500. *)
Theorem upload_balance_gate (h : Host) (req : Request) (db : Db)
    (deploy : Deploy) (project : Project) :
  deploy_by_uuid db (deploymentId req) = Some deploy ->
  project_by_id db (deploy_project_id deploy) = Some project ->
  Js.ltb (balance project) 1 = true ->
  match verifySignature h (deploymentId req) (signature req) with
  | SigValid valid =>
      outcome (upload h req db) =
        Sent {| status := 401;
                json := ErrorBody
                  (if valid
                   then "Project balance must be at least 1 satoshi to upload a deployment. Current balance: "
                        +:+ show_number h (balance project)
                   else "Invalid signature") |} /\
      trace (upload h req db) = [] /\
      db_after (upload h req db) = db
  | SigThrows message =>
      outcome (upload h req db) =
        Sent {| status := 500; json := ErrorBody ("Error handling upload: " +:+ message) |} /\
      db_after (upload h req db) =
        run_stmt (InsertLog {| log_project_id := Some (id project);
                               log_deploy_id := Some (deploy_id deploy);
                               message := "Error handling upload: " +:+ message |}) db
  end /\
  Forall reports_only (trace (upload h req db)) /\
  projects (db_after (upload h req db)) = projects db /\
  deploys (db_after (upload h req db)) = deploys db /\
  project_accounting (db_after (upload h req db)) = project_accounting db.
Proof.
  intros Hd Hp Hb.
  unfold upload. run. rewrite Hd. run. rewrite Hp.
  destruct (verifySignature h (deploymentId req) (signature req)) as [valid|message].
  - rewrite try_catch_if. destruct valid; cbn [negb].
    + rewrite Hb. cbn. repeat split; constructor.
    + cbn. repeat split; constructor.
  - rewrite try_catch_throw. unfold on_error. run. cbn.
    repeat split. repeat constructor.
Qed.

Lemma upload_balance_gate_witness :
  outcome (upload (Examples.host None (Examples.manifest_v1 Examples.body_plain [])
                     Examples.exec_ok)
             (Examples.request None) (Examples.db1 0)) =
    Sent {| status := 401;
            json := ErrorBody
              "Project balance must be at least 1 satoshi to upload a deployment. Current balance: 0" |} /\
  trace (upload (Examples.host None (Examples.manifest_v1 Examples.body_plain [])
                   Examples.exec_ok)
           (Examples.request None) (Examples.db1 0)) = [] /\
  db_after (upload (Examples.host None (Examples.manifest_v1 Examples.body_plain [])
                      Examples.exec_ok)
              (Examples.request None) (Examples.db1 0)) = Examples.db1 0.
Proof.
  apply (upload_balance_gate
           (Examples.host None (Examples.manifest_v1 Examples.body_plain []) Examples.exec_ok)
           (Examples.request None) (Examples.db1 0) Examples.deploy1 (Examples.project1 0)).
  - reflexivity.
  - reflexivity.
  - reflexivity.
Defined.

(** C9, the claim as stated fails: with balance 0 and a wallet that rejects
    the signature, the answer is 500, not 401, and a row is written to the
    log. *)
Lemma upload_balance_gate_rejected_signature :
  outcome (upload (Examples.rejecting_signature
                     (Examples.host None (Examples.manifest_v1 Examples.body_plain [])
                        Examples.exec_ok))
             (Examples.request None) (Examples.db1 0)) =
    Sent {| status := 500;
            json := ErrorBody "Error handling upload: Signature is not valid" |} /\
  logs (db_after (upload (Examples.rejecting_signature
                            (Examples.host None
                               (Examples.manifest_v1 Examples.body_plain [])
                               Examples.exec_ok))
                    (Examples.request None) (Examples.db1 0))) =
    [ {| log_project_id := Some 1; log_deploy_id := Some 7;
         message := "Error handling upload: Signature is not valid" |} ].
Proof. split; reflexivity. Qed.

(** C6: a v2 manifest submitted without a service-name selector is answered
    with the missing-selector error (status 400) and no image is built or
    pushed; no image is built or pushed either when the selector names a
    service that is not in the services map. *)
Theorem v2_selector_required (h : Host) (req : Request) (db : Db) (raw : RawManifest) :
  readManifest h (manifestPath h req) = Parsed raw ->
  isV2Manifest raw = true ->
  (Js.truthy (serviceName_of req) = false ->
   Forall no_build (trace (upload h req db)) /\
   forall deploy project,
     accepted h req db deploy project -> staged h req raw ->
     outcome (upload h req db) =
       Sent {| status := 400; json := ErrorBody missing_service_selector |}) /\
  (forall name svcs,
     serviceName_of req = Some name -> services raw = Some svcs -> svcs !! name = None ->
     Forall no_build (trace (upload h req db)) /\
     (name ∉ object_prototype_keys ->
      forall deploy project,
        accepted h req db deploy project -> staged h req raw ->
        outcome (upload h req db) =
          Sent {| status := 400; json := ErrorBody missing_service_selector |})).
Proof.
  intros Hread Hv2.
  assert (Hresp : selected_service req raw = None ->
            forall deploy project,
              accepted h req db deploy project -> staged h req raw ->
              outcome (upload h req db) =
                Sent {| status := 400; json := ErrorBody missing_service_selector |}).
  { intros Hnone deploy project Hacc Hst.
    apply (upload_outcome_of_compile h req db deploy project raw); auto.
    intros db'. unfold compile. apply outcome_bind_sent.
    now apply select_manifest_missing. }
  split.
  - intros Hno. pose proof (selected_service_missing req raw Hno) as Hnone. split.
    + apply (no_build_without_service h req db raw); auto.
    + now apply Hresp.
  - intros name svcs Hn Hs Hl.
    pose proof (selected_service_unknown req raw name svcs Hn Hs Hl) as Hsel. split.
    + apply (no_build_without_service h req db raw); auto.
      rewrite Hsel.
      destruct (negb (name =? "")%string && bool_decide (name ∈ object_prototype_keys));
        auto.
    + intros Hproto. apply Hresp. rewrite Hsel.
      rewrite (bool_decide_eq_false_2 _ Hproto). now rewrite andb_false_r.
Qed.

Lemma v2_selector_required_witness :
  (Forall no_build
     (trace (upload (Examples.host None Examples.manifest_v2 Examples.exec_ok)
               (Examples.request None) (Examples.db1 10))) /\
   outcome (upload (Examples.host None Examples.manifest_v2 Examples.exec_ok)
              (Examples.request None) (Examples.db1 10)) =
     Sent {| status := 400; json := ErrorBody missing_service_selector |}) /\
  (Forall no_build
     (trace (upload (Examples.host None Examples.manifest_v2 Examples.exec_ok)
               (Examples.request (Some "worker")) (Examples.db1 10))) /\
   outcome (upload (Examples.host None Examples.manifest_v2 Examples.exec_ok)
              (Examples.request (Some "worker")) (Examples.db1 10)) =
     Sent {| status := 400; json := ErrorBody missing_service_selector |}).
Proof.
  split.
  - destruct (v2_selector_required
                (Examples.host None Examples.manifest_v2 Examples.exec_ok)
                (Examples.request None) (Examples.db1 10) Examples.manifest_v2
                eq_refl eq_refl) as [Hmissing _].
    destruct (Hmissing eq_refl) as [Hquiet Hresp].
    split; [exact Hquiet|].
    apply (Hresp Examples.deploy1 (Examples.project1 10)).
    + repeat split; reflexivity.
    + repeat split; try reflexivity. exists EmptyString. reflexivity.
  - destruct (v2_selector_required
                (Examples.host None Examples.manifest_v2 Examples.exec_ok)
                (Examples.request (Some "worker")) (Examples.db1 10) Examples.manifest_v2
                eq_refl eq_refl) as [_ Hunknown].
    destruct (Hunknown "worker" {[ "api" := SvcObject Examples.body_plain ]}
                eq_refl eq_refl eq_refl) as [Hquiet Hresp].
    split; [exact Hquiet|].
    assert (Hkey : "worker" ∉ object_prototype_keys)
      by (apply (bool_decide_eq_false_1 ("worker" ∈ object_prototype_keys)); reflexivity).
    apply (Hresp Hkey Examples.deploy1 (Examples.project1 10)).
    + repeat split; reflexivity.
    + repeat split; try reflexivity. exists EmptyString. reflexivity.
Defined.

(** C5 (as the code has it): the target check looks only at the first
    declared target whose provider is [mandala] and whose project id is this
    project's.  It passes when that target declares no network or the
    project's network; a different network gives the network-mismatch error,
    which differs from the error given when no target has this provider and
    project id; either error ends the upload before any image is built. *)
Theorem first_target_decides (h : Host) (req : Request) (db : Db)
    (deploy : Deploy) (project : Project) (manifest : AgentManifest) :
  (forall d, deployConfig manifest project = Some d ->
     (exists before after,
        deployments manifest = Some (before ++ d :: after) /\
        provider d = "mandala" /\ projectID d = Some (project_uuid project) /\
        Forall (fun t => ~ (provider t = "mandala" /\
                            projectID t = Some (project_uuid project))) before) /\
     (Js.truthy (projectID d) = true ->
      Js.truthy (Manifest.network d) = false \/
      Manifest.network d = Some (Store.network project) ->
      check_target req deploy manifest project db = ret tt db) /\
     (forall n, Js.truthy (projectID d) = true ->
        Manifest.network d = Some n -> n <> EmptyString -> n <> Store.network project ->
        outcome (check_target req deploy manifest project db) =
          Sent {| status := 400; json := ErrorBody (network_mismatch project n) |})) /\
  (deployConfig manifest project = None ->
   outcome (check_target req deploy manifest project db) =
     Sent {| status := 400; json := ErrorBody no_matching_target |}) /\
  (forall n, network_mismatch project n <> no_matching_target) /\
  (target_ok manifest project = false ->
   forall raw,
     deploy_by_uuid db (deploymentId req) = Some deploy ->
     project_by_id db (deploy_project_id deploy) = Some project ->
     readManifest h (manifestPath h req) = Parsed raw ->
     (forall db' sel, outcome (select_manifest req deploy raw db') = Value sel ->
                      fst sel = manifest) ->
     Forall no_build (trace (upload h req db))).
Proof.
  split; [|split; [|split]].
  - intros d Hfound. split; [now apply deployConfig_first|]. split.
    + intros Hid Hnet. apply check_target_ok. unfold target_ok. rewrite Hfound, Hid. simpl.
      destruct Hnet as [-> | ->]; [reflexivity|].
      rewrite bool_decide_eq_true_2; [|reflexivity]. now rewrite andb_false_r.
    + intros n Hid Hn Hne Hneq.
      now apply (check_target_mismatch req deploy manifest project db d).
  - apply check_target_none.
  - intros n Heq. unfold network_mismatch, no_matching_target in Heq. simpl in Heq.
    discriminate Heq.
  - intros Hbad raw Hd Hp Hread Hsel.
    apply (no_build_without_target h req db deploy project raw); auto.
    intros db' sel Hs. now rewrite (Hsel db' sel Hs).
Qed.

Lemma first_target_decides_witness :
  check_target (Examples.request None) Examples.deploy1
    {| body := Examples.body_plain; deployments := Some [Examples.target "mainnet"] |}
    (Examples.project1 10) (Examples.db1 10) = ret tt (Examples.db1 10) /\
  outcome (check_target (Examples.request None) Examples.deploy1
             {| body := Examples.body_plain;
                deployments := Some [Examples.target "testnet"; Examples.target "mainnet"] |}
             (Examples.project1 10) (Examples.db1 10)) =
    Sent {| status := 400;
            json := ErrorBody (network_mismatch (Examples.project1 10) "testnet") |} /\
  outcome (check_target (Examples.request None) Examples.deploy1
             {| body := Examples.body_plain; deployments := Some [] |}
             (Examples.project1 10) (Examples.db1 10)) =
    Sent {| status := 400; json := ErrorBody no_matching_target |}.
Proof.
  split; [|split].
  - destruct (first_target_decides
                (Examples.host None Examples.two_targets Examples.exec_ok)
                (Examples.request None) (Examples.db1 10) Examples.deploy1
                (Examples.project1 10)
                {| body := Examples.body_plain;
                   deployments := Some [Examples.target "mainnet"] |}) as [Hfound _].
    destruct (Hfound (Examples.target "mainnet") eq_refl) as (_ & Hok & _).
    apply Hok; [reflexivity|right; reflexivity].
  - destruct (first_target_decides
                (Examples.host None Examples.two_targets Examples.exec_ok)
                (Examples.request None) (Examples.db1 10) Examples.deploy1
                (Examples.project1 10)
                {| body := Examples.body_plain;
                   deployments := Some [Examples.target "testnet";
                                        Examples.target "mainnet"] |}) as [Hfound _].
    destruct (Hfound (Examples.target "testnet") eq_refl) as (_ & _ & Hbad).
    apply Hbad; [reflexivity|reflexivity|discriminate|discriminate].
  - destruct (first_target_decides
                (Examples.host None Examples.two_targets Examples.exec_ok)
                (Examples.request None) (Examples.db1 10) Examples.deploy1
                (Examples.project1 10)
                {| body := Examples.body_plain; deployments := Some [] |})
      as (_ & Hnone & _).
    apply Hnone. reflexivity.
Defined.

(** C5, the claim as stated fails: the manifest declares a target with this
    project's id and network, but an earlier target with the same id names
    another network, and the upload is rejected with the network-mismatch
    error. *)
Lemma matching_target_rejected :
  (exists ds d,
     raw_deployments Examples.two_targets = Some ds /\ In d ds /\
     provider d = "mandala" /\
     projectID d = Some (project_uuid (Examples.project1 10)) /\
     Manifest.network d = Some (Store.network (Examples.project1 10))) /\
  outcome (upload (Examples.host None Examples.two_targets Examples.exec_ok)
             (Examples.request None) (Examples.db1 10)) =
    Sent {| status := 400;
            json := ErrorBody
              "Network mismatch: Project is on mainnet but deployment config specifies testnet" |}.
Proof.
  split.
  - exists [Examples.target "testnet"; Examples.target "mainnet"], (Examples.target "mainnet").
    repeat split; try reflexivity. right. now left.
  - vm_compute. reflexivity.
Qed.

End Validation.

(** ** The generated topology *)

Module Topology.

Import Manifest Store Chart Handler Upload HandlerFacts Respects UploadFacts CompilerFacts.

Lemma stateless_values dom m p ai fi :
  stateless m ->
  useMySQL (valuesObj dom m p ai fi) = false /\
  useMongo (valuesObj dom m p ai fi) = false /\
  useRedis (valuesObj dom m p ai fi) = false /\
  useStorage m = false.
Proof.
  intros [Hdb Hst]. unfold valuesObj, useStorage; simpl. rewrite Hst.
  destruct (databases m) as [d|]; [destruct Hdb as (-> & -> & ->)|]; auto.
Qed.

(** No resource of the project's own release carries a database name. *)
Lemma release_names_apart p suffix : ~ In (helmReleaseName p +:+ suffix) database_names.
Proof.
  unfold helmReleaseName, database_names. simpl.
  intros [H|[H|[H|[H|[H|[]]]]]]; discriminate H.
Qed.

(** Found files that are all overwritten add nothing to the chart. *)
Lemma found_overwritten found ts :
  overwritten found ts ->
  List.filter (fun f => negb (existsb (String.eqb (fst f)) (map file_name ts))) found = [].
Proof.
  intros Hall. induction found as [|f found IH]; [reflexivity|]. simpl.
  assert (Hf : existsb (String.eqb (fst f)) (map file_name ts) = true).
  { apply existsb_exists. exists (fst f). split; [apply Hall; now left|].
    apply String.eqb_refl. }
  rewrite Hf. simpl. apply IH. intros g Hg. apply Hall. now right.
Qed.

Lemma chart_documents_fresh found fullname v ts docs :
  overwritten found ts ->
  chart_documents found fullname v ts = Some docs ->
  chart_plain v ts = true /\ docs = render_chart fullname v ts.
Proof.
  intros Hall. unfold chart_documents.
  destruct (chart_plain v ts); [|discriminate].
  rewrite (found_overwritten _ _ Hall). simpl. rewrite app_nil_r.
  intros [= <-]. now split.
Qed.

(** The kinds of a stateless manifest's resource set. *)
Lemma stateless_kinds found dom m a p ai fi docs :
  stateless m ->
  overwritten found (templates m a p (valuesObj dom m p ai fi)) ->
  applied_topology found dom m a p ai fi = Some docs ->
  map kind docs =
    [Deployment; HorizontalPodAutoscaler; Service; Ingress] ++
    (if Js.truthy (frontend_custom_domain p) then [Ingress] else []) /\
  (forall k, In k (map kind docs) <->
             In k [Deployment; Service; HorizontalPodAutoscaler; Ingress]) /\
  Forall (fun d => ~ In (doc_name d) database_names) docs.
Proof.
  intros Hs Hall Happ. unfold applied_topology in Happ.
  apply (chart_documents_fresh _ _ _ _ _ Hall) in Happ as [_ ->].
  unfold templates.
  destruct (stateless_values dom m p ai fi Hs) as (Hmy & Hmo & Hre & Hst).
  rewrite Hst. unfold render_chart.
  rewrite !flat_map_app. cbn [flat_map render app].
  rewrite Hmy, Hmo, Hre. cbn [app].
  change (ingressCustomFrontend (valuesObj dom m p ai fi)) with (frontend_custom_domain p).
  destruct (Js.truthy (frontend_custom_domain p)); cbn [flat_map render app map kind doc_name].
  - split; [reflexivity|]. split.
    + intros k. simpl. tauto.
    + repeat constructor; apply release_names_apart.
  - split; [reflexivity|]. split.
    + intros k. simpl. tauto.
    + repeat constructor; apply release_names_apart.
Qed.

Lemma written_templates_app es es' :
  written_templates (es ++ es') = written_templates es ++ written_templates es'.
Proof. apply flat_map_app. Qed.

Lemma written_templates_none es : Forall no_template es -> written_templates es = [].
Proof.
  induction 1 as [|e es He _ IH]; [reflexivity|]. simpl. rewrite IH.
  destruct e as [| p c | | | | | | | |]; try reflexivity. destruct c; try reflexivity. destruct He.
Qed.

Section Written.

Variables (h : Host) (req : Request).

Lemma logStep_plain deploy msg lvl : respects no_template (logStep req deploy msg lvl).
Proof. unfold logStep. respects_auto. Qed.

Lemma logStep_no_apply deploy msg lvl : respects no_apply (logStep req deploy msg lvl).
Proof. unfold logStep. respects_auto. Qed.

Lemma runCmd_plain cmd cwd : respects no_template (runCmd h cmd cwd).
Proof. unfold runCmd. respects_auto. Qed.

Lemma runCmd_no_apply cmd cwd :
  String.prefix "helm upgrade " cmd = false -> respects no_apply (runCmd h cmd cwd).
Proof.
  intros Hc. unfold runCmd.
  apply respects_bind; [apply respects_emit; exact Hc|intros _].
  respects_auto.
Qed.

Ltac plain :=
  repeat lazymatch goal with
         | |- respects no_template (logStep _ _ _ _) => apply logStep_plain
         | |- respects no_template (runCmd _ _ _) => apply runCmd_plain
         | |- respects no_apply (logStep _ _ _ _) => apply logStep_no_apply
         | |- respects no_apply (runCmd _ _ _) => apply runCmd_no_apply; reflexivity
         | |- _ => respects_step
         end.

Lemma build_agent_plain deploy project dir m a :
  respects no_template (build_agent h req deploy project dir m a) /\
  respects no_apply (build_agent h req deploy project dir m a).
Proof. split; unfold build_agent; plain. Qed.

Lemma build_frontend_plain deploy project dir m :
  respects no_template (build_frontend h req deploy project dir m) /\
  respects no_apply (build_frontend h req deploy project dir m).
Proof. split; unfold build_frontend; plain. Qed.

Lemma fund_project_key_plain project :
  respects no_template (fund_project_key h project) /\
  respects no_apply (fund_project_key h project).
Proof. split; unfold fund_project_key; plain. Qed.

Lemma release_plain deploy project dir m v :
  respects no_template (release h req deploy project dir m v).
Proof. unfold release. plain. Qed.

Lemma for_each_templates dir ts db :
  for_each ts (fun t => emit (WriteFile (path_join h dir (file_name t)) (TemplateFile t))) db =
    {| outcome := Value tt; db_after := db;
       trace := map (fun t => WriteFile (path_join h dir (file_name t)) (TemplateFile t)) ts |}.
Proof.
  induction ts as [|t ts IH]; [reflexivity|].
  simpl for_each. rewrite bind_emit, IH. reflexivity.
Qed.

Lemma written_templates_map dir ts :
  written_templates
    (map (fun t => WriteFile (path_join h dir (file_name t)) (TemplateFile t)) ts) = ts.
Proof. induction ts as [|t ts IH]; [reflexivity|]. simpl. now rewrite IH. Qed.

Lemma bind_of_run {A B} (m : M A) (k : A -> M B) db a db' es :
  m db = {| outcome := Value a; db_after := db'; trace := es |} ->
  bind m k db = prepend es (k a db').
Proof. intros Hm. unfold bind. now rewrite Hm. Qed.

(** [write_chart] completes and writes the template files it is given. *)
Lemma write_chart_run deploy dir v ts db :
  outcome (write_chart h req deploy dir v ts db) = Value tt /\
  written_templates (trace (write_chart h req deploy dir v ts db)) = ts.
Proof.
  unfold write_chart, logStep. run.
  rewrite (bind_of_run _ _ _ _ _ _ (for_each_templates (path_join h dir "templates") ts db)).
  run. rewrite !outcome_prepend, !trace_prepend.
  split; [reflexivity|].
  rewrite !written_templates_app, written_templates_map. simpl. now rewrite app_nil_r.
Qed.

End Written.

End Topology.

(** ** Failing commands *)

Module Failures.

Import Manifest Store Chart Handler Upload HandlerFacts Respects UploadFacts.

Section Loud.

Variable h : Host.

Lemma not_exec_In es cmd cwd : Forall not_exec es -> ~ In (Exec cmd cwd) es.
Proof.
  intros H Hin. rewrite List.Forall_forall in H. exact (H _ Hin).
Qed.

(** A handler that spawns nothing has nothing to report. *)
Lemma loud_silent {A} (m : M A) : respects not_exec m -> fails_loudly h m.
Proof.
  intros Hm db cmd cwd e o msg Hin _. exfalso. exact (not_exec_In _ _ _ (Hm db) Hin).
Qed.

Lemma loud_runCmd cmd cwd : fails_loudly h (runCmd h cmd cwd).
Proof.
  intros db cmd' cwd' e o msg Hin Hfail.
  rewrite runCmd_outcome. revert Hin. unfold runCmd. run.
  destruct (execSync h cmd cwd) as [out|e' o' msg'] eqn:Hex.
  - unfold when. destruct (Js.truthy (Some out)); simpl;
      (intros [[= <- <-]|Hin]; [rewrite Hex in Hfail; discriminate Hfail|]).
    + destruct Hin as [[=]|[]].
    + destruct Hin.
  - run. simpl. intros [[= <- <-]|[[=]|[]]].
    rewrite Hex in Hfail. injection Hfail as <- <- <-.
    split; [reflexivity|]. right. now left.
Qed.

Lemma loud_bind {A B} (m : M A) (k : A -> M B) :
  fails_loudly h m -> (forall a, fails_loudly h (k a)) -> fails_loudly h (bind m k).
Proof.
  intros Hm Hk db cmd cwd e o msg Hin Hfail. unfold bind in *.
  destruct (outcome (m db)) as [a|r|e'] eqn:Ho; simpl in *.
  - apply in_app_or in Hin as [Hin|Hin].
    + destruct (Hm db cmd cwd e o msg Hin Hfail) as [Hthrown _].
      rewrite Hthrown in Ho. discriminate Ho.
    + destruct (Hk a _ cmd cwd e o msg Hin Hfail) as [Hthrown Hlog].
      split; [exact Hthrown|]. apply in_or_app. now right.
  - destruct (Hm db cmd cwd e o msg Hin Hfail) as [Hthrown _].
    rewrite Hthrown in Ho. discriminate Ho.
  - destruct (Hm db cmd cwd e o msg Hin Hfail) as [Hthrown Hlog].
    split; [|exact Hlog]. rewrite Ho in Hthrown. now injection Hthrown as ->.
Qed.

Lemma loud_when (c : bool) (m : M unit) : fails_loudly h m -> fails_loudly h (when c m).
Proof.
  destruct c; simpl; [auto|]. intros _. apply loud_silent. apply respects_ret.
Qed.

Lemma loud_for_each {A} (l : list A) (f : A -> M unit) :
  (forall x, fails_loudly h (f x)) -> fails_loudly h (for_each l f).
Proof.
  intros Hf. induction l as [|x l IH]; simpl.
  - apply loud_silent, respects_ret.
  - apply loud_bind; auto.
Qed.

End Loud.

End Failures.

Ltac loud_step :=
  lazymatch goal with
  | |- Upload.fails_loudly _ (Upload.runCmd _ _ _) => apply Failures.loud_runCmd
  | |- Upload.fails_loudly _ (Handler.when _ _) => apply Failures.loud_when
  | |- Upload.fails_loudly _ (Handler.for_each _ _) =>
      apply Failures.loud_for_each; intros ?
  | |- Upload.fails_loudly _ (Handler.bind _ _) => apply Failures.loud_bind; [|intros ?]
  | |- Upload.fails_loudly _ (if ?c then _ else _) => destruct c
  | |- Upload.fails_loudly _ (match ?x with _ => _ end) => destruct x
  | |- Upload.fails_loudly _ _ => apply Failures.loud_silent; respects_step
  end.

Module FailureResponse.

Import Manifest Store Chart Handler Upload HandlerFacts Respects UploadFacts Failures.

Section Loudness.

Variables (h : Host) (req : Request).

Lemma logStep_loud deploy msg lvl : fails_loudly h (logStep req deploy msg lvl).
Proof. apply loud_silent. unfold logStep. respects_auto. Qed.

Ltac loud :=
  repeat lazymatch goal with
         | |- fails_loudly _ (logStep _ _ _ _) => apply logStep_loud
         | |- _ => loud_step
         end.

Lemma stage_loud deploy : fails_loudly h (stage h req deploy).
Proof. unfold stage. loud. Qed.

Lemma compile_loud deploy project raw : fails_loudly h (compile h req deploy project raw).
Proof. unfold compile, select_manifest, check_target. loud. Qed.

Lemma build_agent_loud deploy project dir m a :
  fails_loudly h (build_agent h req deploy project dir m a).
Proof. unfold build_agent. loud. Qed.

Lemma build_frontend_loud deploy project dir m :
  fails_loudly h (build_frontend h req deploy project dir m).
Proof. unfold build_frontend. loud. Qed.

Lemma release_loud deploy project dir m v :
  fails_loudly h (release h req deploy project dir m v).
Proof. unfold release. loud. Qed.

Lemma deploy_manifest_loud deploy project manifest sn :
  fails_loudly h (deploy_manifest h req deploy project manifest sn).
Proof.
  unfold deploy_manifest, fund_project_key, write_chart.
  repeat lazymatch goal with
         | |- fails_loudly _ (logStep _ _ _ _) => apply logStep_loud
         | |- fails_loudly _ (build_agent _ _ _ _ _ _ _) => apply build_agent_loud
         | |- fails_loudly _ (build_frontend _ _ _ _ _ _) => apply build_frontend_loud
         | |- fails_loudly _ (release _ _ _ _ _ _ _) => apply release_loud
         | |- _ => loud_step
         end.
Qed.

Lemma pipeline_loud deploy project : fails_loudly h (pipeline h req deploy project).
Proof.
  unfold pipeline.
  apply loud_bind; [apply stage_loud|intros raw].
  apply loud_bind; [apply compile_loud|intros sel].
  apply deploy_manifest_loud.
Qed.

Lemma on_error_run deploy project msg db :
  exists row body,
    message row = "Error handling upload: " +:+ msg /\
    on_error req deploy project msg db =
      {| outcome := Sent {| status := 500;
                            json := ErrorBody ("Error handling upload: " +:+ msg) |};
         db_after := run_stmt (InsertLog row) db;
         trace := [ Sql (InsertLog row);
                    Logger error [("deploymentId", deploymentId req); ("error", msg)]
                      ("Error handling upload: " +:+ msg);
                    Email (admin_emails (run_stmt (InsertLog row) db) (id project))
                      ("Deployment Failure for Project: " +:+ name project) body ] |}.
Proof.
  unfold on_error. run. eexists. eexists. split; [|reflexivity]. reflexivity.
Qed.

Lemma substring0_length n s : (String.length (Js.substring0 n s) <= n)%nat.
Proof.
  unfold Js.substring0. revert s. induction n as [|n IH]; intros s.
  - destruct s; simpl; lia.
  - destruct s as [|c s]; simpl; [lia|]. specialize (IH s). lia.
Qed.

(** An upload whose trace holds a command: the request was accepted and the
    command belongs to the pipeline. *)
Lemma upload_exec db cmd cwd :
  In (Exec cmd cwd) (trace (upload h req db)) ->
  exists deploy project,
    upload h req db = try_catch (pipeline h req deploy project)
                        (on_error req deploy project) db /\
    In (Exec cmd cwd) (trace (try_catch (pipeline h req deploy project)
                                (on_error req deploy project) db)).
Proof.
  unfold upload. run.
  destruct (deploy_by_uuid db (deploymentId req)) as [deploy|]; [|intros []].
  run. destruct (project_by_id db (deploy_project_id deploy)) as [project|]; [|intros []].
  destruct (verifySignature h (deploymentId req) (signature req)) as [valid|message].
  - rewrite !try_catch_if.
    destruct (negb valid); [intros []|].
    destruct (Js.ltb (balance project) 1); [intros []|].
    intros Hin. exists deploy, project. split; [reflexivity|exact Hin].
  - rewrite try_catch_throw. unfold on_error. run. cbn [trace prepend send app].
    intros [Hin|[Hin|[Hin|[]]]]; discriminate Hin.
Qed.

End Loudness.

(** C7 (as the code has it): when a command of the upload fails, among them
    every image build and push, at most 3000 characters of its stderr and of
    its stdout are kept and logged; the message
    [Command failed (<cmd>): <stderr, else stdout, else the process message>]
    is written to the logs table and is also the body of the 500 response,
    after the prefix [Error handling upload: ]. *)
Theorem command_failure_response (h : Host) (req : Request) db cmd cwd e o msg :
  In (Exec cmd cwd) (trace (upload h req db)) ->
  execSync h cmd cwd = ExecFail e o msg ->
  outcome (upload h req db) =
    Sent {| status := 500;
            json := ErrorBody ("Error handling upload: " +:+ failure_message cmd e o msg) |} /\
  In (failure_log cmd e o) (trace (upload h req db)) /\
  (exists row, message row = "Error handling upload: " +:+ failure_message cmd e o msg /\
               In (Sql (InsertLog row)) (trace (upload h req db))) /\
  (String.length (Js.substring0 3000 e) <= 3000)%nat /\
  (String.length (Js.substring0 3000 o) <= 3000)%nat.
Proof.
  intros Hin Hfail.
  destruct (upload_exec h req db cmd cwd Hin) as (deploy & project & -> & Hin').
  clear Hin. revert Hin'. unfold try_catch.
  destruct (outcome (pipeline h req deploy project db)) as [a|r|e'] eqn:Ho.
  - intros Hin. destruct (pipeline_loud h req deploy project db cmd cwd e o msg Hin Hfail)
      as [Hthrown _]. rewrite Hthrown in Ho. discriminate Ho.
  - intros Hin. destruct (pipeline_loud h req deploy project db cmd cwd e o msg Hin Hfail)
      as [Hthrown _]. rewrite Hthrown in Ho. discriminate Ho.
  - destruct (on_error_run req deploy project e' (db_after (pipeline h req deploy project db)))
      as (row & body & Hrow & ->).
    cbn [trace outcome prepend]. intros Hin.
    assert (Hp : In (Exec cmd cwd) (trace (pipeline h req deploy project db))).
    { apply in_app_or in Hin as [Hin|[Hin|[Hin|[Hin|[]]]]];
        [exact Hin|discriminate Hin|discriminate Hin|discriminate Hin]. }
    destruct (pipeline_loud h req deploy project db cmd cwd e o msg Hp Hfail)
      as [Hthrown Hlog].
    rewrite Ho in Hthrown. injection Hthrown as ->.
    split; [reflexivity|]. split; [apply in_or_app; now left|].
    split; [|split; apply substring0_length].
    exists row. split; [exact Hrow|]. apply in_or_app. right. now left.
Qed.

Lemma command_failure_response_witness :
  outcome (upload (Examples.host None
                     (Examples.manifest_v1 Examples.body_plain [Examples.target "mainnet"])
                     Examples.exec_build_fails)
             (Examples.request None) (Examples.db1 10)) =
    Sent {| status := 500;
            json := ErrorBody
              ("Error handling upload: " +:+
               failure_message
                 "buildah build --storage-driver=vfs --isolation=chroot -t mandala-registry:5000/mandala-project-0123456789abcdef0123456789abcdef/agent:d1 /tmp/build_d1/."
                 "Error: open /app/.env: permission denied" EmptyString "exit status 125") |}.
Proof.
  assert (Hin : In (Exec "buildah build --storage-driver=vfs --isolation=chroot -t mandala-registry:5000/mandala-project-0123456789abcdef0123456789abcdef/agent:d1 /tmp/build_d1/." None)
                  (trace (upload (Examples.host None
                                    (Examples.manifest_v1 Examples.body_plain
                                       [Examples.target "mainnet"])
                                    Examples.exec_build_fails)
                            (Examples.request None) (Examples.db1 10)))).
  { vm_compute. do 11 right. left. reflexivity. }
  exact (proj1 (command_failure_response
                  (Examples.host None
                     (Examples.manifest_v1 Examples.body_plain [Examples.target "mainnet"])
                     Examples.exec_build_fails)
                  (Examples.request None) (Examples.db1 10) _ None
                  "Error: open /app/.env: permission denied" EmptyString "exit status 125"
                  Hin eq_refl)).
Defined.

(** C7, the claim as stated fails: the image build fails, and what the
    builder printed to stderr is part of the response body. *)
Lemma build_output_in_response :
  execSync (Examples.host None
              (Examples.manifest_v1 Examples.body_plain [Examples.target "mainnet"])
              Examples.exec_build_fails)
    "buildah build --storage-driver=vfs --isolation=chroot -t mandala-registry:5000/mandala-project-0123456789abcdef0123456789abcdef/agent:d1 /tmp/build_d1/."
    None =
    ExecFail "Error: open /app/.env: permission denied" EmptyString "exit status 125" /\
  exists body,
    outcome (upload (Examples.host None
                       (Examples.manifest_v1 Examples.body_plain [Examples.target "mainnet"])
                       Examples.exec_build_fails)
               (Examples.request None) (Examples.db1 10)) =
      Sent {| status := 500; json := ErrorBody body |} /\
    Js.occurs_in "Error: open /app/.env: permission denied" body.
Proof.
  split; [reflexivity|].
  eexists. split; [vm_compute; reflexivity|].
  exists "Error handling upload: Command failed (buildah build --storage-driver=vfs --isolation=chroot -t mandala-registry:5000/mandala-project-0123456789abcdef0123456789abcdef/agent:d1 /tmp/build_d1/.): ",
    EmptyString.
  reflexivity.
Qed.

End FailureResponse.

(** ** Payments and the ledger *)

Module Billing.

Import Store Handler Projects HandlerFacts.

Lemma replay_cons e es db : replay (e :: es) db = replay es (replay [e] db).
Proof. reflexivity. Qed.

Lemma replay_log_only es db :
  Forall log_only es ->
  projects (replay es db) = projects db /\
  project_accounting (replay es db) = project_accounting db.
Proof.
  intros H. revert db. induction H as [|e es He _ IH]; intros db; [now split|].
  rewrite replay_cons. destruct (IH (replay [e] db)) as [-> ->].
  destruct e as [s| | | | | | | | |]; try (now split).
  destruct s; try destruct He. now split.
Qed.

Lemma states_along_lookup es db n s :
  states_along es db !! n = Some s ->
  s = replay (take n es) db /\ (n <= length es)%nat.
Proof.
  unfold states_along. rewrite list_lookup_fmap.
  destruct (seq 0 (S (length es)) !! n) as [k|] eqn:Hk; [|discriminate].
  apply lookup_seq in Hk as [-> Hlt]. simpl. intros [= <-]. split; [reflexivity|lia].
Qed.

Lemma ledger_paired_refl db0 db :
  projects db = projects db0 -> ledger_paired db0 db.
Proof.
  intros Hp pid b0 b H0 H1 Hne. unfold balance_of, project_by_id in *.
  rewrite Hp in H1. congruence.
Qed.

Section Pay.

Variables (h : Host) (key projectId : string) (db : Db).
Variables (user : User) (project : Project) (caller : AdminRow) (amount : Js.Double).
Hypothesis Huser : user_by_identity db key = Some user.
Hypothesis Hproject : project_by_uuid db projectId = Some project.
Hypothesis Hadmin : admin_row db (id project) key = Some caller.
Hypothesis Hpos : Js.leb amount 0 = false.

Local Abbreviation newBalance := (Js.add (balance project) amount).
Local Abbreviation credited := (credit project (Js.add (balance project) amount)).

(** An accepted payment runs to the end and does exactly [pay_trace]. *)
Lemma pay_run :
  pay h key projectId (JNumber amount) db =
    {| outcome := Sent {| status := 200;
                          json := MessageBody ("Paid " +:+ show_number h amount +:+
                                    " sats. New balance: " +:+
                                    show_number h (Js.add (balance project) amount)) |};
       db_after := replay (pay_trace h project amount) db;
       trace := pay_trace h project amount |}.
Proof.
  unfold pay, as_project_admin, requireRegisteredUser, requireProject, requireProjectAdmin.
  run. rewrite Huser. run. rewrite Hproject. run. rewrite Hadmin.
  unfold pay_body, pay_trace.
  rewrite Hpos. run.
  destruct (Js.ltb (balance project) 0 && Js.leb 0 (Js.add (balance project) amount)).
  - run. destruct (enableIngress h (project_uuid project)); run; reflexivity.
  - reflexivity.
Qed.

Lemma pay_trace_shape :
  exists rest,
    pay_trace h project amount =
      Sql (UpdateProjectBalance (id project) newBalance) ::
      Sql (InsertAccounting (credit_row project amount newBalance)) :: rest /\
    Forall log_only rest.
Proof.
  unfold pay_trace. eexists. split; [reflexivity|].
  constructor; [exact I|].
  destruct (Js.ltb (balance project) 0 && Js.leb 0 (Js.add (balance project) amount));
    repeat constructor.
Qed.

Lemma find_credited pid l :
  List.find (fun p => id p =? pid) (map credited l) =
  option_map credited (List.find (fun p => id p =? pid) l).
Proof.
  induction l as [|p l IH]; [reflexivity|]. simpl.
  assert (Hid : id (credited p) = id p).
  { unfold credit. now destruct (id p =? id project). }
  rewrite Hid. now destruct (id p =? pid).
Qed.

(** After the update and the ledger insert, and whatever logging follows. *)
Lemma paid_state s :
  projects s = map credited (projects db) ->
  project_accounting s =
    project_accounting db ++ [credit_row project amount newBalance] ->
  ledger_paired db s /\ balance_of s (id project) = Some newBalance.
Proof.
  intros Hp Ha.
  assert (Hbal : forall pid p0, project_by_id db pid = Some p0 ->
            balance_of s pid = Some (balance (credited p0)) /\ id p0 = pid).
  { intros pid p0 H0. unfold balance_of, project_by_id. rewrite Hp, find_credited.
    unfold project_by_id in H0. rewrite H0. split; [reflexivity|].
    apply find_some in H0 as [_ H0]. now apply Z.eqb_eq. }
  split.
  - intros pid b0 b H0 H1 Hne. unfold balance_of in H0.
    destruct (project_by_id db pid) as [p0|] eqn:Hfind; [|discriminate].
    injection H0 as <-. destruct (Hbal pid p0 Hfind) as [Hb Hid].
    rewrite Hb in H1. injection H1 as <-.
    unfold credit in Hne |- *.
    destruct (Z.eqb_spec (id p0) (id project)) as [Heq|]; [|congruence].
    exists [credit_row project amount newBalance], (credit_row project amount newBalance).
    repeat split; auto; [now left|simpl; congruence].
  - assert (Hin : exists p0, project_by_id db (id project) = Some p0).
    { apply find_some in Hproject as [Hin _].
      destruct (project_by_id db (id project)) as [p0|] eqn:Hf; [eauto|].
      apply (find_none _ _ Hf) in Hin. now rewrite Z.eqb_refl in Hin. }
    destruct Hin as [p0 Hf]. destruct (Hbal _ _ Hf) as [-> Hid].
    unfold credit. rewrite Hid, Z.eqb_refl. reflexivity.
Qed.

(** From the second statement on, the store holds the new balance and its
    ledger row. *)
Lemma pay_prefix_state n :
  (2 <= n)%nat ->
  projects (replay (take n (pay_trace h project amount)) db) = map credited (projects db) /\
  project_accounting (replay (take n (pay_trace h project amount)) db) =
    project_accounting db ++ [credit_row project amount newBalance].
Proof.
  intros Hn. destruct pay_trace_shape as (rest & -> & Hrest).
  destruct n as [|[|n]]; try lia. simpl take.
  rewrite replay_cons, (replay_cons (Sql (InsertAccounting _))).
  destruct (replay_log_only (take n rest)
              (replay [Sql (InsertAccounting (credit_row project amount newBalance))]
                 (replay [Sql (UpdateProjectBalance (id project) newBalance)] db)))
    as [-> ->]; [now apply Forall_take|].
  split; reflexivity.
Qed.

Lemma pay_prefix_paired n :
  (2 <= n)%nat ->
  ledger_paired db (replay (take n (pay_trace h project amount)) db) /\
  balance_of (replay (take n (pay_trace h project amount)) db) (id project) = Some newBalance.
Proof. intros Hn. destruct (pay_prefix_state n Hn). now apply paid_state. Qed.

Lemma pay_trace_length : (3 <= length (pay_trace h project amount))%nat.
Proof. unfold pay_trace. rewrite length_app. simpl. lia. Qed.

Lemma pay_final_state :
  project_accounting (replay (pay_trace h project amount) db) =
    project_accounting db ++ [credit_row project amount newBalance] /\
  balance_of (replay (pay_trace h project amount) db) (id project) = Some newBalance /\
  ledger_paired db (replay (pay_trace h project amount) db).
Proof.
  rewrite <- (firstn_all (pay_trace h project amount)).
  assert (Hlen : (2 <= length (pay_trace h project amount))%nat)
    by (pose proof pay_trace_length; lia).
  destruct (pay_prefix_state _ Hlen) as [_ Hacc].
  destruct (pay_prefix_paired _ Hlen) as [Hpaired Hbal].
  auto.
Qed.

End Pay.

End Billing.

Module Payments.

Import Store Handler Projects HandlerFacts Billing.

(** The sum is a double's: at 2^53 a payment of 1 leaves the balance where
    it was, and its ledger row says so. *)
Lemma pay_rounds :
  balance_of
    (db_after (pay (Examples.host None Examples.manifest_v2 Examples.exec_ok)
                 "02alice" Examples.uuid1 (JNumber 1) (Examples.db1 (2 ^ 53)))) 1 =
    Some (Js.of_Z (2 ^ 53)) /\
  map balance_after
    (project_accounting
       (db_after (pay (Examples.host None Examples.manifest_v2 Examples.exec_ok)
                    "02alice" Examples.uuid1 (JNumber 1) (Examples.db1 (2 ^ 53))))) =
    [Js.of_Z (2 ^ 53)].
Proof. split; vm_compute; reflexivity. Qed.

(** C1 (as the code has it): a payment of any number above 0, fractions and
    infinity included, is accepted; it issues the balance update and then
    the insert of its ledger row (credit, amount, resulting balance) as two
    consecutive statements, not in a transaction.  The resulting balance is
    the JavaScript sum [oldBalance + amount] of two doubles, rounded as
    doubles are.  When the handler has run, the store holds that balance and
    exactly one more ledger row, and the balance is paired with it; so is it
    in every state the run passes through except the one between the two
    statements. *)
Theorem pay_ledger_follows_update (h : Host) (key projectId : string) (db : Db)
    (user : User) (project : Project) (caller : AdminRow) (amount : Js.Double) :
  user_by_identity db key = Some user ->
  project_by_uuid db projectId = Some project ->
  admin_row db (id project) key = Some caller ->
  Js.leb amount 0 = false ->
  (exists rest,
     trace (pay h key projectId (JNumber amount) db) =
       Sql (UpdateProjectBalance (id project) (Js.add (balance project) amount)) ::
       Sql (InsertAccounting (credit_row project amount (Js.add (balance project) amount))) ::
       rest) /\
  project_accounting (db_after (pay h key projectId (JNumber amount) db)) =
    project_accounting db ++ [credit_row project amount (Js.add (balance project) amount)] /\
  balance_of (db_after (pay h key projectId (JNumber amount) db)) (id project) =
    Some (Js.add (balance project) amount) /\
  ledger_paired db (db_after (pay h key projectId (JNumber amount) db)) /\
  (forall n s,
     states_along (trace (pay h key projectId (JNumber amount) db)) db !! n = Some s ->
     n <> 1%nat -> ledger_paired db s).
Proof.
  intros Hu Hp Ha Hpos.
  rewrite (pay_run h key projectId db user project caller amount Hu Hp Ha Hpos).
  cbn [trace db_after outcome].
  destruct (pay_final_state h projectId db project amount Hp) as (Hacc & Hbal & Hpaired).
  split; [|split; [exact Hacc|split; [exact Hbal|split; [exact Hpaired|]]]].
  - destruct (pay_trace_shape h project amount) as (rest & -> & _). eauto.
  - intros n s Hs Hn. apply states_along_lookup in Hs as [-> _].
    destruct n as [|[|n]]; [|congruence|].
    + now apply ledger_paired_refl.
    + apply (pay_prefix_paired h projectId db project amount Hp). lia.
Qed.

Lemma pay_ledger_follows_update_witness :
  project_accounting
    (db_after (pay (Examples.host None Examples.manifest_v2 Examples.exec_ok)
                 "02alice" Examples.uuid1 (JNumber 5) (Examples.db1 (-1)))) =
    [credit_row (Examples.project1 (-1)) 5 4] /\
  balance_of
    (db_after (pay (Examples.host None Examples.manifest_v2 Examples.exec_ok)
                 "02alice" Examples.uuid1 (JNumber 5) (Examples.db1 (-1)))) 1 = Some (Js.of_Z 4).
Proof.
  destruct (pay_ledger_follows_update
              (Examples.host None Examples.manifest_v2 Examples.exec_ok)
              "02alice" Examples.uuid1 (Examples.db1 (-1)) Examples.alice
              (Examples.project1 (-1))
              {| admin_project_id := 1; admin_identity_key := "02alice" |} 5)
    as (_ & Hacc & Hbal & _).
  - reflexivity.
  - reflexivity.
  - reflexivity.
  - reflexivity.
  - split; [exact Hacc|exact Hbal].
Defined.

(** C1, the claim as stated fails: a payment of 5 to a project at -1 passes
    through a state whose balance is 4 while the ledger is still empty. *)
Lemma pay_unpaired_window :
  ~ Forall (ledger_paired (Examples.db1 (-1)))
      (states_along
         (trace (pay (Examples.host None Examples.manifest_v2 Examples.exec_ok)
                   "02alice" Examples.uuid1 (JNumber 5) (Examples.db1 (-1))))
         (Examples.db1 (-1))).
Proof.
  intros Hall.
  assert (Hs : states_along
                 (trace (pay (Examples.host None Examples.manifest_v2 Examples.exec_ok)
                           "02alice" Examples.uuid1 (JNumber 5) (Examples.db1 (-1))))
                 (Examples.db1 (-1)) !! 1%nat =
               Some (run_stmt (UpdateProjectBalance 1 4) (Examples.db1 (-1)))).
  { vm_compute. reflexivity. }
  pose proof (proj1 (Forall_lookup _ _) Hall 1%nat _ Hs) as Hpaired.
  destruct (Hpaired 1 (-1) 4) as (news & r & Hacc & Hin & _).
  - reflexivity.
  - reflexivity.
  - discriminate.
  - simpl in Hacc. subst news. destruct Hin.
Qed.

(** C2: a payment that takes the balance from below zero to zero or above
    credits the balance, appends exactly one ledger row of type credit with
    the amount and the resulting balance, and outside the store does one
    thing only: it calls the ingress re-enable, once.  Nothing is built and
    no release is applied.  The resulting balance is the JavaScript sum
    [oldBalance + amount] of two doubles; with balance -1 and amount 5 it is
    4. *)
Theorem pay_reenables_ingress_only (h : Host) (key projectId : string) (db : Db)
    (user : User) (project : Project) (caller : AdminRow) (amount : Js.Double) :
  user_by_identity db key = Some user ->
  project_by_uuid db projectId = Some project ->
  admin_row db (id project) key = Some caller ->
  Js.leb amount 0 = false ->
  Js.ltb (balance project) 0 = true -> Js.leb 0 (Js.add (balance project) amount) = true ->
  List.filter (fun e => negb (is_store_write e))
    (trace (pay h key projectId (JNumber amount) db)) =
    [EnableIngress (project_uuid project)] /\
  balance_of (db_after (pay h key projectId (JNumber amount) db)) (id project) =
    Some (Js.add (balance project) amount) /\
  (exists row,
     project_accounting (db_after (pay h key projectId (JNumber amount) db)) =
       project_accounting db ++ [row] /\
     acc_project_id row = id project /\ acc_type row = "credit" /\
     amount_sats row = amount /\ balance_after row = Js.add (balance project) amount).
Proof.
  intros Hu Hp Ha Hpos Hneg Hnn.
  rewrite (pay_run h key projectId db user project caller amount Hu Hp Ha Hpos).
  cbn [trace db_after outcome].
  destruct (pay_final_state h projectId db project amount Hp) as (Hacc & Hbal & _).
  split; [|split; [exact Hbal|]].
  - unfold pay_trace.
    rewrite Hneg, Hnn. reflexivity.
  - exists (credit_row project amount (Js.add (balance project) amount)).
    split; [exact Hacc|]. repeat split.
Qed.

Lemma pay_reenables_ingress_only_witness :
  List.filter (fun e => negb (is_store_write e))
    (trace (pay (Examples.host None Examples.manifest_v2 Examples.exec_ok)
              "02alice" Examples.uuid1 (JNumber 5) (Examples.db1 (-1)))) =
    [EnableIngress Examples.uuid1] /\
  balance_of
    (db_after (pay (Examples.host None Examples.manifest_v2 Examples.exec_ok)
                 "02alice" Examples.uuid1 (JNumber 5) (Examples.db1 (-1)))) 1 = Some (Js.of_Z 4) /\
  (exists row,
     project_accounting
       (db_after (pay (Examples.host None Examples.manifest_v2 Examples.exec_ok)
                    "02alice" Examples.uuid1 (JNumber 5) (Examples.db1 (-1)))) = [row] /\
     acc_project_id row = 1 /\ acc_type row = "credit" /\
     amount_sats row = 5 /\ balance_after row = 4).
Proof.
  apply (pay_reenables_ingress_only
           (Examples.host None Examples.manifest_v2 Examples.exec_ok)
           "02alice" Examples.uuid1 (Examples.db1 (-1)) Examples.alice
           (Examples.project1 (-1))
           {| admin_project_id := 1; admin_identity_key := "02alice" |} 5).
  - reflexivity.
  - reflexivity.
  - reflexivity.
  - reflexivity.
  - reflexivity.
  - reflexivity.
Defined.

End Payments.

(** ** Project admins *)

Module Admins.

Import Store Handler Projects HandlerFacts.

Lemma removeAdmin_db_after key projectId target db :
  db_after (removeAdmin key projectId target db) = db \/
  exists project targetUser a,
    project_by_uuid db projectId = Some project /\
    In a (admins_of db (id project)) /\
    admin_identity_key a = identity_key targetUser /\
    ~ (exists b, admins_of db (id project) = [b] /\ admin_identity_key b = identity_key targetUser) /\
    db_after (removeAdmin key projectId target db) =
      run_stmt (project_log project ("Admin removed: " +:+ identity_key targetUser))
        (run_stmt (DeleteAdmin (id project) (identity_key targetUser)) db).
Proof.
  unfold removeAdmin, as_project_admin, requireRegisteredUser, requireProject,
    requireProjectAdmin.
  run. destruct (user_by_identity db key) as [user|]; [|run; now left].
  run. destruct (project_by_uuid db projectId) as [project|] eqn:Hp; [|run; now left].
  run. destruct (admin_row db (id project) key) as [caller|]; [|run; now left].
  unfold removeAdmin_body. run.
  destruct (resolveUser db target) as [targetUser|]; [|now left].
  run.
  destruct (Nat.eqb (length (admins_of db (id project))) 1 &&
            match head (admins_of db (id project)) with
            | Some a => is_target targetUser a | None => false end) eqn:Hguard; [now left|].
  destruct (List.find (is_target targetUser) (admins_of db (id project))) as [a|] eqn:Hfind;
    [|now left].
  run.
  right. exists project, targetUser, a.
  apply find_some in Hfind as [Hin Ht].
  unfold is_target in Ht. apply String.eqb_eq in Ht.
  repeat split; auto.
  intros [b [Hb Hk]]. rewrite Hb in Hguard. simpl in Hguard.
  unfold is_target in Hguard. apply String.eqb_eq in Hk. rewrite Hk in Hguard. discriminate.
Qed.

Lemma create_db_after key name network privateKey funding rid rkey db :
  db_after (create key name network privateKey funding rid rkey db) = db \/
  exists p row,
    id p = next_project_id db /\
    db_after (create key name network privateKey funding rid rkey db) =
      run_stmt (InsertLog row)
        (run_stmt (InsertAdmin {| admin_project_id := next_project_id db;
                                  admin_identity_key := key |})
           (run_stmt (InsertProject p) db)).
Proof.
  unfold create, requireRegisteredUser. run.
  destruct (user_by_identity db key) as [user|]; [|run; now left].
  run.
  destruct (Js.truthy privateKey && negb (valid_private_key (Js.or_else privateKey EmptyString)));
    [now left|].
  run. right. eexists. eexists. split; [|reflexivity]. reflexivity.
Qed.

Lemma addAdmin_db_after key projectId target db :
  db_after (addAdmin key projectId target db) = db \/
  exists project targetUser row,
    project_by_uuid db projectId = Some project /\
    admin_row db (id project) (identity_key targetUser) = None /\
    db_after (addAdmin key projectId target db) =
      run_stmt (InsertLog row)
        (run_stmt (InsertAdmin {| admin_project_id := id project;
                                  admin_identity_key := identity_key targetUser |}) db).
Proof.
  unfold addAdmin, as_project_admin, requireRegisteredUser, requireProject,
    requireProjectAdmin.
  run. destruct (user_by_identity db key) as [user|]; [|run; now left].
  run. destruct (project_by_uuid db projectId) as [project|] eqn:Hp; [|run; now left].
  run. destruct (admin_row db (id project) key) as [caller|]; [|run; now left].
  unfold addAdmin_body. run.
  destruct (resolveUser db target) as [targetUser|]; [|now left].
  run.
  destruct (admin_row db (id project) (identity_key targetUser)) eqn:Hex; [now left|].
  run. right. exists project, targetUser. eexists. repeat split; auto.
Qed.

Lemma delete_db_after key projectId db :
  db_after (delete key projectId db) = db \/
  exists project,
    project_by_uuid db projectId = Some project /\
    db_after (delete key projectId db) =
      run_stmt (DeleteProject (id project))
        (run_stmt (DeleteLogsOf (id project))
           (run_stmt (DeleteAdminsOf (id project))
              (run_stmt (DeleteDeploysOf (id project))
                 (run_stmt (DeleteAccountingOf (id project)) db)))).
Proof.
  unfold delete, as_project_admin, requireRegisteredUser, requireProject,
    requireProjectAdmin.
  run. destruct (user_by_identity db key) as [user|]; [|run; now left].
  run. destruct (project_by_uuid db projectId) as [project|] eqn:Hp; [|run; now left].
  run. destruct (admin_row db (id project) key) as [caller|]; [|run; now left].
  unfold delete_body. run. right. exists project. split; auto.
Qed.

Lemma pay_db_after h key projectId amount db :
  map id (projects (db_after (pay h key projectId amount db))) = map id (projects db) /\
  project_admins (db_after (pay h key projectId amount db)) = project_admins db /\
  next_project_id (db_after (pay h key projectId amount db)) = next_project_id db.
Proof.
  unfold pay, as_project_admin, requireRegisteredUser, requireProject,
    requireProjectAdmin.
  run. destruct (user_by_identity db key) as [user|]; [|run; now auto].
  run. destruct (project_by_uuid db projectId) as [project|] eqn:Hp; [|run; now auto].
  run. destruct (admin_row db (id project) key) as [caller|]; [|run; now auto].
  unfold pay_body.
  destruct amount as [a|]; [|now auto].
  destruct (Js.leb a 0); [now auto|].
  run.
  assert (Hids : map id (projects (run_stmt (UpdateProjectBalance (id project)
                                              (Js.add (balance project) a)) db))
                 = map id (projects db)).
  { simpl. rewrite map_map. apply map_ext. intros p. now destruct (id p =? id project). }
  destruct (Js.ltb (balance project) 0 && Js.leb 0 (Js.add (balance project) a)).
  - run. destruct (enableIngress h (project_uuid project)); run; simpl; repeat split; auto.
  - run. simpl. repeat split; auto.
Qed.

Lemma row_eq (a b : AdminRow) :
  admin_project_id a = admin_project_id b ->
  admin_identity_key a = admin_identity_key b -> a = b.
Proof. destruct a, b; simpl; intros; subst; reflexivity. Qed.

Lemma admins_of_In db pid r :
  In r (admins_of db pid) <-> In r (project_admins db) /\ admin_project_id r = pid.
Proof.
  unfold admins_of. rewrite List.filter_In. rewrite Z.eqb_eq. tauto.
Qed.

Lemma admins_of_nonempty db pid r :
  In r (project_admins db) -> admin_project_id r = pid -> admins_of db pid <> [].
Proof.
  intros Hin Hp Hnil.
  assert (H : In r (admins_of db pid)) by (apply admins_of_In; auto).
  rewrite Hnil in H. destruct H.
Qed.

Lemma nonempty_has_row db pid :
  admins_of db pid <> [] -> exists r, In r (project_admins db) /\ admin_project_id r = pid.
Proof.
  destruct (admins_of db pid) as [|r l] eqn:Hl; [congruence|].
  intros _. exists r. apply admins_of_In. rewrite Hl. now left.
Qed.

Lemma project_by_uuid_In db uuid p :
  project_by_uuid db uuid = Some p -> In (id p) (pids db).
Proof.
  intros H. apply find_some in H as [Hin _]. unfold pids. now apply in_map.
Qed.

(** Deleting one admin of a project that has another one leaves an admin. *)
Lemma delete_admin_leaves_one db pid k a :
  List.NoDup (project_admins db) ->
  In a (admins_of db pid) ->
  admin_identity_key a = k ->
  ~ (exists b, admins_of db pid = [b] /\ admin_identity_key b = k) ->
  admins_of (run_stmt (DeleteAdmin pid k) db) pid <> [].
Proof.
  intros Hnd Ha Hk Hnot.
  assert (Hother : exists c, In c (admins_of db pid) /\ admin_identity_key c <> k).
  { assert (Hnd' : List.NoDup (admins_of db pid)) by (apply List.NoDup_filter; exact Hnd).
    destruct (admins_of db pid) as [|x [|y l]] eqn:Hl.
    - destruct Ha.
    - destruct Ha as [->|[]]. exfalso. apply Hnot. exists a. split; auto.
    - assert (Hx : admin_project_id x = pid).
      { apply (admins_of_In db pid x). rewrite Hl. now left. }
      assert (Hy : admin_project_id y = pid).
      { apply (admins_of_In db pid y). rewrite Hl. right. now left. }
      destruct (String.eqb_spec (admin_identity_key x) k) as [Hxk|Hxk].
      + exists y. split; [right; now left|].
        intros Hyk. inversion Hnd' as [|? ? Hnin _]; subst.
        apply Hnin. left. apply row_eq; congruence.
      + exists x. split; [now left|exact Hxk]. }
  destruct Hother as [c [Hc Hck]].
  apply admins_of_In in Hc as [Hc Hp].
  apply (admins_of_nonempty _ _ c); [|exact Hp].
  simpl. apply List.filter_In. split; [exact Hc|].
  apply String.eqb_neq in Hck. rewrite Hck. now rewrite andb_false_r.
Qed.

Lemma delete_admin_other db pid k r :
  In r (project_admins db) -> admin_project_id r <> pid ->
  In r (project_admins (run_stmt (DeleteAdmin pid k) db)).
Proof.
  intros Hin Hne. simpl. apply List.filter_In. split; [exact Hin|].
  apply Z.eqb_neq in Hne. now rewrite Hne.
Qed.

Lemma fresh_inv db : fresh db -> admin_inv db.
Proof.
  intros [Hp Ha]. split; unfold pids; rewrite ?Hp, ?Ha; simpl.
  - intros i [].
  - intros r [].
  - constructor.
  - intros i [].
Qed.

Lemma other_inv db db' :
  map id (projects db') = map id (projects db) ->
  project_admins db' = project_admins db ->
  next_project_id db' = next_project_id db ->
  admin_inv db -> admin_inv db'.
Proof.
  intros Hp Ha Hn [I1 I2 I3 I4].
  split; unfold pids, admins_of in *; rewrite ?Hp, ?Ha, ?Hn; auto.
Qed.

Lemma create_inv key name network privateKey funding rid rkey db :
  admin_inv db -> admin_inv (db_after (create key name network privateKey funding rid rkey db)).
Proof.
  intros Hinv.
  destruct (create_db_after key name network privateKey funding rid rkey db)
    as [->|(p & row & Hid & ->)]; [exact Hinv|].
  destruct Hinv as [I1 I2 I3 I4].
  set (new := {| admin_project_id := next_project_id db; admin_identity_key := key |}).
  split; unfold pids, admins_of in *; simpl.
  - intros i Hi. rewrite map_app in Hi. apply in_app_or in Hi as [Hi|[<-|[]]].
    + specialize (I1 i Hi). lia.
    + lia.
  - intros r Hr. rewrite map_app. apply in_or_app.
    apply in_app_or in Hr as [Hr|[<-|[]]]; [left; auto|right; simpl; left; exact Hid].
  - apply List.NoDup_app.
    + exact I3.
    + constructor; [intros []|constructor].
    + intros r Hr [<-|[]]. apply I2 in Hr. apply I1 in Hr. simpl in Hr. lia.
  - intros i Hi. rewrite map_app in Hi. rewrite List.filter_app.
    apply in_app_or in Hi as [Hi|[<-|[]]].
    + specialize (I4 i Hi). destruct (List.filter _ (project_admins db)); [congruence|discriminate].
    + simpl. rewrite Hid, Z.eqb_refl. now destruct (List.filter _ (project_admins db)).
Qed.

Lemma addAdmin_inv key projectId target db :
  admin_inv db -> admin_inv (db_after (addAdmin key projectId target db)).
Proof.
  intros Hinv.
  destruct (addAdmin_db_after key projectId target db)
    as [->|(project & targetUser & row & Hp & Hex & ->)]; [exact Hinv|].
  destruct Hinv as [I1 I2 I3 I4].
  apply project_by_uuid_In in Hp.
  split; unfold pids, admins_of in *; simpl.
  - exact I1.
  - intros r Hr. apply in_app_or in Hr as [Hr|[<-|[]]]; auto.
  - apply List.NoDup_app.
    + exact I3.
    + constructor; [intros []|constructor].
    + intros r Hr [<-|[]].
      apply (find_none _ _ Hex) in Hr. simpl in Hr.
      now rewrite Z.eqb_refl, String.eqb_refl in Hr.
  - intros i Hi. rewrite List.filter_app. specialize (I4 i Hi).
    destruct (List.filter _ (project_admins db)); [congruence|discriminate].
Qed.

Lemma removeAdmin_keeps db key projectId target pid :
  List.NoDup (project_admins db) ->
  admins_of db pid <> [] ->
  admins_of (db_after (removeAdmin key projectId target db)) pid <> [].
Proof.
  intros Hnd Hne.
  destruct (removeAdmin_db_after key projectId target db)
    as [->|(project & targetUser & a & Hp & Ha & Hk & Hnot & ->)]; [exact Hne|].
  change (admins_of (run_stmt (DeleteAdmin (id project) (identity_key targetUser)) db) pid <> []).
  destruct (Z.eq_dec pid (id project)) as [->|Hother].
  - now apply (delete_admin_leaves_one db (id project) _ a).
  - apply nonempty_has_row in Hne as (r & Hr & Hrp).
    apply (admins_of_nonempty _ _ r); [|exact Hrp].
    apply delete_admin_other; congruence.
Qed.

Lemma removeAdmin_inv key projectId target db :
  admin_inv db -> admin_inv (db_after (removeAdmin key projectId target db)).
Proof.
  intros Hinv.
  pose proof (removeAdmin_keeps db key projectId target) as Hkeep.
  destruct Hinv as [I1 I2 I3 I4].
  specialize (fun pid => Hkeep pid I3).
  destruct (removeAdmin_db_after key projectId target db)
    as [Heq|(project & targetUser & a & Hp & Ha & Hk & Hnot & Heq)];
    rewrite Heq in *; [split; auto|].
  split; unfold pids in *; simpl.
  - exact I1.
  - intros r Hr. apply List.filter_In in Hr as [Hr _]. auto.
  - now apply List.NoDup_filter.
  - intros i Hi. apply Hkeep. auto.
Qed.

Lemma delete_inv key projectId db :
  admin_inv db -> admin_inv (db_after (delete key projectId db)).
Proof.
  intros Hinv.
  destruct (delete_db_after key projectId db) as [->|(project & Hp & ->)]; [exact Hinv|].
  destruct Hinv as [I1 I2 I3 I4].
  assert (Hpids : forall i, In i (map id (List.filter (fun p => negb (id p =? id project)) (projects db)))
                   <-> In i (pids db) /\ i <> id project).
  { intros i. unfold pids. rewrite !in_map_iff. split.
    - intros (p & <- & Hin). apply List.filter_In in Hin as [Hin Hne].
      apply negb_true_iff, Z.eqb_neq in Hne. split; [now exists p|exact Hne].
    - intros [(p & <- & Hin) Hne]. exists p. split; [reflexivity|].
      apply List.filter_In. split; [exact Hin|]. now apply negb_true_iff, Z.eqb_neq. }
  split; unfold pids; simpl.
  - intros i Hi. apply Hpids in Hi as [Hi _]. auto.
  - intros r Hr. apply List.filter_In in Hr as [Hr Hne].
    apply negb_true_iff, Z.eqb_neq in Hne. apply Hpids. auto.
  - now apply List.NoDup_filter.
  - intros i Hi. apply Hpids in Hi as [Hi Hne].
    apply I4, nonempty_has_row in Hi as (r & Hr & Hrp).
    apply (admins_of_nonempty _ _ r); [|exact Hrp].
    simpl. apply List.filter_In. split; [exact Hr|].
    apply negb_true_iff, Z.eqb_neq. congruence.
Qed.

Lemma step_inv h db db' : step h db db' -> admin_inv db -> admin_inv db'.
Proof.
  intros Hstep Hinv. destruct Hstep.
  - now apply create_inv.
  - destruct (pay_db_after h key projectId amount db) as (Hp & Ha & Hn).
    now apply (other_inv db).
  - now apply addAdmin_inv.
  - now apply removeAdmin_inv.
  - now apply delete_inv.
  - now apply (other_inv db).
Qed.

Lemma reachable_inv h db : reachable h db -> admin_inv db.
Proof.
  induction 1 as [db Hfresh|db db' _ IH Hstep].
  - now apply fresh_inv.
  - now apply (step_inv h db).
Qed.

Lemma removeAdmin_refuses key projectId target db user project caller targetUser a :
  user_by_identity db key = Some user ->
  project_by_uuid db projectId = Some project ->
  admin_row db (id project) key = Some caller ->
  resolveUser db target = Some targetUser ->
  admins_of db (id project) = [a] ->
  admin_identity_key a = identity_key targetUser ->
  removeAdmin key projectId target db =
    {| outcome := Sent {| status := 400; json := ErrorBody "Cannot remove last admin" |};
       db_after := db; trace := [] |}.
Proof.
  intros Hu Hp Hc Ht Ha Hk.
  unfold removeAdmin, as_project_admin, requireRegisteredUser, requireProject,
    requireProjectAdmin.
  run. rewrite Hu. run. rewrite Hp. run. rewrite Hc.
  unfold removeAdmin_body. run. rewrite Ht. run. rewrite Ha. simpl.
  unfold is_target. rewrite Hk, String.eqb_refl. reflexivity.
Qed.

(** Every project of a reachable store has an admin. *)
Lemma reachable_project_has_admin h db p :
  reachable h db -> In p (projects db) -> admins_of db (id p) <> [].
Proof.
  intros Hreach Hin. apply reachable_inv in Hreach. destruct Hreach as [_ _ _ Hadm].
  apply Hadm. unfold pids. now apply in_map.
Qed.

(** C10 (as the code has it): when requests are served one after another,
    in every store reached through the routes, removing an admin leaves each
    project that had an admin with at least one; and a request to remove the
    only admin of a project is refused with status 400, leaving the store as
    it was and doing nothing else. *)
Theorem removeAdmin_keeps_an_admin (h : Host) (key projectId target : string) (db : Db) :
  reachable h db ->
  (forall pid, admins_of db pid <> [] ->
     admins_of (db_after (removeAdmin key projectId target db)) pid <> []) /\
  (forall user project caller targetUser a,
     user_by_identity db key = Some user ->
     project_by_uuid db projectId = Some project ->
     admin_row db (id project) key = Some caller ->
     resolveUser db target = Some targetUser ->
     admins_of db (id project) = [a] ->
     admin_identity_key a = identity_key targetUser ->
     outcome (removeAdmin key projectId target db) =
       Sent {| status := 400; json := ErrorBody "Cannot remove last admin" |} /\
     db_after (removeAdmin key projectId target db) = db /\
     trace (removeAdmin key projectId target db) = []).
Proof.
  intros Hreach. apply reachable_inv in Hreach. destruct Hreach as [_ _ Hnd _].
  split.
  - intros pid. now apply removeAdmin_keeps.
  - intros user project caller targetUser a Hu Hp Hc Ht Ha Hk.
    rewrite (removeAdmin_refuses key projectId target db user project caller targetUser a);
      auto.
Qed.

(** The store after alice created a project. *)
Lemma created_reachable :
  reachable (Examples.host None Examples.manifest_v2 Examples.exec_ok)
    (db_after (create "02alice" (Some "demo") None None None Examples.uuid1 "k" Examples.db0)).
Proof.
  apply (reachable_step _ Examples.db0).
  - apply reachable_fresh. split; reflexivity.
  - apply step_create.
Defined.

Lemma removeAdmin_keeps_an_admin_witness :
  admins_of
    (db_after (removeAdmin "02alice" Examples.uuid1 "02alice"
                 (db_after (create "02alice" (Some "demo") None None None Examples.uuid1 "k"
                              Examples.db0)))) 1 <> [] /\
  outcome (removeAdmin "02alice" Examples.uuid1 "02alice"
             (db_after (create "02alice" (Some "demo") None None None Examples.uuid1 "k"
                          Examples.db0))) =
    Sent {| status := 400; json := ErrorBody "Cannot remove last admin" |}.
Proof.
  destruct (removeAdmin_keeps_an_admin
              (Examples.host None Examples.manifest_v2 Examples.exec_ok)
              "02alice" Examples.uuid1 "02alice"
              (db_after (create "02alice" (Some "demo") None None None Examples.uuid1 "k"
                           Examples.db0))
              created_reachable) as [Hkeep Hrefuse].
  split.
  - apply Hkeep. vm_compute. discriminate.
  - eapply Hrefuse; vm_compute; reflexivity.
Defined.

End Admins.

(** ** Removals in flight together *)

Module OverlapFacts.

Import Store Handler Projects HandlerFacts Overlap.

(** Served alone, the two parts are the handler. *)
Lemma removeAdmin_cut key projectId target db :
  removeAdmin key projectId target db =
    bind (removeAdmin_reads key projectId target) removeAdmin_writes db.
Proof.
  unfold removeAdmin, as_project_admin, requireRegisteredUser, requireProject,
    requireProjectAdmin, removeAdmin_body, removeAdmin_reads, removeAdmin_writes.
  run. destruct (user_by_identity db key) as [user|]; [|now run].
  run. destruct (project_by_uuid db projectId) as [project|]; [|now run].
  run. destruct (admin_row db (id project) key) as [caller|]; [|now run].
  run. destruct (resolveUser db target) as [targetUser|]; [|now run].
  run.
  destruct (Nat.eqb (length (admins_of db (id project))) 1 &&
            match head (admins_of db (id project)) with
            | Some a => is_target targetUser a
            | None => false
            end); [now run|].
  destruct (List.find (is_target targetUser) (admins_of db (id project))); now run.
Qed.

(** C10, the claim as stated fails: alice and bob administer a project; each
    asks to remove the other, and bob's request does its reads while alice's
    awaits its DELETE.  Both requests see two admins, both are answered 200,
    and the project is left with no admin. *)
Lemma overlapped_removals_leave_no_admin :
  reachable (Examples.host None Examples.manifest_v2 Examples.exec_ok) db_two_admins /\
  map admin_identity_key (admins_of db_two_admins 1) = ["02alice"; "03bob"]%string /\
  exists db',
    overlapped_removals "02alice" "03bob" "03bob" "02alice" Examples.uuid1 db_two_admins =
      (Sent {| status := 200; json := MessageBody "Admin removed" |},
       Sent {| status := 200; json := MessageBody "Admin removed" |}, db') /\
    In 1 (pids db') /\ admins_of db' 1 = [].
Proof.
  split; [|split].
  - apply (reachable_step _ (db_after (create "02alice" (Some "demo"%string) None None None
                                         Examples.uuid1 "k" db_registered))).
    + apply (reachable_step _ db_registered).
      * apply reachable_fresh. split; reflexivity.
      * apply step_create.
    + apply step_addAdmin.
  - reflexivity.
  - eexists. split; [vm_compute; reflexivity|]. split; [now left|reflexivity].
Qed.

End OverlapFacts.

Module AccessFacts.

Import Store Handler Projects HandlerFacts Access.

Lemma guard_refuses key projectId next db :
  authorized db key projectId = false ->
  refused db (as_project_admin key projectId next db).
Proof.
  unfold authorized, as_project_admin, requireRegisteredUser, requireProject,
    requireProjectAdmin, refused.
  intros Hauth. run.
  destruct (user_by_identity db key) as [user|].
  - run. destruct (project_by_uuid db projectId) as [project|].
    + run. destruct (admin_row db (id project) key) as [caller|]; [discriminate|].
      run. cbn. repeat split; [|repeat constructor].
      exists 403, "User not admin"%string. split; [reflexivity|simpl; auto].
    + run. cbn. repeat split; [|repeat constructor].
      exists 404, "Project not found"%string. split; [reflexivity|simpl; auto].
  - run. cbn. repeat split; [|repeat constructor].
    exists 401, "User not registered"%string. split; [reflexivity|simpl; auto].
Qed.

Lemma guard_passes key projectId next db user project caller :
  user_by_identity db key = Some user ->
  project_by_uuid db projectId = Some project ->
  admin_row db (id project) key = Some caller ->
  as_project_admin key projectId next db = next user project db.
Proof.
  intros Hu Hp Ha.
  unfold as_project_admin, requireRegisteredUser, requireProject, requireProjectAdmin.
  run. rewrite Hu. run. rewrite Hp. run. now rewrite Ha.
Qed.

Lemma authorized_true db key projectId :
  authorized db key projectId = true ->
  exists user project caller,
    user_by_identity db key = Some user /\
    project_by_uuid db projectId = Some project /\
    admin_row db (id project) key = Some caller.
Proof.
  unfold authorized.
  destruct (user_by_identity db key) as [user|]; [|discriminate].
  destruct (project_by_uuid db projectId) as [project|]; [|discriminate].
  destruct (admin_row db (id project) key) as [caller|] eqn:Ha; [|discriminate].
  intros _. eauto 6.
Qed.

End AccessFacts.

Module Guards.

Import Store Handler Projects HandlerFacts Access AccessFacts.

(** X1: A caller who is not a registered user, names no existing project, or is
    not an admin of it is refused by every route behind the three middlewares
    (pay, addAdmin, removeAdmin, delete, and any handler mounted the same
    way): the answer is 401, 404 or 403, the store is unchanged and the only
    effects are warnings in the log. *)
Theorem project_routes_need_an_admin (h : Host) (key projectId target : string)
    (amount : JsonValue) (next : User -> Project -> M unit) (db : Db) :
  authorized db key projectId = false ->
  refused db (as_project_admin key projectId next db) /\
  refused db (pay h key projectId amount db) /\
  refused db (addAdmin key projectId target db) /\
  refused db (removeAdmin key projectId target db) /\
  refused db (delete key projectId db).
Proof.
  intros Hauth. split; [|split; [|split; [|split]]];
    apply (guard_refuses key projectId _ db Hauth).
Qed.

Lemma project_routes_need_an_admin_witness :
  refused (Examples.db1 5)
    (pay (Examples.host None Examples.manifest_v2 Examples.exec_ok)
       "02mallory" Examples.uuid1 (JNumber 5) (Examples.db1 5)) /\
  refused (Examples.db1 5) (delete "02mallory" Examples.uuid1 (Examples.db1 5)).
Proof.
  destruct (project_routes_need_an_admin
              (Examples.host None Examples.manifest_v2 Examples.exec_ok)
              "02mallory" Examples.uuid1 "02alice" (JNumber 5)
              (fun _ _ => ret tt) (Examples.db1 5))
    as (_ & Hpay & _ & _ & Hdel).
  - reflexivity.
  - split; [exact Hpay|exact Hdel].
Defined.

(** X2: POST /:projectId/pay with an amount that is not a number above zero
    changes no row, issues no SQL statement and never enables the ingress;
    for an authorized caller the answer is 400 with the invalid-amount
    message. *)
Theorem pay_rejects_invalid_amount (h : Host) (key projectId : string)
    (amount : JsonValue) (db : Db) :
  valid_amount amount = false ->
  db_after (pay h key projectId amount db) = db /\
  statements (trace (pay h key projectId amount db)) = [] /\
  ~ In (EnableIngress projectId) (trace (pay h key projectId amount db)) /\
  (authorized db key projectId = true ->
   pay h key projectId amount db =
     send 400 (ErrorBody "Invalid amount. Must be a positive number.") db).
Proof.
  intros Hamt.
  destruct (authorized db key projectId) eqn:Hauth.
  - destruct (authorized_true _ _ _ Hauth) as (user & project & caller & Hu & Hp & Ha).
    assert (Hrun : pay h key projectId amount db =
                   send 400 (ErrorBody "Invalid amount. Must be a positive number.") db).
    { unfold pay. rewrite (guard_passes _ _ _ _ _ _ _ Hu Hp Ha).
      unfold pay_body. destruct amount as [n|]; [|reflexivity].
      unfold valid_amount in Hamt. apply negb_false_iff in Hamt.
      now rewrite Hamt. }
    rewrite Hrun. cbn. repeat split; auto.
  - destruct (guard_refuses key projectId (fun _ project => pay_body h amount project) db Hauth)
      as (_ & Hdb & Htr).
    fold (pay h key projectId amount) in Hdb, Htr.
    split; [exact Hdb|]. split; [|split; [|discriminate]].
    + induction Htr as [|e es He _ IH]; [reflexivity|].
      destruct e; try destruct He. exact IH.
    + intros Hin. rewrite List.Forall_forall in Htr. apply Htr in Hin. exact Hin.
Qed.

Lemma pay_rejects_invalid_amount_witness :
  db_after (pay (Examples.host None Examples.manifest_v2 Examples.exec_ok)
              "02alice" Examples.uuid1 (JNumber (-5)) (Examples.db1 3)) = Examples.db1 3.
Proof.
  exact (proj1 (pay_rejects_invalid_amount
                  (Examples.host None Examples.manifest_v2 Examples.exec_ok)
                  "02alice" Examples.uuid1 (JNumber (-5)) (Examples.db1 3) eq_refl)).
Defined.

End Guards.

Module ListFacts.

Lemma find_app {A} (f : A -> bool) (l l' : list A) :
  List.find f (l ++ l') =
  match List.find f l with Some x => Some x | None => List.find f l' end.
Proof.
  induction l as [|x l IH]; [reflexivity|]. simpl. now destruct (f x).
Qed.

Lemma filter_keeps {A} (f : A -> bool) (l : list A) :
  (forall x, In x l -> f x = true) -> List.filter f l = l.
Proof.
  induction l as [|x l IH]; intros H; [reflexivity|]. simpl.
  rewrite (H x (or_introl eq_refl)). f_equal. apply IH. intros y Hy. apply H. now right.
Qed.

Lemma filter_drops {A} (f : A -> bool) (l : list A) :
  (forall x, In x l -> f x = false) -> List.filter f l = [].
Proof.
  induction l as [|x l IH]; intros H; [reflexivity|]. simpl.
  rewrite (H x (or_introl eq_refl)). apply IH. intros y Hy. apply H. now right.
Qed.

Lemma find_filter_neg {A} (f g : A -> bool) (l : list A) :
  (forall x, f x = true -> g x = true) ->
  List.find f (List.filter g l) = List.find f l.
Proof.
  intros H. induction l as [|x l IH]; [reflexivity|]. simpl.
  destruct (g x) eqn:Hg; simpl.
  - now rewrite IH.
  - destruct (f x) eqn:Hf; [|exact IH]. apply H in Hf. rewrite Hf in Hg. discriminate.
Qed.

End ListFacts.

Module AdminFacts.

Import Store Handler Projects HandlerFacts Access AccessFacts ListFacts.

Section Granted.

Variables (key projectId target : string) (db : Db).
Variables (user : User) (project : Project) (caller : AdminRow) (targetUser : User).
Hypothesis Huser : user_by_identity db key = Some user.
Hypothesis Hproject : project_by_uuid db projectId = Some project.
Hypothesis Hadmin : admin_row db (id project) key = Some caller.
Hypothesis Htarget : resolveUser db target = Some targetUser.

Lemma addAdmin_existing a :
  admin_row db (id project) (identity_key targetUser) = Some a ->
  addAdmin key projectId target db = send 200 (MessageBody "User is already an admin") db.
Proof.
  intros Hex. unfold addAdmin.
  rewrite (guard_passes _ _ _ _ _ _ _ Huser Hproject Hadmin).
  unfold addAdmin_body. run. rewrite Htarget. run. now rewrite Hex.
Qed.

Lemma addAdmin_new :
  admin_row db (id project) (identity_key targetUser) = None ->
  outcome (addAdmin key projectId target db) =
    Sent {| status := 200; json := MessageBody "Admin added" |} /\
  db_after (addAdmin key projectId target db) =
    run_stmt (project_log project ("Admin added: " +:+ identity_key targetUser))
      (run_stmt (InsertAdmin (admin_added project targetUser)) db).
Proof.
  intros Hex. unfold addAdmin.
  rewrite (guard_passes _ _ _ _ _ _ _ Huser Hproject Hadmin).
  unfold addAdmin_body. run. rewrite Htarget. run. rewrite Hex. run.
  split; reflexivity.
Qed.

(** The user [resolveUser] found is a row of [users]. *)
Lemma resolved_registered :
  exists u, user_by_identity db (identity_key targetUser) = Some u.
Proof.
  assert (Hin : In targetUser (users db)).
  { revert Htarget. unfold resolveUser.
    destruct (user_by_identity db target) as [u|] eqn:Hu.
    - intros [= <-]. now apply find_some in Hu.
    - destruct (Js.includes_char "@" target); [|discriminate].
      intros He. now apply find_some in He. }
  unfold user_by_identity.
  destruct (List.find (fun u => (identity_key u =? identity_key targetUser)%string) (users db))
    as [u|] eqn:Hf; [eauto|].
  apply (find_none _ _ Hf) in Hin. now rewrite String.eqb_refl in Hin.
Qed.

End Granted.

End AdminFacts.

Module AdminRoutes.

Import Store Handler Projects HandlerFacts Access AccessFacts ListFacts AdminFacts.

(** X3: After an admin adds a resolvable user, that user passes the admin
    check of the project, and adding them again answers that the user is
    already an admin and changes nothing.  One admin row is appended when the
    user was not an admin, and the store is untouched when they already were. *)
Theorem addAdmin_grants_once (key projectId target : string) (db : Db)
    (user : User) (project : Project) (caller : AdminRow) (targetUser : User) :
  user_by_identity db key = Some user ->
  project_by_uuid db projectId = Some project ->
  admin_row db (id project) key = Some caller ->
  resolveUser db target = Some targetUser ->
  let db1 := db_after (addAdmin key projectId target db) in
  authorized db1 (identity_key targetUser) projectId = true /\
  addAdmin key projectId target db1 =
    send 200 (MessageBody "User is already an admin") db1 /\
  (admin_row db (id project) (identity_key targetUser) = None ->
   project_admins db1 = project_admins db ++ [admin_added project targetUser]) /\
  (admin_row db (id project) (identity_key targetUser) <> None -> db1 = db).
Proof.
  intros Hu Hp Ha Ht db1.
  assert (Hbase : users db1 = users db /\ projects db1 = projects db /\
                  exists news, project_admins db1 = project_admins db ++ news /\
                    (admin_row db (id project) (identity_key targetUser) = None ->
                     news = [admin_added project targetUser]) /\
                    (admin_row db (id project) (identity_key targetUser) <> None ->
                     db1 = db)).
  { subst db1.
    destruct (admin_row db (id project) (identity_key targetUser)) as [a|] eqn:Hex.
    - rewrite (addAdmin_existing key projectId target db user project caller targetUser
                 Hu Hp Ha Ht a Hex).
      cbn. repeat split. exists []. rewrite app_nil_r. repeat split. intros; discriminate.
    - destruct (addAdmin_new key projectId target db user project caller targetUser
                  Hu Hp Ha Ht Hex) as [_ ->].
      cbn. repeat split. exists [admin_added project targetUser].
      repeat split. intros H; now destruct H. }
  destruct Hbase as (Husers & Hprojects & news & Hadmins & Hnew & Hold).
  assert (Hu1 : user_by_identity db1 key = Some user)
    by (unfold user_by_identity; now rewrite Husers).
  assert (Hp1 : project_by_uuid db1 projectId = Some project)
    by (unfold project_by_uuid; now rewrite Hprojects).
  assert (Ha1 : admin_row db1 (id project) key = Some caller).
  { unfold admin_row. rewrite Hadmins, find_app. unfold admin_row in Ha. now rewrite Ha. }
  assert (Ht1 : resolveUser db1 target = Some targetUser).
  { unfold resolveUser, user_by_identity, user_by_email in *. now rewrite Husers. }
  assert (Hrow : exists a, admin_row db1 (id project) (identity_key targetUser) = Some a).
  { destruct (admin_row db (id project) (identity_key targetUser)) as [a|] eqn:Hex.
    - exists a. rewrite Hold; [exact Hex|discriminate].
    - exists (admin_added project targetUser).
      unfold admin_row. rewrite Hadmins, find_app. unfold admin_row in Hex. rewrite Hex.
      rewrite (Hnew eq_refl). simpl. now rewrite Z.eqb_refl, String.eqb_refl. }
  destruct Hrow as [a Hrow].
  split; [|split; [|split]].
  - unfold authorized.
    destruct (resolved_registered target db targetUser Ht) as [u Hreg].
    assert (Hreg1 : user_by_identity db1 (identity_key targetUser) = Some u)
      by (unfold user_by_identity in *; now rewrite Husers).
    now rewrite Hreg1, Hp1, Hrow.
  - exact (addAdmin_existing key projectId target db1 user project caller targetUser
             Hu1 Hp1 Ha1 Ht1 a Hrow).
  - intros Hex. rewrite Hadmins. now rewrite (Hnew Hex).
  - exact Hold.
Qed.

Lemma addAdmin_grants_once_witness :
  authorized
    (db_after (addAdmin "02alice" Examples.uuid1 "bob@example.com" (Examples2.db2 0)))
    "03bob" Examples.uuid1 = true.
Proof.
  exact (proj1 (addAdmin_grants_once "02alice" Examples.uuid1 "bob@example.com"
                  (Examples2.db2 0) Examples.alice (Examples.project1 0)
                  Examples2.alice_row Examples2.bob eq_refl eq_refl eq_refl eq_refl)).
Defined.

End AdminRoutes.

Module AdminRoundTrip.

Import Store Handler Projects HandlerFacts Access AccessFacts ListFacts AdminFacts.

Section Removed.

Variables (key projectId target : string) (db : Db).
Variables (user : User) (project : Project) (caller : AdminRow) (targetUser : User).
Hypothesis Huser : user_by_identity db key = Some user.
Hypothesis Hproject : project_by_uuid db projectId = Some project.
Hypothesis Hadmin : admin_row db (id project) key = Some caller.
Hypothesis Htarget : resolveUser db target = Some targetUser.

(** [removeAdmin] on a target that is one of several admins. *)
Lemma removeAdmin_run a :
  (2 <= length (admins_of db (id project)))%nat ->
  List.find (is_target targetUser) (admins_of db (id project)) = Some a ->
  outcome (removeAdmin key projectId target db) =
    Sent {| status := 200; json := MessageBody "Admin removed" |} /\
  db_after (removeAdmin key projectId target db) =
    run_stmt (project_log project ("Admin removed: " +:+ identity_key targetUser))
      (run_stmt (DeleteAdmin (id project) (identity_key targetUser)) db).
Proof.
  intros Hlen Hfind. unfold removeAdmin.
  rewrite (guard_passes _ _ _ _ _ _ _ Huser Hproject Hadmin).
  unfold removeAdmin_body. run. rewrite Htarget. run.
  assert (Hne : Nat.eqb (length (admins_of db (id project))) 1 = false)
    by (apply Nat.eqb_neq; lia).
  rewrite Hne. simpl. rewrite Hfind. run. split; reflexivity.
Qed.

End Removed.

Lemma admin_row_In db pid key r :
  admin_row db pid key = Some r ->
  In r (admins_of db pid) /\ admin_identity_key r = key.
Proof.
  unfold admin_row. intros H. apply find_some in H as [Hin Hb].
  apply andb_true_iff in Hb as [Hp Hk].
  apply String.eqb_eq in Hk. split; [|exact Hk].
  unfold admins_of. apply List.filter_In. split; assumption.
Qed.

Lemma admin_row_none db pid key r :
  admin_row db pid key = None -> In r (project_admins db) ->
  (admin_project_id r =? pid) && (admin_identity_key r =? key)%string = false.
Proof. unfold admin_row. intros H Hin. exact (find_none _ _ H r Hin). Qed.

End AdminRoundTrip.

Module AdminRevocation.

Import Store Handler Projects HandlerFacts Access AccessFacts ListFacts AdminFacts
  AdminRoundTrip.

(** X4: Adding a user who was not an admin and then removing them succeeds
    and restores the admin table as it was; projects and the ledger are
    unchanged and the user no longer passes the admin check. *)
Theorem addAdmin_then_removeAdmin (key projectId target : string) (db : Db)
    (user : User) (project : Project) (caller : AdminRow) (targetUser : User) :
  user_by_identity db key = Some user ->
  project_by_uuid db projectId = Some project ->
  admin_row db (id project) key = Some caller ->
  resolveUser db target = Some targetUser ->
  admin_row db (id project) (identity_key targetUser) = None ->
  let db1 := db_after (addAdmin key projectId target db) in
  let db2 := db_after (removeAdmin key projectId target db1) in
  outcome (removeAdmin key projectId target db1) =
    Sent {| status := 200; json := MessageBody "Admin removed" |} /\
  project_admins db2 = project_admins db /\
  projects db2 = projects db /\
  project_accounting db2 = project_accounting db /\
  authorized db2 (identity_key targetUser) projectId = false.
Proof.
  intros Hu Hp Ha Ht Hnone db1 db2.
  destruct (addAdmin_new key projectId target db user project caller targetUser
              Hu Hp Ha Ht Hnone) as [_ Hdb1].
  fold db1 in Hdb1.
  assert (Husers : users db1 = users db) by now rewrite Hdb1.
  assert (Hprojects : projects db1 = projects db) by now rewrite Hdb1.
  assert (Hacc : project_accounting db1 = project_accounting db) by now rewrite Hdb1.
  assert (Hadmins : project_admins db1 = project_admins db ++ [admin_added project targetUser])
    by now rewrite Hdb1.
  assert (Hu1 : user_by_identity db1 key = Some user)
    by (unfold user_by_identity; now rewrite Husers).
  assert (Hp1 : project_by_uuid db1 projectId = Some project)
    by (unfold project_by_uuid; now rewrite Hprojects).
  assert (Ha1 : admin_row db1 (id project) key = Some caller).
  { unfold admin_row. rewrite Hadmins, find_app. unfold admin_row in Ha. now rewrite Ha. }
  assert (Ht1 : resolveUser db1 target = Some targetUser).
  { unfold resolveUser, user_by_identity, user_by_email in *. now rewrite Husers. }
  assert (Hof : admins_of db1 (id project) =
                admins_of db (id project) ++ [admin_added project targetUser]).
  { unfold admins_of. rewrite Hadmins, List.filter_app. simpl. now rewrite Z.eqb_refl. }
  destruct (admin_row_In _ _ _ _ Ha) as [Hcaller _].
  assert (Hlen : (2 <= length (admins_of db1 (id project)))%nat).
  { rewrite Hof, length_app. simpl.
    destruct (admins_of db (id project)); [destruct Hcaller|simpl; lia]. }
  assert (Hfind : List.find (is_target targetUser) (admins_of db1 (id project)) =
                  Some (admin_added project targetUser)).
  { rewrite Hof, find_app.
    destruct (List.find (is_target targetUser) (admins_of db (id project))) as [r|] eqn:Hf.
    - apply find_some in Hf as [Hin Hr]. unfold admins_of in Hin.
      apply List.filter_In in Hin as [Hin Hpid].
      pose proof (admin_row_none _ _ _ r Hnone Hin) as Hno.
      unfold is_target in Hr. rewrite Hpid, Hr in Hno. discriminate.
    - simpl. unfold is_target. simpl. now rewrite String.eqb_refl. }
  destruct (removeAdmin_run key projectId target db1 user project caller targetUser
              Hu1 Hp1 Ha1 Ht1 _ Hlen Hfind) as [Hout Hdb2].
  fold db2 in Hdb2.
  assert (Hadmins2 : project_admins db2 = project_admins db).
  { rewrite Hdb2. simpl. rewrite Hadmins, List.filter_app. simpl.
    rewrite Z.eqb_refl, String.eqb_refl. simpl. rewrite app_nil_r.
    apply filter_keeps. intros r Hin.
    now rewrite (admin_row_none _ _ _ r Hnone Hin). }
  split; [exact Hout|]. split; [exact Hadmins2|].
  split; [now rewrite Hdb2|]. split; [now rewrite Hdb2|].
  unfold authorized.
  destruct (user_by_identity db2 (identity_key targetUser)); [|reflexivity].
  assert (Hp2 : project_by_uuid db2 projectId = Some project).
  { unfold project_by_uuid. rewrite Hdb2. exact Hp1. }
  rewrite Hp2. unfold admin_row. rewrite Hadmins2.
  unfold admin_row in Hnone. now rewrite Hnone.
Qed.

Lemma addAdmin_then_removeAdmin_witness :
  project_admins
    (db_after (removeAdmin "02alice" Examples.uuid1 "bob@example.com"
                 (db_after (addAdmin "02alice" Examples.uuid1 "bob@example.com"
                              (Examples2.db2 0))))) =
  [Examples2.alice_row].
Proof.
  exact (proj1 (proj2 (addAdmin_then_removeAdmin "02alice" Examples.uuid1 "bob@example.com"
                  (Examples2.db2 0) Examples.alice (Examples.project1 0)
                  Examples2.alice_row Examples2.bob
                  eq_refl eq_refl eq_refl eq_refl eq_refl))).
Defined.

End AdminRevocation.

Module LifecycleFacts.

Import Store Handler Projects HandlerFacts Access AccessFacts ListFacts Lifecycle.

Lemma filter_filter_neg {A} (f : A -> bool) (l : list A) :
  List.filter f (List.filter (fun x => negb (f x)) l) = [].
Proof.
  apply filter_drops. intros x Hin. apply List.filter_In in Hin as [_ H].
  now apply negb_true_iff in H.
Qed.

Lemma filter_other {A} (f g : A -> bool) (l : list A) :
  (forall x, f x = true -> g x = false) ->
  List.filter f (List.filter (fun x => negb (g x)) l) = List.filter f l.
Proof.
  intros H. induction l as [|x l IH]; [reflexivity|]. simpl.
  destruct (g x) eqn:Hg; simpl.
  - destruct (f x) eqn:Hf; [|exact IH]. apply H in Hf. rewrite Hf in Hg. discriminate.
  - now rewrite IH.
Qed.

Lemma delete_run key projectId db user project caller :
  user_by_identity db key = Some user ->
  project_by_uuid db projectId = Some project ->
  admin_row db (id project) key = Some caller ->
  outcome (delete key projectId db) =
    Sent {| status := 200; json := MessageBody "Project deleted" |} /\
  db_after (delete key projectId db) =
    run_stmt (DeleteProject (id project))
      (run_stmt (DeleteLogsOf (id project))
         (run_stmt (DeleteAdminsOf (id project))
            (run_stmt (DeleteDeploysOf (id project))
               (run_stmt (DeleteAccountingOf (id project)) db)))).
Proof.
  intros Hu Hp Ha. unfold delete. rewrite (guard_passes _ _ _ _ _ _ _ Hu Hp Ha).
  unfold delete_body. run. split; reflexivity.
Qed.

End LifecycleFacts.

Module Deletion.

Import Store Handler Projects HandlerFacts Access AccessFacts ListFacts Lifecycle
  LifecycleFacts.

(** X5: After an admin deletes a project, no project, admin, ledger,
    deployment or log row carries its id, the rows of every other project id
    are as before, and the users are untouched. *)
Theorem delete_leaves_no_row (key projectId : string) (db : Db)
    (user : User) (project : Project) (caller : AdminRow) :
  user_by_identity db key = Some user ->
  project_by_uuid db projectId = Some project ->
  admin_row db (id project) key = Some caller ->
  let db' := db_after (delete key projectId db) in
  (projects_with_id db' (id project) = [] /\ admins_of db' (id project) = [] /\
   accounting_of db' (id project) = [] /\ deploys_of db' (id project) = [] /\
   logs_of db' (id project) = []) /\
  (forall pid, pid <> id project ->
     projects_with_id db' pid = projects_with_id db pid /\
     admins_of db' pid = admins_of db pid /\
     accounting_of db' pid = accounting_of db pid /\
     deploys_of db' pid = deploys_of db pid /\
     logs_of db' pid = logs_of db pid) /\
  users db' = users db.
Proof.
  intros Hu Hp Ha db'.
  destruct (delete_run key projectId db user project caller Hu Hp Ha) as [_ Hdb].
  fold db' in Hdb. rewrite Hdb.
  unfold projects_with_id, admins_of, accounting_of, deploys_of, logs_of. simpl.
  split; [|split; [|reflexivity]].
  - rewrite !filter_filter_neg. auto.
  - intros pid Hne.
    assert (Hz : forall x, (x =? pid) = true -> (x =? id project) = false).
    { intros x Hx. apply Z.eqb_eq in Hx. apply Z.eqb_neq. congruence. }
    repeat split; apply filter_other; intros x Hx; try (now apply Hz).
    unfold eq_opt_Z in *. destruct (log_project_id x); [now apply Hz|discriminate].
Qed.

Lemma delete_leaves_no_row_witness :
  admins_of (db_after (delete "02alice" Examples.uuid1 (Examples.db1 7))) 1 = [] /\
  users (db_after (delete "02alice" Examples.uuid1 (Examples.db1 7))) = [Examples.alice].
Proof.
  destruct (delete_leaves_no_row "02alice" Examples.uuid1 (Examples.db1 7)
              Examples.alice (Examples.project1 7) Examples2.alice_row
              eq_refl eq_refl eq_refl) as ((_ & Hadmins & _) & _ & Husers).
  split; [exact Hadmins|exact Husers].
Defined.

(** X6: Once a project is deleted, an upload for one of its deployment ids is
    answered 400 Invalid deploymentId (provided no other project's deployment
    shares that id). *)
Theorem deleted_project_accepts_no_upload (h : Host) (req : Upload.Request)
    (key projectId : string) (db : Db)
    (user : User) (project : Project) (caller : AdminRow) :
  user_by_identity db key = Some user ->
  project_by_uuid db projectId = Some project ->
  admin_row db (id project) key = Some caller ->
  (forall d, In d (deploys db) ->
             deployment_uuid d = Upload.deploymentId req -> deploy_project_id d = id project) ->
  let db' := db_after (delete key projectId db) in
  Upload.upload h req db' = send 400 (ErrorBody "Invalid deploymentId") db'.
Proof.
  intros Hu Hp Ha Hown db'.
  destruct (delete_run key projectId db user project caller Hu Hp Ha) as [_ Hdb].
  fold db' in Hdb.
  assert (Hnone : deploy_by_uuid db' (Upload.deploymentId req) = None).
  { unfold deploy_by_uuid. rewrite Hdb. simpl.
    destruct (List.find _ _) as [d|] eqn:Hf; [|reflexivity].
    apply find_some in Hf as [Hin Huuid]. apply List.filter_In in Hin as [Hin Hpid].
    apply String.eqb_eq in Huuid. rewrite (Hown d Hin Huuid), Z.eqb_refl in Hpid.
    discriminate. }
  unfold Upload.upload. run. now rewrite Hnone.
Qed.

Lemma deleted_project_accepts_no_upload_witness :
  outcome
    (Upload.upload (Examples.host None Examples.manifest_v2 Examples.exec_ok)
       (Examples.request None)
       (db_after (delete "02alice" Examples.uuid1 (Examples.db1 7)))) =
  Sent {| status := 400; json := ErrorBody "Invalid deploymentId" |}.
Proof.
  rewrite (deleted_project_accepts_no_upload
             (Examples.host None Examples.manifest_v2 Examples.exec_ok)
             (Examples.request None) "02alice" Examples.uuid1 (Examples.db1 7)
             Examples.alice (Examples.project1 7) Examples2.alice_row
             eq_refl eq_refl eq_refl).
  - reflexivity.
  - intros d [<-|[]] _. reflexivity.
Defined.

End Deletion.

Module Creation.

Import Store Handler Projects HandlerFacts Access AccessFacts ListFacts Lifecycle
  LifecycleFacts.

(** X7: POST /create by a registered user with no key or a well-formed one,
    for a project id and row id not in use, answers 200 with the new project id, appends one project with balance 0,
    the network defaulting to mainnet and the given or the generated key,
    makes the caller its only admin, and writes nothing to the ledger. *)
Theorem create_makes_the_caller_admin (key : string)
    (name network privateKey : option string) (funding : option bool)
    (rid rkey : string) (db : Db) (user : User) :
  user_by_identity db key = Some user ->
  key_accepted privateKey = true ->
  project_by_uuid db rid = None ->
  admins_of db (next_project_id db) = [] ->
  let r := create key name network privateKey funding rid rkey db in
  outcome r = Sent {| status := 200; json := ProjectCreatedBody rid "Project created" |} /\
  exists p,
    project_by_uuid (db_after r) rid = Some p /\
    projects (db_after r) = projects db ++ [p] /\
    id p = next_project_id db /\ balance p = 0 /\
    Store.network p = (if bool_decide (network = Some "testnet"%string)
                       then "testnet" else "mainnet")%string /\
    private_key p = Js.str_or privateKey rkey /\
    admins_of (db_after r) (id p) =
      [{| admin_project_id := id p; admin_identity_key := key |}] /\
    authorized (db_after r) key rid = true /\
    project_accounting (db_after r) = project_accounting db.
Proof.
  intros Hu Hkey Hfresh Hnoadm r. subst r.
  unfold create, requireRegisteredUser. run. rewrite Hu. run.
  assert (Hc : Js.truthy privateKey &&
               negb (valid_private_key (Js.or_else privateKey EmptyString)) = false).
  { unfold key_accepted in Hkey. destruct (Js.truthy privateKey); [|reflexivity].
    simpl in *. now rewrite Hkey. }
  rewrite Hc. run. cbn [outcome db_after prepend send].
  split; [reflexivity|].
  eexists. split; [|split; [reflexivity|]].
  - unfold project_by_uuid. simpl. rewrite find_app.
    unfold project_by_uuid in Hfresh. rewrite Hfresh. simpl.
    now rewrite String.eqb_refl.
  - simpl. repeat split.
    + unfold admins_of in *. simpl. rewrite List.filter_app, Hnoadm. simpl.
      now rewrite Z.eqb_refl.
    + unfold authorized, user_by_identity, project_by_uuid, admin_row. simpl.
      unfold user_by_identity in Hu. rewrite Hu.
      rewrite find_app. unfold project_by_uuid in Hfresh. rewrite Hfresh. simpl.
      rewrite String.eqb_refl. simpl. rewrite find_app.
      destruct (List.find _ (project_admins db)); [reflexivity|].
      simpl. now rewrite Z.eqb_refl, String.eqb_refl.
Qed.

Lemma create_makes_the_caller_admin_witness :
  authorized
    (db_after (create "02alice" (Some "demo"%string) None None None Examples.uuid1 "k"
                 Examples.db0))
    "02alice" Examples.uuid1 = true.
Proof.
  destruct (create_makes_the_caller_admin "02alice" (Some "demo"%string) None None None
              Examples.uuid1 "k" Examples.db0 Examples.alice
              eq_refl eq_refl eq_refl eq_refl)
    as (_ & p & _ & _ & _ & _ & _ & _ & _ & Hauth & _).
  exact Hauth.
Defined.

(** X8: POST /create with a private key that is not 64 lower-case hex digits
    answers 400 and issues no SQL statement, but the namespace of the would-be
    project has already been created. *)
Theorem create_rejects_malformed_key (key : string)
    (name network privateKey : option string) (funding : option bool)
    (rid rkey : string) (db : Db) (user : User) :
  user_by_identity db key = Some user ->
  key_accepted privateKey = false ->
  let r := create key name network privateKey funding rid rkey db in
  outcome r = Sent {| status := 400; json := ErrorBody "Invalid private key" |} /\
  db_after r = db /\
  statements (trace r) = [] /\
  In (Exec ("kubectl create namespace mandala-project-" +:+ rid +:+ " || true") None) (trace r).
Proof.
  intros Hu Hkey r. subst r.
  unfold create, requireRegisteredUser. run. rewrite Hu. run.
  assert (Hc : Js.truthy privateKey &&
               negb (valid_private_key (Js.or_else privateKey EmptyString)) = true).
  { unfold key_accepted in Hkey. apply orb_false_iff in Hkey as [Ht Hv].
    apply negb_false_iff in Ht. now rewrite Ht, Hv. }
  rewrite Hc. cbn. repeat split. now left.
Qed.

Lemma create_rejects_malformed_key_witness :
  db_after (create "02alice" None None (Some "ABCDEF"%string) None Examples.uuid1 "k"
              Examples.db0) = Examples.db0.
Proof.
  exact (proj1 (proj2 (create_rejects_malformed_key "02alice" None None
                         (Some "ABCDEF"%string) None Examples.uuid1 "k" Examples.db0
                         Examples.alice eq_refl eq_refl))).
Defined.

End Creation.

Module VerdictFacts.

Import Manifest Store Chart Handler Upload HandlerFacts Verdict.

Section Replies.

Variable Q : Response -> Prop.

Lemma replies_ret {A} (a : A) : replies Q (ret a).
Proof. intros db r H. discriminate H. Qed.

Lemma replies_throw {A} e : replies Q (@throw A e).
Proof. intros db r H. discriminate H. Qed.

Lemma replies_query {A} (q : Db -> A) : replies Q (query q).
Proof. intros db r H. discriminate H. Qed.

Lemma replies_emit e : replies Q (emit e).
Proof. intros db r H. discriminate H. Qed.

Lemma replies_sql s : replies Q (sql s).
Proof. intros db r H. discriminate H. Qed.

Lemma replies_send {A} st b : Q {| status := st; json := b |} -> replies Q (@send A st b).
Proof. intros HQ db r [= <-]. exact HQ. Qed.

Lemma replies_bind {A B} (m : M A) (k : A -> M B) :
  replies Q m -> (forall a, replies Q (k a)) -> replies Q (bind m k).
Proof.
  intros Hm Hk db r. unfold bind.
  destruct (outcome (m db)) as [a|r'|e] eqn:Ho; simpl.
  - apply Hk.
  - intros [= <-]. exact (Hm db _ Ho).
  - discriminate.
Qed.

Lemma replies_when (c : bool) (m : M unit) : replies Q m -> replies Q (when c m).
Proof. unfold when. destruct c; [auto|intros _; apply replies_ret]. Qed.

Lemma replies_for_each {A} (l : list A) (f : A -> M unit) :
  (forall x, replies Q (f x)) -> replies Q (for_each l f).
Proof.
  intros Hf. induction l as [|x l IH]; simpl; [apply replies_ret|].
  apply replies_bind; auto.
Qed.

End Replies.

Lemma never_returns_send {A} st b : never_returns (@send A st b).
Proof. intros db a H. discriminate H. Qed.

Lemma never_returns_throw {A} e : never_returns (@throw A e).
Proof. intros db a H. discriminate H. Qed.

Lemma never_returns_bind {A B} (m : M A) (k : A -> M B) :
  (forall a, never_returns (k a)) -> never_returns (bind m k).
Proof.
  intros Hk db b. unfold bind.
  destruct (outcome (m db)) as [a|r|e]; simpl; [apply Hk|discriminate|discriminate].
Qed.

Lemma outcome_try_catch {A} (m : M A) (hd : string -> M A) db :
  outcome (try_catch m hd db) =
    match outcome (m db) with
    | Thrown e => outcome (hd e (db_after (m db)))
    | o => o
    end.
Proof.
  unfold try_catch. cbv zeta.
  destruct (outcome (m db)) as [a|r|e] eqn:Ho; [exact Ho|exact Ho|reflexivity].
Qed.

Section Succeeds.

Variable P : list Effect -> Prop.
Hypothesis P_later : forall es es', P es' -> P (es ++ es').

Lemma succeeds_never {A} (m : M A) : replies client_error m -> succeeds_with P m.
Proof.
  intros Hm db r Ho H200. apply Hm in Ho. unfold client_error in Ho.
  rewrite Ho in H200. discriminate H200.
Qed.

Lemma succeeds_bind {A B} (m : M A) (k : A -> M B) :
  succeeds_with P m -> (forall a, succeeds_with P (k a)) -> succeeds_with P (bind m k).
Proof.
  intros Hm Hk db r. unfold bind.
  destruct (outcome (m db)) as [a|r'|e] eqn:Ho; simpl.
  - intros Hr H200. apply P_later. exact (Hk a _ _ Hr H200).
  - intros [= <-] H200. exact (Hm db _ Ho H200).
  - discriminate.
Qed.

End Succeeds.

End VerdictFacts.

Ltac replies_step :=
  lazymatch goal with
  | |- Verdict.replies _ (Handler.ret _) => apply VerdictFacts.replies_ret
  | |- Verdict.replies _ (Handler.send _ _) =>
      apply VerdictFacts.replies_send; first [reflexivity | simpl; tauto]
  | |- Verdict.replies _ (Handler.throw _) => apply VerdictFacts.replies_throw
  | |- Verdict.replies _ (Handler.query _) => apply VerdictFacts.replies_query
  | |- Verdict.replies _ (Handler.sql _) => apply VerdictFacts.replies_sql
  | |- Verdict.replies _ (Handler.emit _) => apply VerdictFacts.replies_emit
  | |- Verdict.replies _ (Handler.when _ _) => apply VerdictFacts.replies_when
  | |- Verdict.replies _ (Handler.for_each _ _) =>
      apply VerdictFacts.replies_for_each; intros ?
  | |- Verdict.replies _ (Handler.bind _ _) => apply VerdictFacts.replies_bind; [|intros ?]
  | |- Verdict.replies _ (if ?c then _ else _) => destruct c
  | |- Verdict.replies _ (match ?x with _ => _ end) => destruct x
  end.

Ltac never_step :=
  lazymatch goal with
  | |- Verdict.never_returns (Handler.send _ _) => apply VerdictFacts.never_returns_send
  | |- Verdict.never_returns (Handler.throw _) => apply VerdictFacts.never_returns_throw
  | |- Verdict.never_returns (Handler.bind _ _) =>
      apply VerdictFacts.never_returns_bind; intros ?
  | |- Verdict.never_returns (if ?c then _ else _) => destruct c
  | |- Verdict.never_returns (match ?x with _ => _ end) => destruct x
  end.

Module UploadVerdict.

Import Manifest Store Chart Handler Upload HandlerFacts Respects UploadFacts Failures
  FailureResponse Verdict VerdictFacts.

Section Answers.

Variables (h : Host) (req : Request).

Lemma logStep_replies Q deploy msg lvl : replies Q (logStep req deploy msg lvl).
Proof. unfold logStep. repeat replies_step. Qed.

Lemma runCmd_replies Q cmd cwd : replies Q (runCmd h cmd cwd).
Proof. unfold runCmd. repeat replies_step. Qed.

Ltac answers :=
  repeat lazymatch goal with
         | |- replies _ (logStep _ _ _ _) => apply logStep_replies
         | |- replies _ (runCmd _ _ _) => apply runCmd_replies
         | |- _ => replies_step
         end.

Lemma stage_replies deploy : replies client_error (stage h req deploy).
Proof. unfold stage. answers. Qed.

Lemma compile_replies deploy project raw :
  replies client_error (compile h req deploy project raw).
Proof. unfold compile, select_manifest, check_target. answers. Qed.

Lemma build_agent_replies deploy project dir m a :
  replies client_error (build_agent h req deploy project dir m a).
Proof. unfold build_agent. answers. Qed.

Lemma build_frontend_replies deploy project dir m :
  replies client_error (build_frontend h req deploy project dir m).
Proof. unfold build_frontend. answers. Qed.

Lemma fund_project_key_replies Q project : replies Q (fund_project_key h project).
Proof. unfold fund_project_key. answers. Qed.

Lemma write_chart_replies Q deploy dir v ts : replies Q (write_chart h req deploy dir v ts).
Proof. unfold write_chart. answers. Qed.

Lemma release_replies deploy project dir m v :
  replies (fun r => status r = 200) (release h req deploy project dir m v).
Proof. unfold release. answers. Qed.

Lemma release_never_returns deploy project dir m v :
  never_returns (release h req deploy project dir m v).
Proof. unfold release. repeat never_step. Qed.

Lemma pipeline_never_returns deploy project : never_returns (pipeline h req deploy project).
Proof.
  unfold pipeline, deploy_manifest.
  repeat lazymatch goal with
         | |- never_returns (release _ _ _ _ _ _ _) => apply release_never_returns
         | |- _ => never_step
         end.
Qed.

Lemma weaken_replies (Q Q' : Response -> Prop) {A} (m : M A) :
  (forall r, Q r -> Q' r) -> replies Q m -> replies Q' m.
Proof. intros HQ Hm db r Ho. apply HQ. exact (Hm db r Ho). Qed.

Lemma pipeline_replies deploy project :
  replies (fun r => status r = 200 \/ status r = 400) (pipeline h req deploy project).
Proof.
  assert (W : forall A (m : M A), replies client_error m ->
                replies (fun r => status r = 200 \/ status r = 400) m).
  { intros A m. apply weaken_replies. intros r Hr. now right. }
  unfold pipeline, deploy_manifest.
  repeat lazymatch goal with
         | |- replies _ (stage _ _ _) => apply W, stage_replies
         | |- replies _ (compile _ _ _ _ _) => apply W, compile_replies
         | |- replies _ (build_agent _ _ _ _ _ _ _) => apply W, build_agent_replies
         | |- replies _ (build_frontend _ _ _ _ _ _) => apply W, build_frontend_replies
         | |- replies _ (fund_project_key _ _) => apply fund_project_key_replies
         | |- replies _ (write_chart _ _ _ _ _ _) => apply write_chart_replies
         | |- replies _ (release _ _ _ _ _ _ _) =>
             eapply weaken_replies; [|apply release_replies]; intros r Hr; now left
         | |- _ => replies_step
         end.
Qed.

End Answers.

(** X9: When the calls the upload handler makes to the host return (a
    command, which is run without timeout, by ending with success or with
    failure; the wallet by answering or throwing), the handler sends a
    response and its status is 200, 400, 401 or 500: no branch falls through
    without responding and no exception escapes the [catch] block.  A call
    that never returns is outside [Host] and leaves the request unanswered. *)
Theorem upload_always_answers (h : Host) (req : Request) (db : Db) :
  exists r, outcome (upload h req db) = Sent r /\ In (status r) [200; 400; 401; 500].
Proof.
  unfold upload. run.
  destruct (deploy_by_uuid db (deploymentId req)) as [deploy|];
    [|eexists; split; [reflexivity|simpl; tauto]].
  run.
  destruct (project_by_id db (deploy_project_id deploy)) as [project|];
    [|eexists; split; [reflexivity|simpl; tauto]].
  destruct (verifySignature h (deploymentId req) (signature req)) as [valid|message].
  2:{ rewrite try_catch_throw.
      destruct (on_error_run req deploy project message db) as (row & body & _ & ->).
      eexists. split; [reflexivity|]. simpl. tauto. }
  rewrite outcome_try_catch.
  destruct (negb valid); [eexists; split; [reflexivity|simpl; tauto]|].
  destruct (Js.ltb (balance project) 1); [eexists; split; [reflexivity|simpl; tauto]|].
  destruct (outcome (pipeline h req deploy project db)) as [a|r|e] eqn:Ho.
  - exfalso. exact (pipeline_never_returns h req deploy project db a Ho).
  - exists r. split; [reflexivity|].
    destruct (pipeline_replies h req deploy project db r Ho) as [-> | ->]; simpl; tauto.
  - destruct (on_error_run req deploy project e (db_after (pipeline h req deploy project db)))
      as (row & body & _ & ->).
    eexists. split; [reflexivity|]. simpl. tauto.
Qed.

End UploadVerdict.

Module Rollout.

Import Manifest Store Chart Handler Upload HandlerFacts Respects UploadFacts Failures
  FailureResponse Topology Verdict VerdictFacts UploadVerdict.

Section Released.

Variables (h : Host) (req : Request).

Lemma rolled_out_later project es es' :
  rolled_out h req project es' -> rolled_out h req project (es ++ es').
Proof.
  intros (before & between & after & -> & Hin).
  exists (es ++ before), between, after. split; [|exact Hin]. now rewrite app_assoc.
Qed.

(** A command that returns has left its [Exec] first in the trace. *)
Lemma runCmd_cases cmd cwd db :
  (exists es, runCmd h cmd cwd db =
                {| outcome := Value tt; db_after := db; trace := Exec cmd cwd :: es |}) \/
  (exists e, outcome (runCmd h cmd cwd db) = Thrown e).
Proof.
  unfold runCmd. run. destruct (execSync h cmd cwd) as [out|e o msg].
  - left. unfold when. destruct (Js.truthy (Some out)); eexists; reflexivity.
  - right. run. eexists. reflexivity.
Qed.

Lemma bind_logStep {B} deploy msg lvl (k : unit -> M B) db :
  bind (logStep req deploy msg lvl) k db =
    prepend [Sql (InsertLog {| log_project_id := Some (deploy_project_id deploy);
                               log_deploy_id := Some (deploy_id deploy);
                               message := msg |});
             Logger lvl [("deploymentId", deploymentId req)] msg]
      (k tt (run_stmt (InsertLog {| log_project_id := Some (deploy_project_id deploy);
                                    log_deploy_id := Some (deploy_id deploy);
                                    message := msg |}) db)).
Proof. unfold logStep. run. now rewrite prepend_prepend. Qed.

Lemma rolled_out_shape project es1 mid es2 rest :
  In RefreshAdvertisement rest ->
  rolled_out h req project
    ((Exec (helm_upgrade h req project) None :: es1) ++ mid ++
     (Exec (rollout_status project) None :: es2) ++ rest).
Proof.
  intros Hin. exists [], (es1 ++ mid), (es2 ++ rest). split.
  - simpl. now rewrite <- app_assoc.
  - apply in_or_app. now right.
Qed.

Lemma release_rolled_out deploy project m v :
  succeeds_with (rolled_out h req project)
    (release h req deploy project (helmDir h req) m v).
Proof.
  intros db r. unfold release. cbv zeta.
  change ("helm upgrade --install " +:+ helmReleaseName project +:+ " " +:+ helmDir h req +:+
          " --namespace " +:+ namespace project +:+ " --atomic --create-namespace")
    with (helm_upgrade h req project).
  change ("kubectl rollout status deployment/" +:+ helmReleaseName project +:+
          "-deployment -n " +:+ namespace project)
    with (rollout_status project).
  destruct (runCmd_cases (helm_upgrade h req project) None db) as [[es1 H1]|[e H1]];
    [|rewrite (outcome_bind_thrown _ _ _ _ H1); discriminate].
  rewrite (bind_of_run _ _ _ _ _ _ H1), bind_logStep.
  match goal with
  | |- context [bind (runCmd h (rollout_status project) None) _ ?d] =>
      destruct (runCmd_cases (rollout_status project) None d) as [[es2 H2]|[e H2]];
        [|rewrite !outcome_prepend, (outcome_bind_thrown _ _ _ _ H2); discriminate]
  end.
  rewrite (bind_of_run _ _ _ _ _ _ H2). intros _ _.
  rewrite !trace_prepend. apply rolled_out_shape.
  rewrite bind_logStep, bind_emit, !trace_prepend.
  apply in_or_app. right. apply in_or_app. left. now left.
Qed.

Lemma pipeline_rolled_out deploy project :
  succeeds_with (rolled_out h req project) (pipeline h req deploy project).
Proof.
  pose proof (rolled_out_later project) as Hl.
  unfold pipeline.
  apply succeeds_bind; [exact Hl|apply succeeds_never, stage_replies|intros raw].
  apply succeeds_bind; [exact Hl|apply succeeds_never, compile_replies|intros sel].
  unfold deploy_manifest.
  apply succeeds_bind; [exact Hl|apply succeeds_never; repeat replies_step|intros _].
  destruct (agent (body (fst sel))) as [a|]; [|apply succeeds_never; repeat replies_step].
  apply succeeds_bind; [exact Hl|apply succeeds_never, build_agent_replies|intros ai].
  apply succeeds_bind; [exact Hl|apply succeeds_never, build_frontend_replies|intros fi].
  apply succeeds_bind; [exact Hl|apply succeeds_never, fund_project_key_replies|intros _].
  apply succeeds_bind; [exact Hl|apply succeeds_never, write_chart_replies|intros _].
  apply release_rolled_out.
Qed.

(** The runs of [upload] that reach the pipeline. *)
Lemma upload_cases db :
  (exists r, outcome (upload h req db) = Sent r /\ In (status r) [400; 401; 500]) \/
  (exists deploy project,
     accepted h req db deploy project /\
     upload h req db = try_catch (pipeline h req deploy project)
                         (on_error req deploy project) db).
Proof.
  unfold upload, accepted. run.
  destruct (deploy_by_uuid db (deploymentId req)) as [deploy|] eqn:Hd;
    [|left; eexists {| status := 400; json := _ |}; split; [reflexivity|simpl; tauto]].
  run.
  destruct (project_by_id db (deploy_project_id deploy)) as [project|] eqn:Hp;
    [|left; eexists {| status := 400; json := _ |}; split; [reflexivity|simpl; tauto]].
  destruct (verifySignature h (deploymentId req) (signature req)) as [valid|message].
  2:{ left. rewrite try_catch_throw.
      destruct (on_error_run req deploy project message db) as (row & body & _ & ->).
      eexists. split; [reflexivity|]. simpl. tauto. }
  rewrite !try_catch_if.
  destruct valid;
    [|left; eexists {| status := 401; json := _ |}; split; [reflexivity|simpl; tauto]].
  simpl negb. cbv iota.
  destruct (Js.ltb (balance project) 1) eqn:Hb;
    [left; eexists {| status := 401; json := _ |}; split; [reflexivity|simpl; tauto]|].
  right. exists deploy, project. repeat split; auto.
Qed.

End Released.

(** X10: An upload answered 200 was accepted (known deployment, valid
    signature, positive balance), ran helm upgrade and then kubectl rollout
    status for the project's release and then refreshed the advertisement,
    and every command it ran succeeded. *)
Theorem success_means_rolled_out (h : Host) (req : Request) (db : Db) (r : Response) :
  outcome (upload h req db) = Sent r -> status r = 200 ->
  exists deploy project,
    accepted h req db deploy project /\
    rolled_out h req project (trace (upload h req db)) /\
    (forall cmd cwd, In (Exec cmd cwd) (trace (upload h req db)) ->
                     exists out, execSync h cmd cwd = ExecOk out).
Proof.
  intros Ho H200.
  destruct (upload_cases h req db) as [(r' & Hup & Hst)|(deploy & project & Hacc & Hup)].
  - rewrite Hup in Ho. injection Ho as <-. rewrite H200 in Hst.
    destruct Hst as [Hst|[Hst|[Hst|[]]]]; discriminate Hst.
  - exists deploy, project. split; [exact Hacc|].
    rewrite Hup in Ho |- *. rewrite outcome_try_catch in Ho.
    destruct (outcome (pipeline h req deploy project db)) as [a|r'|e] eqn:Hp.
    + exfalso. exact (pipeline_never_returns h req deploy project db a Hp).
    + injection Ho as ->.
      assert (Htr : trace (try_catch (pipeline h req deploy project)
                             (on_error req deploy project) db) =
                    trace (pipeline h req deploy project db)).
      { unfold try_catch. now rewrite Hp. }
      rewrite Htr. split.
      * exact (pipeline_rolled_out h req deploy project db r Hp H200).
      * intros cmd cwd Hin.
        destruct (execSync h cmd cwd) as [out|e o msg] eqn:Hex; [eauto|].
        destruct (pipeline_loud h req deploy project db cmd cwd e o msg Hin Hex)
          as [Hthrown _].
        rewrite Hthrown in Hp. discriminate Hp.
    + destruct (on_error_run req deploy project e
                  (db_after (pipeline h req deploy project db)))
        as (row & body & _ & Herr).
      rewrite Herr in Ho. injection Ho as <-. discriminate H200.
Qed.

Lemma success_means_rolled_out_witness :
  exists project,
    rolled_out
      (Examples.host None (Examples.manifest_v1 Examples.body_plain [Examples.target "mainnet"])
         Examples.exec_ok)
      (Examples.request None) project
      (trace (upload
                (Examples.host None
                   (Examples.manifest_v1 Examples.body_plain [Examples.target "mainnet"])
                   Examples.exec_ok)
                (Examples.request None) (Examples.db1 10))).
Proof.
  assert (H : { r | outcome (upload
                (Examples.host None
                   (Examples.manifest_v1 Examples.body_plain [Examples.target "mainnet"])
                   Examples.exec_ok)
                (Examples.request None) (Examples.db1 10)) = Sent r /\ status r = 200 }).
  { eexists. split; [vm_compute; reflexivity|reflexivity]. }
  destruct H as (r & Ho & H200).
  destruct (success_means_rolled_out _ _ _ r Ho H200) as (deploy & project & _ & Hroll & _).
  exists project. exact Hroll.
Defined.

End Rollout.

(** ** The chart a successful upload releases *)

Module ReleasedChart.

Import Manifest Store Chart Handler Upload HandlerFacts Respects UploadFacts CompilerFacts
  Failures FailureResponse Topology Verdict VerdictFacts UploadVerdict Rollout.

Section Charts.

Variables (h : Host) (req : Request).

Lemma released_later project v ts es es' :
  Forall no_template es -> released_chart h req project v ts es' ->
  released_chart h req project v ts (es ++ es').
Proof.
  intros Hes (before & after & -> & Hv & Hw & Hin & Ha).
  exists (es ++ before), after. split; [now rewrite app_assoc|].
  split; [apply in_or_app; now right|]. split; [|split].
  - rewrite written_templates_app, (written_templates_none _ Hes). exact Hw.
  - intros t Ht. apply in_or_app. right. auto.
  - exact Ha.
Qed.

Section Then.

Variable P : list Effect -> Prop.
Hypothesis P_later : forall es es', Forall no_template es -> P es' -> P (es ++ es').

(** A step that writes no template and answers no 200 may come first. *)
Lemma succeeds_from {A B} (m : M A) (k : A -> M B) :
  respects no_template m -> replies client_error m ->
  (forall db a, outcome (m db) = Value a ->
     forall r, outcome (k a (db_after (m db))) = Sent r -> status r = 200 ->
               P (trace (k a (db_after (m db))))) ->
  succeeds_with P (bind m k).
Proof.
  intros Hplain Hrep Hk db r Ho H200.
  destruct (bind_cases m k db)
    as [(a & Hval & Heq)|(_ & _ & _ & [(r' & Hm & Hb)|(e & _ & Hb)])].
  - rewrite Heq in Ho |- *. rewrite outcome_prepend in Ho. rewrite trace_prepend.
    apply P_later; [apply Hplain|]. exact (Hk db a Hval r Ho H200).
  - rewrite Hb in Ho. injection Ho as <-. specialize (Hrep db r' Hm).
    unfold client_error in Hrep. rewrite Hrep in H200. discriminate H200.
  - rewrite Hb in Ho. discriminate Ho.
Qed.

Lemma succeeds_then {A B} (m : M A) (k : A -> M B) :
  respects no_template m -> replies client_error m ->
  (forall a, succeeds_with P (k a)) ->
  succeeds_with P (bind m k).
Proof.
  intros Hplain Hrep Hk. apply succeeds_from; auto.
  intros db a _ r. apply Hk.
Qed.

End Then.

Ltac quiet :=
  repeat lazymatch goal with
         | |- respects no_template (logStep _ _ _ _) => apply logStep_plain
         | |- respects no_template (runCmd _ _ _) => apply runCmd_plain
         | |- _ => respects_step
         end.

Lemma stage_plain deploy : respects no_template (stage h req deploy).
Proof. unfold stage. quiet. Qed.

Lemma compile_plain deploy project raw :
  respects no_template (compile h req deploy project raw).
Proof. unfold compile, select_manifest, check_target. quiet. Qed.

(** Every template file handed to [write_chart] is written under its name. *)
Lemma write_chart_writes deploy v ts db t :
  In t ts ->
  In (WriteFile (template_path h req (file_name t)) (TemplateFile t))
     (trace (write_chart h req deploy (helmDir h req) v ts db)).
Proof.
  intros Ht. unfold write_chart, logStep. run.
  rewrite (bind_of_run _ _ _ _ _ _
             (for_each_templates h (path_join h (helmDir h req) "templates") ts db)).
  run. rewrite !trace_prepend.
  do 5 (apply in_or_app; right). apply in_or_app. left.
  apply in_map_iff. exists t. split; [reflexivity|exact Ht].
Qed.

Lemma write_chart_values deploy v ts db :
  In (WriteFile (path_join h (helmDir h req) "values.yaml") (ValuesYaml v))
     (trace (write_chart h req deploy (helmDir h req) v ts db)).
Proof.
  unfold write_chart, logStep. run.
  rewrite (bind_of_run _ _ _ _ _ _
             (for_each_templates h (path_join h (helmDir h req) "templates") ts db)).
  run. rewrite !trace_prepend.
  do 2 (apply in_or_app; right). apply in_or_app. left. now left.
Qed.

(** The release starts by running [helm upgrade] on the chart directory. *)
Lemma release_starts deploy project m v db :
  exists rest,
    trace (release h req deploy project (helmDir h req) m v db) =
      Exec (helm_upgrade h req project) None :: rest.
Proof.
  unfold release. cbv zeta.
  change ("helm upgrade --install " +:+ helmReleaseName project +:+ " " +:+ helmDir h req +:+
          " --namespace " +:+ namespace project +:+ " --atomic --create-namespace")
    with (helm_upgrade h req project).
  unfold runCmd at 1. rewrite !bind_bind, bind_emit, trace_prepend.
  eexists. reflexivity.
Qed.

Lemma chart_then_release deploy project m a ai fi db :
  let v := valuesObj (PROJECT_DEPLOYMENT_DNS_NAME h) m project (Some ai) fi in
  released_chart h req project v (templates m a project v)
    (trace (bind (write_chart h req deploy (helmDir h req) v (templates m a project v))
              (fun _ => release h req deploy project (helmDir h req) m v) db)).
Proof.
  intros v.
  destruct (write_chart_run h req deploy (helmDir h req) v (templates m a project v) db)
    as [Hval Hts].
  destruct (bind_cases (write_chart h req deploy (helmDir h req) v (templates m a project v))
              (fun _ => release h req deploy project (helmDir h req) m v) db)
    as [([] & _ & ->)|(Hnot & _)]; [|exfalso; exact (Hnot tt Hval)].
  rewrite trace_prepend.
  destruct (release_starts deploy project m v
              (db_after (write_chart h req deploy (helmDir h req) v
                           (templates m a project v) db))) as [rest Hrest].
  pose proof (release_plain h req deploy project (helmDir h req) m v
                (db_after (write_chart h req deploy (helmDir h req) v
                             (templates m a project v) db))) as Hplain.
  rewrite Hrest in Hplain |- *.
  exists (trace (write_chart h req deploy (helmDir h req) v (templates m a project v) db)), rest.
  split; [reflexivity|]. split; [apply write_chart_values|]. split; [exact Hts|]. split.
  - intros t Ht. now apply write_chart_writes.
  - apply written_templates_none. now inversion Hplain.
Qed.

Lemma releases_later project manifest es es' :
  Forall no_template es -> releases h req project manifest es' ->
  releases h req project manifest (es ++ es').
Proof.
  intros Hes (a & ai & fi & Ha & Hr). exists a, ai, fi. split; [exact Ha|].
  now apply released_later.
Qed.

Lemma deploy_manifest_released deploy project manifest sn :
  succeeds_with (releases h req project manifest)
    (deploy_manifest h req deploy project manifest sn).
Proof.
  pose proof (releases_later project manifest) as Hl.
  unfold deploy_manifest. cbv zeta.
  apply succeeds_then; [exact Hl|quiet|repeat replies_step|intros _].
  destruct (agent (body manifest)) as [a|] eqn:Ha; [|intros db r Ho; discriminate Ho].
  apply succeeds_then;
    [exact Hl|apply build_agent_plain|apply build_agent_replies|intros ai].
  apply succeeds_then;
    [exact Hl|apply build_frontend_plain|apply build_frontend_replies|intros fi].
  apply succeeds_then;
    [exact Hl|apply fund_project_key_plain|apply fund_project_key_replies|intros _].
  intros db r _ _. exists a, ai, fi. split; [exact Ha|].
  apply chart_then_release.
Qed.

Lemma selects_later deploy project es es' :
  Forall no_template es -> selects_and_releases h req deploy project es' ->
  selects_and_releases h req deploy project (es ++ es').
Proof.
  intros Hes (manifest & sn & Hs & Hr). exists manifest, sn.
  split; [exact Hs|]. now apply releases_later.
Qed.

Lemma pipeline_released deploy project :
  succeeds_with (selects_and_releases h req deploy project) (pipeline h req deploy project).
Proof.
  unfold pipeline.
  apply succeeds_from;
    [apply selects_later|apply stage_plain|apply stage_replies|].
  intros db1 raw Hraw. apply stage_value in Hraw.
  apply succeeds_from;
    [apply selects_later|apply compile_plain|apply compile_replies|].
  intros db3 [manifest sn] Hc r1 Hr1 H1. exists manifest, sn. split.
  - exists raw, db3. split; [exact Hraw|exact Hc].
  - exact (deploy_manifest_released deploy project manifest sn _ r1 Hr1 H1).
Qed.

(** A 200 of the upload: the request was accepted, [compile] selected a
    manifest, and the run wrote that manifest's chart and released it. *)
Lemma upload_released db r :
  outcome (upload h req db) = Sent r -> status r = 200 ->
  exists deploy project manifest sn,
    accepted h req db deploy project /\
    selected h req deploy project manifest sn /\
    releases h req project manifest (trace (upload h req db)).
Proof.
  intros Ho H200.
  destruct (upload_cases h req db) as [(r' & Hup & Hst)|(deploy & project & Hacc & Hup)].
  { rewrite Hup in Ho. injection Ho as <-. rewrite H200 in Hst.
    destruct Hst as [Hst|[Hst|[Hst|[]]]]; discriminate Hst. }
  exists deploy, project.
  rewrite Hup in Ho |- *. rewrite outcome_try_catch in Ho.
  destruct (outcome (pipeline h req deploy project db)) as [x|r'|e] eqn:Hp.
  - exfalso. exact (pipeline_never_returns h req deploy project db x Hp).
  - injection Ho as ->.
    assert (Htr : trace (try_catch (pipeline h req deploy project)
                           (on_error req deploy project) db) =
                  trace (pipeline h req deploy project db)).
    { unfold try_catch. now rewrite Hp. }
    rewrite Htr.
    destruct (pipeline_released deploy project db r Hp H200) as (manifest & sn & Hs & Hr).
    exists manifest, sn. auto.
  - destruct (on_error_run req deploy project e
                (db_after (pipeline h req deploy project db)))
      as (row & body & _ & Herr).
    rewrite Herr in Ho. injection Ho as <-. discriminate H200.
Qed.

Lemma written_In es path t :
  In (WriteFile path (TemplateFile t)) es -> In t (written_templates es).
Proof.
  intros Hin. unfold written_templates. apply in_flat_map.
  exists (WriteFile path (TemplateFile t)). split; [exact Hin|now left].
Qed.

Lemma hpa_of_templates m a p v n : In (hpa_yaml n) (templates m a p v) -> n = hpaMaxReplicas m.
Proof.
  unfold templates. cbv zeta. intros Hin.
  destruct (Js.truthy (ingressCustomFrontend v)), (useStorage m); simpl in Hin;
    repeat (destruct Hin as [Hin|Hin]; [try discriminate Hin; now injection Hin|]);
    destruct Hin.
Qed.

End Charts.

Lemma written_values_In es path v :
  In (WriteFile path (ValuesYaml v)) es -> In v (written_values es).
Proof.
  intros Hin. unfold written_values. apply in_flat_map.
  exists (WriteFile path (ValuesYaml v)). split; [exact Hin|now left].
Qed.

(** The run of the examples: one project, a manifest that asks for nothing
    but an agent, every command succeeding. *)
Lemma plain_run_accepted exec found deploy project :
  accepted (Examples.with_found found
              (Examples.host None
                 (Examples.manifest_v1 Examples.body_plain [Examples.target "mainnet"]) exec))
    (Examples.request None) (Examples.db1 10) deploy project ->
  deploy = Examples.deploy1 /\ project = Examples.project1 10.
Proof.
  intros (Hd & Hp & _). vm_compute in Hd. injection Hd as <-.
  vm_compute in Hp. injection Hp as <-. split; vm_compute; reflexivity.
Qed.

Lemma plain_run_selected manifest sn :
  selected (Examples.host None
              (Examples.manifest_v1 Examples.body_plain [Examples.target "mainnet"])
              Examples.exec_ok)
    (Examples.request None) Examples.deploy1 (Examples.project1 10) manifest sn ->
  manifest = {| body := Examples.body_plain;
                deployments := Some [Examples.target "mainnet"] |}.
Proof.
  intros (raw & db' & Hraw & Hc).
  change (Parsed (Examples.manifest_v1 Examples.body_plain [Examples.target "mainnet"]) =
          Parsed raw) in Hraw.
  injection Hraw as <-.
  assert (Hcompile :
            outcome (compile
                       (Examples.host None
                          (Examples.manifest_v1 Examples.body_plain [Examples.target "mainnet"])
                          Examples.exec_ok)
                       (Examples.request None) Examples.deploy1 (Examples.project1 10)
                       (Examples.manifest_v1 Examples.body_plain [Examples.target "mainnet"])
                       db') =
            Value ({| body := Examples.body_plain;
                      deployments := Some [Examples.target "mainnet"] |}, None))
    by (vm_compute; reflexivity).
  rewrite Hcompile in Hc. now injection Hc as <- <-.
Qed.

Lemma plain_run_values :
  written_values
    (trace (upload (Examples.host None
                      (Examples.manifest_v1 Examples.body_plain [Examples.target "mainnet"])
                      Examples.exec_ok)
              (Examples.request None) (Examples.db1 10))) =
    [ valuesObj "example.com" Examples.body_plain (Examples.project1 10)
        (Some "mandala-registry:5000/mandala-project-0123456789abcdef0123456789abcdef/agent:d1"%string)
        None ].
Proof. vm_compute. reflexivity. Qed.

Lemma plain_run_images before after ai fi :
  trace (upload (Examples.host None
                   (Examples.manifest_v1 Examples.body_plain [Examples.target "mainnet"])
                   Examples.exec_ok)
           (Examples.request None) (Examples.db1 10)) = before ++ after ->
  In (WriteFile "/tmp/build_d1/helm/values.yaml"
        (ValuesYaml (valuesObj "example.com" Examples.body_plain (Examples.project1 10)
                       (Some ai) fi))) before ->
  ai = "mandala-registry:5000/mandala-project-0123456789abcdef0123456789abcdef/agent:d1"%string /\
  fi = None.
Proof.
  intros Htr Hv.
  assert (Hin : In (valuesObj "example.com" Examples.body_plain (Examples.project1 10)
                      (Some ai) fi)
                   (written_values (before ++ after))).
  { eapply written_values_In. apply in_or_app. left. exact Hv. }
  rewrite <- Htr, plain_run_values in Hin. destruct Hin as [Hin|[]].
  split.
  - apply (f_equal agentImage) in Hin. simpl in Hin. now injection Hin.
  - apply (f_equal frontendImage) in Hin. simpl in Hin. now symmetry.
Qed.




(** C4: an upload that is answered 200 wrote hpa.yaml into the chart
    directory before it ran helm upgrade, with maxReplicas 1 when the
    manifest [compile] selected requests a GPU and 10 otherwise, and wrote no
    other autoscaler template; the file renders to one
    HorizontalPodAutoscaler that targets the project's Deployment on CPU
    utilization with at least 1 replica.  A GPU-requesting manifest gets
    that far only on a node with [GPU_ENABLED=true], and there it passes
    [compile] when its target is accepted. *)
Theorem autoscaler_bounds (h : Host) (req : Request) (db : Db) (r : Response) :
  outcome (upload h req db) = Sent r -> status r = 200 ->
  (exists deploy project manifest sn before after,
     accepted h req db deploy project /\
     selected h req deploy project manifest sn /\
     trace (upload h req db) = before ++ Exec (helm_upgrade h req project) None :: after /\
     In (WriteFile (template_path h req "hpa.yaml")
           (TemplateFile (hpa_yaml (if requests_gpu (body manifest) then 1 else 10)))) before /\
     (forall path n,
        In (WriteFile path (TemplateFile (hpa_yaml n))) (trace (upload h req db)) ->
        n = if requests_gpu (body manifest) then 1 else 10) /\
     (requests_gpu (body manifest) = true -> GPU_ENABLED h = Some "true"%string)) /\
  (forall fullname v n,
     render fullname v (hpa_yaml n) =
       [ {| kind := HorizontalPodAutoscaler;
            doc_name := fullname +:+ "-deployment";
            spec := HpaSpec
                      {| maxReplicas := n;
                         minReplicas := 1;
                         metric_resource_name := "cpu";
                         metric_target_type := "Utilization";
                         averageUtilization := 50;
                         scaleTargetRef_kind := Deployment;
                         scaleTargetRef_name := fullname +:+ "-deployment" |} |} ]) /\
  (forall deploy project raw db' sel,
     outcome (select_manifest req deploy raw db') = Value sel ->
     requests_gpu (body (fst sel)) = true ->
     GPU_ENABLED h = Some "true"%string ->
     target_ok (fst sel) project = true ->
     outcome (compile h req deploy project raw db') = Value sel).
Proof.
  intros Ho H200. split; [|split; [reflexivity|]].
  - destruct (upload_released h req db r Ho H200)
      as (deploy & project & manifest & sn & Hacc & Hsel & a & ai & fi & Ha & Hrel).
    cbv zeta in Hrel.
    destruct Hrel as (before & after & Htrace & _ & Hw & Hin & Hafter).
    exists deploy, project, manifest, sn, before, after.
    split; [exact Hacc|]. split; [exact Hsel|]. split; [exact Htrace|].
    split; [|split].
    + apply (Hin (hpa_yaml (hpaMaxReplicas (body manifest)))).
      unfold templates. cbv zeta. right. now left.
    + intros path n Hn. apply written_In in Hn.
      rewrite Htrace in Hn.
      change (before ++ Exec (helm_upgrade h req project) None :: after)
        with (before ++ [Exec (helm_upgrade h req project) None] ++ after) in Hn.
      rewrite !written_templates_app, Hw, Hafter in Hn. simpl in Hn.
      rewrite app_nil_r in Hn. exact (hpa_of_templates _ _ _ _ _ Hn).
    + intros Hgpu. destruct Hsel as (raw & db' & _ & Hc).
      apply compile_value in Hc as (_ & Hnode & _). now apply Hnode.
  - intros deploy project raw db' sel Hsel Hgpu Hnode Hok.
    apply compile_succeeds; auto.
Qed.

Lemma autoscaler_bounds_witness :
  exists manifest before after,
    trace (upload (Examples.host (Some "true"%string)
                     (Examples.manifest_v1 Examples.body_gpu [Examples.target "mainnet"])
                     Examples.exec_ok)
             (Examples.request None) (Examples.db1 10)) =
      before ++
      Exec (helm_upgrade
              (Examples.host (Some "true"%string)
                 (Examples.manifest_v1 Examples.body_gpu [Examples.target "mainnet"])
                 Examples.exec_ok)
              (Examples.request None) (Examples.project1 10)) None :: after /\
    In (WriteFile "/tmp/build_d1/helm/templates/hpa.yaml"
          (TemplateFile (hpa_yaml (if requests_gpu (body manifest) then 1 else 10)))) before /\
    In (WriteFile "/tmp/build_d1/helm/templates/hpa.yaml" (TemplateFile (hpa_yaml 1)))
       (trace (upload (Examples.host (Some "true"%string)
                         (Examples.manifest_v1 Examples.body_gpu [Examples.target "mainnet"])
                         Examples.exec_ok)
                 (Examples.request None) (Examples.db1 10))).
Proof.
  assert (H : { r | outcome (upload
                (Examples.host (Some "true"%string)
                   (Examples.manifest_v1 Examples.body_gpu [Examples.target "mainnet"])
                   Examples.exec_ok)
                (Examples.request None) (Examples.db1 10)) = Sent r /\ status r = 200 }).
  { eexists. split; [vm_compute; reflexivity|reflexivity]. }
  destruct H as (r & Ho & H200).
  destruct (autoscaler_bounds _ _ _ r Ho H200)
    as ((deploy & project & manifest & sn & before & after & Hacc & _ & Htrace & Hin & _) & _).
  destruct Hacc as (Hd & Hp & _).
  injection Hd as <-. injection Hp as <-.
  exists manifest, before, after. split; [exact Htrace|]. split; [exact Hin|].
  vm_compute. tauto.
Defined.

End ReleasedChart.

(** ** The wait for the rollout *)

Module RolloutWait.

Import Manifest Store Chart Handler Upload HandlerFacts Respects UploadFacts CompilerFacts
  Failures FailureResponse Topology Verdict VerdictFacts UploadVerdict Rollout Wait.

Section Waits.

Variables (h : Host) (req : Request).

Lemma logStep_waits project deploy msg lvl :
  respects (waits_plainly project) (logStep req deploy msg lvl).
Proof. unfold logStep. respects_auto. Qed.

Lemma runCmd_waits project cmd cwd :
  String.prefix "kubectl rollout status" cmd = false ->
  respects (waits_plainly project) (runCmd h cmd cwd).
Proof.
  intros Hc. unfold runCmd.
  apply respects_bind; [apply respects_emit; simpl; congruence|intros _].
  respects_auto.
Qed.

Lemma rollout_waits project :
  respects (waits_plainly project) (runCmd h (rollout_status project) None).
Proof.
  unfold runCmd.
  apply respects_bind; [apply respects_emit; simpl; auto|intros _].
  respects_auto.
Qed.

Ltac waits :=
  repeat lazymatch goal with
         | |- respects (waits_plainly _) (logStep _ _ _ _) => apply logStep_waits
         | |- respects (waits_plainly _) (runCmd _ (rollout_status _) None) =>
             apply rollout_waits
         | |- respects (waits_plainly _) (runCmd _ _ _) => apply runCmd_waits; reflexivity
         | |- _ => respects_step
         end.

Lemma release_waits deploy project m v :
  respects (waits_plainly project) (release h req deploy project (helmDir h req) m v).
Proof.
  unfold release. cbv zeta.
  change ("kubectl rollout status deployment/" +:+ helmReleaseName project +:+
          "-deployment -n " +:+ namespace project)
    with (rollout_status project).
  waits.
Qed.

Lemma pipeline_waits deploy project :
  respects (waits_plainly project) (pipeline h req deploy project).
Proof.
  unfold pipeline. apply respects_bind; [unfold stage; waits|intros raw].
  apply respects_bind; [unfold compile, select_manifest, check_target; waits|intros sel].
  unfold deploy_manifest.
  apply respects_bind; [waits|intros _].
  destruct (agent (body (fst sel))) as [a|]; [|waits].
  apply respects_bind; [unfold build_agent; waits|intros ai].
  apply respects_bind; [unfold build_frontend; waits|intros fi].
  apply respects_bind; [unfold fund_project_key; waits|intros _].
  apply respects_bind; [unfold write_chart; waits|intros _].
  apply release_waits.
Qed.

Lemma on_error_waits deploy project e :
  respects (waits_plainly project) (on_error req deploy project e).
Proof. unfold on_error. respects_auto. Qed.

(** An upload that ran a command had accepted the request and entered the
    pipeline. *)
Lemma upload_runs db cmd cwd :
  In (Exec cmd cwd) (trace (upload h req db)) ->
  exists deploy project,
    accepted h req db deploy project /\
    upload h req db = try_catch (pipeline h req deploy project)
                        (on_error req deploy project) db.
Proof.
  unfold upload, accepted. run.
  destruct (deploy_by_uuid db (deploymentId req)) as [deploy|] eqn:Hd; [|intros []].
  run. destruct (project_by_id db (deploy_project_id deploy)) as [project|] eqn:Hp;
    [|intros []].
  destruct (verifySignature h (deploymentId req) (signature req)) as [valid|message].
  - rewrite !try_catch_if.
    destruct valid; [|intros []]. simpl negb. cbv iota.
    destruct (Js.ltb (balance project) 1) eqn:Hb; [intros []|].
    intros _. exists deploy, project. repeat split; auto.
  - rewrite try_catch_throw. unfold on_error. run. cbn [trace prepend send app].
    intros [Hin|[Hin|[Hin|[]]]]; discriminate Hin.
Qed.

Lemma accepted_unique db deploy project deploy' project' :
  accepted h req db deploy project -> accepted h req db deploy' project' ->
  deploy = deploy' /\ project = project'.
Proof.
  intros (Hd & Hp & _) (Hd' & Hp' & _).
  rewrite Hd in Hd'. injection Hd' as <-. rewrite Hp in Hp'. injection Hp' as <-. auto.
Qed.

(** A run that is answered 200 is a run of the pipeline that sent it. *)
Lemma success_run db r :
  outcome (upload h req db) = Sent r -> status r = 200 ->
  exists deploy project,
    accepted h req db deploy project /\
    outcome (pipeline h req deploy project db) = Sent r /\
    trace (upload h req db) = trace (pipeline h req deploy project db).
Proof.
  intros Ho H200.
  destruct (upload_cases h req db) as [(r' & Hup & Hst)|(deploy & project & Hacc & Hup)].
  - rewrite Hup in Ho. injection Ho as <-. rewrite H200 in Hst.
    destruct Hst as [Hst|[Hst|[Hst|[]]]]; discriminate Hst.
  - exists deploy, project. split; [exact Hacc|].
    rewrite Hup in Ho |- *. rewrite outcome_try_catch in Ho.
    destruct (outcome (pipeline h req deploy project db)) as [a|r'|e] eqn:Hp.
    + exfalso. exact (pipeline_never_returns h req deploy project db a Hp).
    + injection Ho as ->. split; [reflexivity|]. unfold try_catch. now rewrite Hp.
    + destruct (on_error_run req deploy project e
                  (db_after (pipeline h req deploy project db)))
        as (row & body & _ & Herr).
      rewrite Herr in Ho. injection Ho as <-. discriminate H200.
Qed.

(** A command of the pipeline that fails ends the upload with a 500 that
    carries its failure message. *)
Lemma failed_command_outcome db deploy project cmd cwd e o msg :
  In (Exec cmd cwd) (trace (try_catch (pipeline h req deploy project)
                              (on_error req deploy project) db)) ->
  execSync h cmd cwd = ExecFail e o msg ->
  outcome (try_catch (pipeline h req deploy project) (on_error req deploy project) db) =
    Sent {| status := 500;
            json := ErrorBody ("Error handling upload: " +:+ failure_message cmd e o msg) |}.
Proof.
  intros Hin Hfail. revert Hin. unfold try_catch.
  destruct (outcome (pipeline h req deploy project db)) as [a|r|e'] eqn:Ho.
  - intros Hin. destruct (pipeline_loud h req deploy project db cmd cwd e o msg Hin Hfail)
      as [Hthrown _]. rewrite Hthrown in Ho. discriminate Ho.
  - intros Hin. destruct (pipeline_loud h req deploy project db cmd cwd e o msg Hin Hfail)
      as [Hthrown _]. rewrite Hthrown in Ho. discriminate Ho.
  - destruct (on_error_run req deploy project e' (db_after (pipeline h req deploy project db)))
      as (row & body & Hrow & ->).
    cbn [trace outcome prepend]. intros Hin.
    assert (Hp : In (Exec cmd cwd) (trace (pipeline h req deploy project db))).
    { apply in_app_or in Hin as [Hin|[Hin|[Hin|[Hin|[]]]]];
        [exact Hin|discriminate Hin|discriminate Hin|discriminate Hin]. }
    destruct (pipeline_loud h req deploy project db cmd cwd e o msg Hp Hfail)
      as [Hthrown Hlog].
    rewrite Ho in Hthrown. injection Hthrown as ->. reflexivity.
Qed.

End Waits.

(** C8 (as the code has it): after [helm upgrade --install .. --atomic] has
    returned, the handler runs [kubectl rollout status] for the project's
    Deployment and goes on only when that command has returned.  An upload
    is answered 200 only after the command succeeded; when it fails, the
    upload is answered 500 with the command's failure message.  Every such
    wait an upload runs is this one command, run without options: the
    handler names no timeout, neither to [kubectl] nor to [execSync]. *)
Theorem rollout_wait (h : Host) (req : Request) (db : Db)
    (deploy : Deploy) (project : Project) :
  accepted h req db deploy project ->
  (forall r, outcome (upload h req db) = Sent r -> status r = 200 ->
     rolled_out h req project (trace (upload h req db)) /\
     exists out, execSync h (rollout_status project) None = ExecOk out) /\
  (forall e o msg,
     In (Exec (rollout_status project) None) (trace (upload h req db)) ->
     execSync h (rollout_status project) None = ExecFail e o msg ->
     outcome (upload h req db) =
       Sent {| status := 500;
               json := ErrorBody ("Error handling upload: " +:+
                                  failure_message (rollout_status project) e o msg) |}) /\
  (forall cmd cwd,
     In (Exec cmd cwd) (trace (upload h req db)) ->
     String.prefix "kubectl rollout status" cmd = true ->
     cmd = rollout_status project /\ cwd = None).
Proof.
  intros Hacc. split; [|split].
  - intros r Ho H200.
    destruct (success_run h req db r Ho H200) as (deploy' & project' & Hacc' & Hp & Htr).
    destruct (accepted_unique h req db _ _ _ _ Hacc Hacc') as [<- <-].
    rewrite Htr.
    pose proof (pipeline_rolled_out h req deploy project db r Hp H200) as Hroll.
    split; [exact Hroll|].
    destruct (execSync h (rollout_status project) None) as [out|e o msg] eqn:Hex; [eauto|].
    assert (Hin : In (Exec (rollout_status project) None)
                    (trace (pipeline h req deploy project db))).
    { destruct Hroll as (before & between & after & -> & _).
      apply in_or_app. right. right. apply in_or_app. right. now left. }
    destruct (pipeline_loud h req deploy project db _ _ e o msg Hin Hex) as [Hthrown _].
    rewrite Hthrown in Hp. discriminate Hp.
  - intros e o msg Hin Hfail.
    destruct (upload_runs h req db _ _ Hin) as (deploy' & project' & Hacc' & Hup).
    destruct (accepted_unique h req db _ _ _ _ Hacc Hacc') as [<- <-].
    rewrite Hup in Hin |- *.
    exact (failed_command_outcome h req db deploy project _ _ e o msg Hin Hfail).
  - intros cmd cwd Hin Hpre.
    destruct (upload_runs h req db _ _ Hin) as (deploy' & project' & Hacc' & Hup).
    destruct (accepted_unique h req db _ _ _ _ Hacc Hacc') as [<- <-].
    rewrite Hup in Hin.
    assert (Hall : respects (waits_plainly project)
                     (try_catch (pipeline h req deploy project)
                        (on_error req deploy project))).
    { apply respects_try_catch; [apply pipeline_waits|intros e; apply on_error_waits]. }
    specialize (Hall db). rewrite List.Forall_forall in Hall.
    exact (Hall _ Hin Hpre).
Qed.

Lemma rollout_wait_witness :
  (exists out,
     execSync (Examples.host None
                 (Examples.manifest_v1 Examples.body_plain [Examples.target "mainnet"])
                 Examples.exec_ok)
       (rollout_status (Examples.project1 10)) None = ExecOk out) /\
  outcome (upload (Examples.host None
                     (Examples.manifest_v1 Examples.body_plain [Examples.target "mainnet"])
                     exec_rollout_fails)
             (Examples.request None) (Examples.db1 10)) =
    Sent {| status := 500;
            json := ErrorBody
              ("Error handling upload: " +:+
               failure_message (rollout_status (Examples.project1 10))
                 "error: deployment exceeded its progress deadline" EmptyString
                 "exit status 1") |}.
Proof.
  split.
  - assert (Hacc : accepted
                     (Examples.host None
                        (Examples.manifest_v1 Examples.body_plain [Examples.target "mainnet"])
                        Examples.exec_ok)
                     (Examples.request None) (Examples.db1 10)
                     Examples.deploy1 (Examples.project1 10)) by (repeat split; reflexivity).
    destruct (rollout_wait _ _ _ _ _ Hacc) as (Hok & _ & _).
    assert (H : { r | outcome (upload
                  (Examples.host None
                     (Examples.manifest_v1 Examples.body_plain [Examples.target "mainnet"])
                     Examples.exec_ok)
                  (Examples.request None) (Examples.db1 10)) = Sent r /\ status r = 200 }).
    { eexists. split; [vm_compute; reflexivity|reflexivity]. }
    destruct H as (r & Ho & H200).
    exact (proj2 (Hok r Ho H200)).
  - assert (Hacc : accepted
                     (Examples.host None
                        (Examples.manifest_v1 Examples.body_plain [Examples.target "mainnet"])
                        exec_rollout_fails)
                     (Examples.request None) (Examples.db1 10)
                     Examples.deploy1 (Examples.project1 10)) by (repeat split; reflexivity).
    destruct (rollout_wait _ _ _ _ _ Hacc) as (_ & Hfail & _).
    refine (Hfail "error: deployment exceeded its progress deadline"%string EmptyString
              "exit status 1"%string _ eq_refl).
    vm_compute. tauto.
Defined.

(** C8, the claim as stated fails: the wait an upload runs is
    [kubectl rollout status deployment/<release>-deployment -n <namespace>]
    and nothing more, run without options; no timeout bounds it. *)
Lemma rollout_wait_names_no_timeout :
  exists r cmd,
    outcome (upload (Examples.host None
                       (Examples.manifest_v1 Examples.body_plain [Examples.target "mainnet"])
                       Examples.exec_ok)
               (Examples.request None) (Examples.db1 10)) = Sent r /\
    status r = 200 /\
    cmd = rollout_status (Examples.project1 10) /\
    cmd = "kubectl rollout status deployment/mandala-project-0123456789abcdef01234567-deployment -n mandala-project-0123456789abcdef0123456789abcdef"%string /\
    In (Exec cmd None)
       (trace (upload (Examples.host None
                         (Examples.manifest_v1 Examples.body_plain [Examples.target "mainnet"])
                         Examples.exec_ok)
                 (Examples.request None) (Examples.db1 10))) /\
    no_timeout cmd = true.
Proof.
  eexists _, _. split; [vm_compute; reflexivity|]. split; [reflexivity|].
  split; [reflexivity|]. split; [reflexivity|]. split; [vm_compute; tauto|reflexivity].
Qed.

End RolloutWait.

Module FootprintFacts.

Import Manifest Store Chart Handler Upload HandlerFacts Footprint.

Section Keeps.

Variable did : Z.

Lemma same_rows (l : list Deploy) :
  Forall2 (fun d d' => deploy_key d' = deploy_key d /\ (deploy_id d <> did -> d' = d)) l l.
Proof. induction l; constructor; auto. Qed.

Lemma touches_refl db : touches_only did db db.
Proof.
  unfold touches_only. repeat split; [apply same_rows|].
  exists []. now rewrite app_nil_r.
Qed.

Lemma rows_trans (l1 l2 l3 : list Deploy) :
  Forall2 (fun d d' => deploy_key d' = deploy_key d /\ (deploy_id d <> did -> d' = d)) l1 l2 ->
  Forall2 (fun d d' => deploy_key d' = deploy_key d /\ (deploy_id d <> did -> d' = d)) l2 l3 ->
  Forall2 (fun d d' => deploy_key d' = deploy_key d /\ (deploy_id d <> did -> d' = d)) l1 l3.
Proof.
  intros H12. revert l3. induction H12 as [|d1 d2 l1 l2 [Hk Hd] _ IH]; intros l3 H23.
  - inversion H23. constructor.
  - inversion H23 as [|? d3 ? l3' [Hk' Hd'] Hrest]; subst. constructor; [|now apply IH].
    split; [congruence|]. intros Hne. rewrite <- (Hd Hne). apply Hd'.
    rewrite (Hd Hne). exact Hne.
Qed.

Lemma touches_trans a b c :
  touches_only did a b -> touches_only did b c -> touches_only did a c.
Proof.
  intros (H1 & H2 & H3 & H4 & H5 & H6 & n1 & H7) (K1 & K2 & K3 & K4 & K5 & K6 & n2 & K7).
  unfold touches_only.
  rewrite K1, K2, K3, K4, K5, K7, H7. repeat split; auto.
  - exact (rows_trans _ _ _ H6 K6).
  - exists (n1 ++ n2). now rewrite app_assoc.
Qed.

Lemma touches_log db r : touches_only did db (run_stmt (InsertLog r) db).
Proof. unfold touches_only. simpl. repeat split; [apply same_rows|eauto]. Qed.

Lemma rows_updated (f : Deploy -> Deploy) (l : list Deploy) :
  (forall d, deploy_key (f d) = deploy_key d) ->
  Forall2 (fun d d' => deploy_key d' = deploy_key d /\ (deploy_id d <> did -> d' = d))
    l (map (fun d => if deploy_id d =? did then f d else d) l).
Proof.
  intros Hf. induction l as [|d l IH]; simpl; constructor; [|exact IH].
  destruct (Z.eqb_spec (deploy_id d) did); split; auto. intros Hne. contradiction.
Qed.

Lemma touches_file_path db p :
  touches_only did db (run_stmt (UpdateDeployFilePath did p) db).
Proof.
  unfold touches_only. simpl. repeat split.
  - now apply rows_updated.
  - exists []. now rewrite app_nil_r.
Qed.

Lemma touches_service_name db s :
  touches_only did db (run_stmt (UpdateDeployServiceName did s) db).
Proof.
  unfold touches_only. simpl. repeat split.
  - now apply rows_updated.
  - exists []. now rewrite app_nil_r.
Qed.

Lemma keeps_ret {A} (a : A) : keeps_to did (ret a).
Proof. intros db. apply touches_refl. Qed.

Lemma keeps_send {A} st b : keeps_to did (@send A st b).
Proof. intros db. apply touches_refl. Qed.

Lemma keeps_throw {A} e : keeps_to did (@throw A e).
Proof. intros db. apply touches_refl. Qed.

Lemma keeps_query {A} (q : Db -> A) : keeps_to did (query q).
Proof. intros db. apply touches_refl. Qed.

Lemma keeps_emit e : keeps_to did (emit e).
Proof. intros db. apply touches_refl. Qed.

Lemma keeps_log r : keeps_to did (sql (InsertLog r)).
Proof. intros db. apply touches_log. Qed.

Lemma keeps_file_path p : keeps_to did (sql (UpdateDeployFilePath did p)).
Proof. intros db. apply touches_file_path. Qed.

Lemma keeps_service_name s : keeps_to did (sql (UpdateDeployServiceName did s)).
Proof. intros db. apply touches_service_name. Qed.

Lemma keeps_bind {A B} (m : M A) (k : A -> M B) :
  keeps_to did m -> (forall a, keeps_to did (k a)) -> keeps_to did (bind m k).
Proof.
  intros Hm Hk db. unfold bind.
  destruct (outcome (m db)) as [a|r|e] eqn:Ho; simpl; try apply Hm.
  apply (touches_trans _ _ _ (Hm db)). apply Hk.
Qed.

Lemma keeps_try_catch {A} (m : M A) (hd : string -> M A) :
  keeps_to did m -> (forall e, keeps_to did (hd e)) -> keeps_to did (try_catch m hd).
Proof.
  intros Hm Hh db. unfold try_catch.
  destruct (outcome (m db)) as [a|r|e] eqn:Ho; simpl; try apply Hm.
  apply (touches_trans _ _ _ (Hm db)). apply Hh.
Qed.

Lemma keeps_when (c : bool) (m : M unit) : keeps_to did m -> keeps_to did (when c m).
Proof. unfold when. destruct c; [auto|intros _; apply keeps_ret]. Qed.

Lemma keeps_for_each {A} (l : list A) (f : A -> M unit) :
  (forall x, keeps_to did (f x)) -> keeps_to did (for_each l f).
Proof.
  intros Hf. induction l as [|x l IH]; simpl; [apply keeps_ret|].
  apply keeps_bind; auto.
Qed.

End Keeps.

End FootprintFacts.

Ltac keeps_step :=
  lazymatch goal with
  | |- Footprint.keeps_to _ (Handler.ret _) => apply FootprintFacts.keeps_ret
  | |- Footprint.keeps_to _ (Handler.send _ _) => apply FootprintFacts.keeps_send
  | |- Footprint.keeps_to _ (Handler.throw _) => apply FootprintFacts.keeps_throw
  | |- Footprint.keeps_to _ (Handler.query _) => apply FootprintFacts.keeps_query
  | |- Footprint.keeps_to _ (Handler.emit _) => apply FootprintFacts.keeps_emit
  | |- Footprint.keeps_to _ (Handler.sql (Store.InsertLog _)) =>
      apply FootprintFacts.keeps_log
  | |- Footprint.keeps_to _ (Handler.sql (Store.UpdateDeployFilePath _ _)) =>
      apply FootprintFacts.keeps_file_path
  | |- Footprint.keeps_to _ (Handler.sql (Store.UpdateDeployServiceName _ _)) =>
      apply FootprintFacts.keeps_service_name
  | |- Footprint.keeps_to _ (Handler.when _ _) => apply FootprintFacts.keeps_when
  | |- Footprint.keeps_to _ (Handler.for_each _ _) =>
      apply FootprintFacts.keeps_for_each; intros ?
  | |- Footprint.keeps_to _ (Handler.try_catch _ _) =>
      apply FootprintFacts.keeps_try_catch; [|intros ?]
  | |- Footprint.keeps_to _ (Handler.bind _ _) =>
      apply FootprintFacts.keeps_bind; [|intros ?]
  | |- Footprint.keeps_to _ (if ?c then _ else _) => destruct c
  | |- Footprint.keeps_to _ (match ?x with _ => _ end) => destruct x
  end.

Module UploadFootprint.

Import Manifest Store Chart Handler Upload HandlerFacts Footprint FootprintFacts.

Section Kept.

Variables (h : Host) (req : Request) (deploy : Deploy).

Lemma pipeline_keeps project : keeps_to (deploy_id deploy) (pipeline h req deploy project).
Proof.
  unfold pipeline, stage, compile, select_manifest, check_target, deploy_manifest,
    build_agent, build_frontend, fund_project_key, write_chart, release, runCmd, logStep.
  repeat keeps_step.
Qed.

Lemma on_error_keeps project msg :
  keeps_to (deploy_id deploy) (on_error req deploy project msg).
Proof. unfold on_error. repeat keeps_step. Qed.

End Kept.

Lemma upload_keeps (h : Host) (req : Request) (db : Db) :
  match deploy_by_uuid db (deploymentId req) with
  | Some deploy => touches_only (deploy_id deploy) db (db_after (upload h req db))
  | None => db_after (upload h req db) = db
  end.
Proof.
  unfold upload. run.
  destruct (deploy_by_uuid db (deploymentId req)) as [deploy|]; [|reflexivity].
  run.
  destruct (project_by_id db (deploy_project_id deploy)) as [project|];
    [|apply touches_refl].
  apply keeps_try_catch; [|intros e; apply on_error_keeps].
  destruct (verifySignature h (deploymentId req) (signature req)) as [valid|message];
    [|apply keeps_throw].
  destruct (negb valid); [apply keeps_send|].
  destruct (Js.ltb (balance project) 1); [apply keeps_send|].
  apply pipeline_keeps.
Qed.

(** X11: An upload changes the store only by appending log rows and by
    setting the artifact path and service name of the deployment it names;
    an upload for an unknown deployment id changes nothing. *)
Theorem upload_touches_only_its_deployment (h : Host) (req : Request) (db : Db) :
  match deploy_by_uuid db (deploymentId req) with
  | Some deploy => touches_only (deploy_id deploy) db (db_after (upload h req db))
  | None => db_after (upload h req db) = db
  end.
Proof. exact (upload_keeps h req db). Qed.

End UploadFootprint.

Module Prebuilt.

Import Manifest Store Chart Handler Upload HandlerFacts Respects UploadFacts CompilerFacts
  Verdict.

Section Images.

Variables (h : Host) (req : Request).

Ltac quiet :=
  repeat lazymatch goal with
         | |- respects no_build (logStep _ _ _ _) => apply logStep_quiet
         | |- respects no_build (runCmd _ _ _) => apply runCmd_quiet; reflexivity
         | |- _ => respects_step
         end.

Lemma deploy_manifest_prebuilt deploy project manifest sn :
  prebuilt (body manifest) = true ->
  respects no_build (deploy_manifest h req deploy project manifest sn).
Proof.
  unfold prebuilt. intros Hpre. apply andb_true_iff in Hpre as [Ha Hf].
  unfold deploy_manifest.
  apply respects_bind; [quiet|intros _].
  destruct (agent (body manifest)) as [a|]; [|apply respects_throw].
  apply respects_bind; [unfold build_agent; rewrite Ha; quiet|intros ai].
  apply respects_bind.
  { unfold build_frontend. destruct (frontend (body manifest)) as [f|]; [|apply respects_ret].
    rewrite Hf. quiet. }
  intros fi.
  unfold fund_project_key, write_chart, release. quiet.
Qed.

(** The service a v2 document yields is one of its services, or the empty
    object. *)
Lemma selected_service_prebuilt raw svc :
  isV2Manifest raw = true -> all_prebuilt raw ->
  selected_service req raw = Some svc -> prebuilt svc = true.
Proof.
  unfold all_prebuilt. intros Hv2 Hall. rewrite Hv2 in Hall.
  unfold selected_service, service_object, services_get.
  destruct (Js.truthy (serviceName_of req)); [|discriminate].
  destruct (Js.or_else (services raw) ∅ !! Js.or_else (serviceName_of req) EmptyString)
    as [[|b]|] eqn:Hl.
  - discriminate.
  - intros [= <-]. exact (Hall _ _ Hl).
  - destruct (bool_decide _); [|discriminate]. intros [= <-]. reflexivity.
Qed.

Lemma compile_prebuilt deploy project raw db sel :
  all_prebuilt raw ->
  outcome (compile h req deploy project raw db) = Value sel ->
  prebuilt (body (fst sel)) = true.
Proof.
  intros Hall Hc. apply compile_value in Hc as ((db' & Hsel) & _ & _).
  apply select_manifest_value in Hsel as [[Hv1 ->]|(Hv2 & svc & Hsvc & ->)].
  - unfold all_prebuilt in Hall. rewrite Hv1 in Hall. exact Hall.
  - pose proof (selected_service_prebuilt raw svc Hv2 Hall Hsvc) as Hp.
    unfold prebuilt in *. exact Hp.
Qed.

End Images.

(** X12: When every service of the uploaded manifest names its images, the
    upload runs no build and no push. *)
Theorem prebuilt_images_are_not_rebuilt (h : Host) (req : Request) (db : Db)
    (raw : RawManifest) :
  readManifest h (manifestPath h req) = Parsed raw ->
  all_prebuilt raw ->
  Forall no_build (trace (upload h req db)).
Proof.
  intros Hread Hall.
  unfold upload. run.
  destruct (deploy_by_uuid db (deploymentId req)) as [deploy|]; [|constructor].
  run.
  destruct (project_by_id db (deploy_project_id deploy)) as [project|]; [|constructor].
  apply respects_try_catch; [|intros e; apply on_error_quiet].
  destruct (verifySignature h (deploymentId req) (signature req)) as [valid|message];
    [|apply respects_throw].
  destruct (negb valid); [apply respects_send|].
  destruct (Js.ltb (balance project) 1); [apply respects_send|].
  unfold pipeline.
  apply respects_bind_value; [apply stage_quiet|].
  intros db1 raw' Hstage. apply stage_value in Hstage.
  assert (raw' = raw) as -> by congruence.
  apply respects_bind_value; [apply compile_quiet|].
  intros db2 sel Hsel.
  apply deploy_manifest_prebuilt. exact (compile_prebuilt h req deploy project raw db2 sel Hall Hsel).
Qed.

Lemma prebuilt_images_are_not_rebuilt_witness :
  Forall no_build
    (trace (upload
              (Examples.host None
                 (Examples.manifest_v1 Examples2.body_prebuilt [Examples.target "mainnet"])
                 Examples.exec_ok)
              (Examples.request None) (Examples.db1 10))).
Proof.
  apply (prebuilt_images_are_not_rebuilt
           (Examples.host None
              (Examples.manifest_v1 Examples2.body_prebuilt [Examples.target "mainnet"])
              Examples.exec_ok)
           (Examples.request None) (Examples.db1 10)
           (Examples.manifest_v1 Examples2.body_prebuilt [Examples.target "mainnet"])).
  - reflexivity.
  - reflexivity.
Defined.

End Prebuilt.

Module ChartFacts.

Import Manifest Store Chart ChartSpec.

Lemma append_inv (s a b : string) : s +:+ a = s +:+ b -> a = b.
Proof. induction s as [|c s IH]; simpl; [auto|]. intros [= H]. auto. Qed.

Lemma length_append (a b : string) :
  String.length (a +:+ b) = (String.length a + String.length b)%nat.
Proof. induction a as [|c a IH]; simpl; [reflexivity|]. now rewrite IH. Qed.

Lemma substring_length n s : (String.length (String.substring 0 n s) <= n)%nat.
Proof.
  revert s. induction n as [|n IH]; intros s.
  - destruct s; simpl; lia.
  - destruct s as [|c s]; simpl; [lia|]. specialize (IH s). lia.
Qed.

Lemma helmReleaseName_length p : (String.length (helmReleaseName p) <= 40)%nat.
Proof.
  unfold helmReleaseName, Js.substr0. rewrite length_append.
  pose proof (substring_length 24 (project_uuid p)) as H.
  change (String.length "mandala-project-") with 16%nat. lia.
Qed.

Lemma imap_names {A} (name : nat -> string) (l : list A) n :
  map snd (imap (fun i p => (p, name (n + i)%nat)) l) = map name (seq n (length l)).
Proof.
  revert n. induction l as [|x l IH]; intros n; [reflexivity|].
  simpl. rewrite Nat.add_0_r. f_equal.
  rewrite <- IH. f_equal. apply imap_ext. intros i y _. simpl. f_equal. f_equal. lia.
Qed.

Lemma imap_ports {A B} (g : nat -> B) (l : list A) :
  map fst (imap (fun i p => (p, g i)) l) = l.
Proof.
  revert g. induction l as [|x l IH]; intros g; [reflexivity|].
  simpl. f_equal. exact (IH (fun i => g (S i))).
Qed.

Lemma NoDup_map_inj {A B} (f : A -> B) (l : list A) :
  (forall x y, f x = f y -> x = y) -> List.NoDup l -> List.NoDup (map f l).
Proof.
  intros Hf. induction 1 as [|x l Hx _ IH]; simpl; constructor; [|exact IH].
  intros Hin. apply in_map_iff in Hin as (y & Hy & Hin). apply Hf in Hy. now subst.
Qed.

Lemma port_name_inj i j : port_name i = port_name j -> i = j.
Proof.
  unfold port_name. intros H. apply (append_inv "agent") in H.
  destruct i as [|i], j as [|j]; simpl in H; try reflexivity; try discriminate H.
  injection H as H. now apply pretty_nat_inj in H.
Qed.

Lemma port_name_agent i : String.prefix "agent" (port_name i) = true.
Proof. unfold port_name. destruct (Nat.ltb 0 i); reflexivity. Qed.

End ChartFacts.

Module ChartProperties.

Import Manifest Store Chart Handler Upload ChartSpec ChartFacts.

(** X13: The variables step 11 merges for the deployment of a v2 service,
    one env entry each in deployment.yaml, take their value from the
    project's settings first, then from the service's env, then from the
    document's env.  The entries SERVER_PRIVATE_KEY and NETWORK, with the
    project's key and network, are listed after them exactly when the
    project requires blockchain funding, whatever the merged variables hold
    under those names. *)
Theorem env_precedence (raw : RawManifest) (svc : Body) (a : Agent) (p : Project) :
  let d := deployment_template (body (service_manifest raw svc)) a p in
  (forall k, envYaml d !! k = env_value raw svc p k) /\
  fundingYaml d =
    (if requires_blockchain_funding p then Some (private_key p, Store.network p) else None).
Proof.
  intros d. subst d. split; [|reflexivity].
  intros k. unfold deployment_template, mergedEnv, env_value, service_manifest, spread2.
  simpl. rewrite !lookup_union.
  unfold union, option_union, union_with, option_union_with.
  destruct (Js.or_else (agent_config p) ∅ !! k), (Js.or_else (env svc) ∅ !! k),
    (Js.or_else (env (raw_body raw)) ∅ !! k); reflexivity.
Qed.

(** X14: The Ingress resources of a chart are the one of ingress.yaml and,
    when the project has a custom frontend domain, the www one.  ingress.yaml
    has a rule for every host it requests a certificate for, always routes
    the default agent host, and sends a backend host to the agent port and a
    frontend host to port 80.  The www Ingress requests a certificate for
    www.<custom frontend domain> but its only rule is for
    [www.{{ .Values.ingressHostFrontend }}], a host no rule of ingress.yaml
    names; the host of its certificate has a rule, in ingress.yaml, exactly
    when the manifest has a frontend. *)
Theorem tls_hosts_are_routed (dom fullname : string) (m : Body) (a : Agent) (p : Project)
    (ai fi : option string) :
  let v := valuesObj dom m p ai fi in
  let port := head (agentPorts_of m a) in
  List.filter (fun d => bool_decide (kind d = Ingress))
    (render_chart fullname v (templates m a p v)) =
    {| kind := Ingress; doc_name := fullname +:+ "-ingress";
       spec := IngressSpec (map (host v) (tlsHosts_of m v))
                 (map (fun r => (host v (fst r), snd r)) (ingress_rules m p port))
                 ("project-" +:+ project_uuid p +:+ "-tls") |} ::
    (if Js.truthy (frontend_custom_domain p)
     then [ {| kind := Ingress; doc_name := fullname +:+ "-www";
               spec := IngressSpec [host v WwwCustomFrontend]
                         [(host v WwwHostFrontend, Some 80)]
                         ("project-" +:+ project_uuid p +:+ "-www-tls") |} ]
     else []) /\
  (forall hr, In hr (tlsHosts_of m v) -> In hr (map fst (ingress_rules m p port))) /\
  In (HostBackend, port) (ingress_rules m p port) /\
  (forall hr pt, In (hr, pt) (ingress_rules m p port) ->
     (pt = port /\ (hr = HostBackend \/ hr = CustomBackend)) \/
     (pt = Some 80 /\ hr <> HostBackend /\ hr <> CustomBackend /\ frontend m <> None)) /\
  (In WwwCustomFrontend (map fst (ingress_rules m p port)) <->
   frontend m <> None /\ Js.truthy (frontend_custom_domain p) = true) /\
  ~ In WwwHostFrontend (map fst (ingress_rules m p port)).
Proof.
  intros v port. split.
  { unfold templates, render_chart.
    change (ingressCustomFrontend v) with (frontend_custom_domain p).
    rewrite !flat_map_app. cbn [flat_map render app].
    cbn [List.filter kind bool_decide decide_rel Kind_eq_dec].
    rewrite ?List.filter_app.
    destruct (Js.truthy (frontend_custom_domain p)), (useMySQL v), (useMongo v),
      (useRedis v), (useStorage m); reflexivity. }
  subst v. unfold tlsHosts_of, ingress_rules, valuesObj. simpl.
  destruct (frontend m) as [f|];
    destruct (Js.truthy (frontend_custom_domain p));
    destruct (Js.truthy (backend_custom_domain p)); simpl;
    (split; [intros hr; tauto|]); (split; [tauto|]);
    (split;
     [ intros hr pt Hin;
       repeat match goal with
              | H : _ \/ _ |- _ => destruct H as [H|H]
              | H : (_, _) = (_, _) |- _ => injection H as <- <-
              | H : False |- _ => destruct H
              end;
       first [ left; split; [reflexivity|tauto]
             | right; split; [reflexivity|]; repeat split; discriminate ]
     | split;
       [ split;
         [ intros Hin;
           repeat match goal with
                  | H : _ \/ _ |- _ => destruct H as [H|H]
                  | H : False |- _ => destruct H
                  end;
           first [ discriminate | split; [discriminate|reflexivity] ]
         | intros [Hf Hc]; first [ now destruct Hf | discriminate Hc | tauto ] ]
       | intros Hin;
         repeat match goal with
                | H : _ \/ _ |- _ => destruct H as [H|H]
                | H : False |- _ => destruct H
                end; discriminate ] ]).
Qed.

(** X15: The ports of the generated Service carry pairwise different names,
    whatever ports the manifest lists. *)
Theorem service_ports_are_named_apart (agentPorts : list Z) (fullname : string)
    (v : Values) :
  map fst (servicePorts agentPorts) = agentPorts /\
  List.NoDup (map snd (servicePorts agentPorts)) /\
  (forall d ports, In d (render fullname v (service_yaml agentPorts)) ->
                   spec d = ServiceSpec ports -> List.NoDup (map snd ports)).
Proof.
  assert (Hnames : map snd (servicePorts agentPorts) =
                   map port_name (seq 0 (length agentPorts))).
  { unfold servicePorts. exact (imap_names port_name agentPorts 0). }
  assert (Hnodup : List.NoDup (map snd (servicePorts agentPorts))).
  { rewrite Hnames. apply NoDup_map_inj; [|apply List.seq_NoDup].
    intros i j. apply port_name_inj. }
  split; [apply imap_ports|]. split; [exact Hnodup|].
  intros d ports [<-|[]]. simpl. intros [= <-].
  destruct (helm_true (agentImage v)), (helm_true (frontendImage v)); simpl;
    rewrite ?app_nil_r; try exact Hnodup; try (repeat constructor; intros []).
  rewrite map_app. simpl.
  apply List.NoDup_app; [exact Hnodup|repeat constructor; intros []|].
  intros n Hin [Hf|[]]. subst n. rewrite Hnames in Hin.
  apply in_map_iff in Hin as (i & Hi & _).
  pose proof (port_name_agent i) as Hp. rewrite Hi in Hp. discriminate Hp.
Qed.

End ChartProperties.

Module ChartNames.

Import Manifest Store Chart Handler Upload ChartSpec ChartFacts Topology.

Lemma fullname_not_database p suffix name :
  In name database_names -> helmReleaseName p +:+ suffix <> name.
Proof. intros Hin Heq. apply (release_names_apart p suffix). now rewrite Heq. Qed.

Ltac clash H :=
  first
    [ discriminate H
    | injection H as H;
      first
        [ discriminate H
        | apply append_inv in H; discriminate H
        | exfalso; revert H; apply fullname_not_database; simpl; tauto
        | exfalso; symmetry in H; revert H; apply fullname_not_database; simpl; tauto ] ].

Ltac distinct :=
  repeat first
    [ apply List.NoDup_nil
    | apply List.NoDup_cons;
      [ unfold resource_id; cbn [In map kind doc_name]; intros Hin;
        repeat match goal with
               | H : _ \/ _ |- _ => destruct H as [H|H]
               | H : False |- _ => destruct H
               | H : (_, _) = (_, _) |- _ => clash H
               end
      | ] ].

Lemma rendered_resources_distinct (dom : string) (m : Body) (a : Agent) (p : Project)
    (ai fi : option string) :
  let v := valuesObj dom m p ai fi in
  List.NoDup (map resource_id (render_chart (helmReleaseName p) v (templates m a p v))) /\
  Forall (fun d => (String.length (doc_name d) <= 51)%nat)
    (render_chart (helmReleaseName p) v (templates m a p v)).
Proof.
  intros v. unfold templates, render_chart.
  change (ingressCustomFrontend v) with (frontend_custom_domain p).
  pose proof (helmReleaseName_length p) as Hlen.
  assert (Hsuffix : forall s, (String.length s <= 11)%nat ->
                              (String.length (helmReleaseName p +:+ s) <= 51)%nat).
  { intros s Hs. rewrite length_append. lia. }
  set (F := helmReleaseName p) in *.
  rewrite !flat_map_app.
  destruct (Js.truthy (frontend_custom_domain p)), (useStorage m);
    cbn [flat_map render app];
    destruct (useMySQL v), (useMongo v), (useRedis v);
    cbn [flat_map render app map resource_id kind doc_name headless];
    (split;
     [ subst F; distinct
     | repeat first
         [ apply List.Forall_nil
         | apply List.Forall_cons;
           [ cbn [doc_name]; first [ apply Hsuffix; simpl; lia | simpl; lia ] | ] ] ]).
Qed.



End ChartNames.

Module DockerfileFacts.

Import Manifest Handler Dockerfiles.

Lemma append_cons (x : ascii) (a b : string) : String x a +:+ b = String x (a +:+ b).
Proof. reflexivity. Qed.

Lemma append_assoc (a b c : string) : (a +:+ b) +:+ c = a +:+ (b +:+ c).
Proof. induction a as [|x a IH]; [reflexivity|]. now rewrite !append_cons, IH. Qed.

Lemma append_nil_r (a : string) : a +:+ EmptyString = a.
Proof. induction a as [|x a IH]; [reflexivity|]. now rewrite append_cons, IH. Qed.

Lemma occurs_in_after (a t needle : string) :
  Js.occurs_in needle t -> Js.occurs_in needle (a +:+ t).
Proof.
  intros (pre & post & ->). exists (a +:+ pre), post. now rewrite !append_assoc.
Qed.

Lemma occurs_in_middle (a b c needle : string) :
  Js.occurs_in needle b -> Js.occurs_in needle (a +:+ b +:+ c).
Proof.
  intros (pre & post & ->). exists (a +:+ pre), (post +:+ c).
  now rewrite !append_assoc.
Qed.

(** Between two line feeds, every element of a joined list is a whole line. *)
Lemma joined_line (ls : list string) (x : string) :
  In x ls -> Js.occurs_in (lf +:+ x +:+ lf) (lf +:+ String.concat lf ls +:+ lf).
Proof.
  induction ls as [|y ls IH]; [intros []|].
  intros [->|Hin].
  - destruct ls as [|z ls].
    + exists EmptyString, EmptyString. cbn [String.concat]. now rewrite append_nil_r.
    + exists EmptyString, (String.concat lf (z :: ls) +:+ lf).
      cbn [String.concat]. change (EmptyString +:+ ?s) with s.
      now rewrite !append_assoc.
  - destruct ls as [|z ls]; [destruct Hin|].
    destruct (IH Hin) as (pre & post & Heq).
    exists (lf +:+ y +:+ pre), post.
    change (String.concat lf (y :: z :: ls)) with (y +:+ lf +:+ String.concat lf (z :: ls)).
    rewrite ?append_assoc in Heq. rewrite ?append_assoc.
    do 2 f_equal. exact Heq.
Qed.

Lemma exposed_line ports p a c :
  In p ports ->
  inner_line ("EXPOSE " +:+ pretty p) (a +:+ lf +:+ exposeStatements ports +:+ lf +:+ c).
Proof.
  intros Hin. unfold inner_line, exposeStatements.
  replace (a +:+ lf +:+ String.concat lf (map (fun p0 => "EXPOSE " +:+ pretty p0) ports) +:+
           lf +:+ c)
    with (a +:+ (lf +:+ String.concat lf (map (fun p0 => "EXPOSE " +:+ pretty p0) ports) +:+
                 lf) +:+ c)
    by now rewrite !append_assoc.
  apply occurs_in_middle, joined_line.
  exact (in_map (fun p0 => "EXPOSE " +:+ pretty p0) ports p Hin).
Qed.

End DockerfileFacts.

Module DockerfileProperties.

Import Manifest Store Chart Handler Dockerfiles DockerfileFacts.

(** X17: Every port the chart opens on the agent container or on its Service
    is exposed by a line of its own in the Dockerfile generated for the
    agent. *)
Theorem generated_dockerfile_exposes_chart_ports (h : Host) (m : Body) (a : Agent)
    (project : Project) (buildDir : string) (p : Z) :
  In p (containerPortsYaml (deployment_template m a project)) \/
  In p (map fst (servicePorts (agentPorts_of m a))) ->
  inner_line ("EXPOSE " +:+ pretty p) (generated_dockerfile h m a buildDir).
Proof.
  intros Hin.
  assert (Hp : In p (agentPorts_of m a)).
  { destruct Hin as [Hin|Hin]; [exact Hin|].
    unfold servicePorts in Hin. now rewrite ChartFacts.imap_ports in Hin. }
  clear Hin. rename Hp into Hin.
  unfold generated_dockerfile, agentPorts_of in *.
  destruct (String.eqb (agent_type a) "agidentity").
  - unfold generateAgidentityDockerfile. cbv zeta.
    do 4 apply occurs_in_after. exact (exposed_line _ p _ _ Hin).
  - unfold generateAgentDockerfile. cbv zeta.
    destruct (String.eqb (Js.str_or (runtime a) "node") "node");
      [exact (exposed_line _ p _ _ Hin)|].
    destruct (String.eqb (Js.str_or (runtime a) "node") "python");
      exact (exposed_line _ p _ _ Hin).
Qed.

Lemma generated_dockerfile_exposes_chart_ports_witness :
  inner_line "EXPOSE 8080"
    (generated_dockerfile (Examples.host None Examples.manifest_v2 Examples.exec_ok)
       Examples.body_plain Examples.agent_custom "/tmp/build_d1/.").
Proof.
  apply (generated_dockerfile_exposes_chart_ports
           (Examples.host None Examples.manifest_v2 Examples.exec_ok)
           Examples.body_plain Examples.agent_custom (Examples.project1 0)
           "/tmp/build_d1/." 8080).
  left. simpl. left. reflexivity.
Defined.

End DockerfileProperties.

Module ListingFacts.

Import Manifest Store Chart Handler Projects Listings.

(** The backend domain is a host of the ingress and of its certificate. *)
Lemma backend_route h m p ai fi port :
  exists hr,
    In (hr, port) (ingress_rules m p port) /\
    In hr (tlsHosts_of m (valuesObj (PROJECT_DEPLOYMENT_DNS_NAME h) m p ai fi)) /\
    host (valuesObj (PROJECT_DEPLOYMENT_DNS_NAME h) m p ai fi) hr = getBackendDomain h p.
Proof.
  unfold getBackendDomain, Js.str_or.
  destruct (Js.truthy (backend_custom_domain p)) eqn:Hc.
  - exists CustomBackend. unfold ingress_rules, tlsHosts_of. cbn [ingressCustomBackend valuesObj].
    rewrite Hc. split; [|split].
    + apply in_or_app. right. apply in_or_app. right. now left.
    + apply in_or_app. right. apply in_or_app. right. now left.
    + change (host (valuesObj (PROJECT_DEPLOYMENT_DNS_NAME h) m p ai fi) CustomBackend)
        with (Js.or_else (backend_custom_domain p) EmptyString).
      destruct (backend_custom_domain p); [reflexivity|discriminate Hc].
  - exists HostBackend. unfold ingress_rules, tlsHosts_of. split; [|split; [|reflexivity]].
    + apply in_or_app. right. apply in_or_app. left. now left.
    + apply in_or_app. right. apply in_or_app. left. now left.
Qed.

End ListingFacts.

Module ListingProperties.

Import Manifest Store Chart Handler Projects Access Listings ListingFacts.

(** X18: The domain [getBackendDomain] reports for a project (its custom
    backend domain, else the default agent host) is a host of the ingress of
    the project's chart and of its certificate. *)
Theorem backend_domain_is_routed (h : Host) (m : Body) (p : Project)
    (ai fi : option string) (port : option Z) :
  let v := valuesObj (PROJECT_DEPLOYMENT_DNS_NAME h) m p ai fi in
  exists hr,
    In (hr, port) (ingress_rules m p port) /\
    In hr (tlsHosts_of m v) /\
    host v hr = getBackendDomain h p.
Proof. exact (backend_route h m p ai fi port). Qed.

(** X19: POST /list answers 401 to an unregistered caller, and otherwise lists
    exactly the projects that have an admin row for the caller. *)
Theorem list_shows_administered_projects (db : Db) (key : string) :
  match list_projects db key with
  | Denied st _ => st = 401 /\ user_by_identity db key = None
  | Rows ps =>
      forall p, In p ps <-> In p (projects db) /\ admin_row db (id p) key <> None
  end.
Proof.
  unfold list_projects. destruct (user_by_identity db key) as [u|]; [|now split].
  intros p. unfold projects_of_admin. rewrite in_flat_map. split.
  - intros (q & Hq & Hin). apply in_map_iff in Hin as (r & -> & Hr).
    split; [exact Hq|]. unfold admin_row.
    destruct (List.find _ (project_admins db)) eqn:Hf; [discriminate|].
    apply List.filter_In in Hr as [Hr Hb].
    apply (find_none _ _ Hf) in Hr. rewrite Hr in Hb. discriminate Hb.
  - intros [Hp Ha]. exists p. split; [exact Hp|].
    unfold admin_row in Ha.
    destruct (List.find _ (project_admins db)) as [r|] eqn:Hf; [|contradiction].
    apply find_some in Hf as [Hin Hb].
    apply in_map_iff. exists r. split; [reflexivity|].
    apply List.filter_In. now split.
Qed.

(** X20: A variable set through settings/update is the entry of that name
    among the variables step 11 merges for the next deployment, with the
    value given, overriding the manifest; the variables the update does not
    mention keep their entry.  The funding entries the template lists after
    them do not depend on it: they are there, with the project's key and
    network, exactly when the project requires funding after the update. *)
Theorem settings_env_reaches_the_deployment (env : gmap string string) (f : option bool)
    (m : Body) (a : Agent) (p : Project) (k v : string) :
  env !! k = Some v ->
  let d := deployment_template m a (settings_update (Some env) f p) in
  envYaml d !! k = Some v /\
  (forall k', env !! k' = None ->
              envYaml d !! k' = envYaml (deployment_template m a p) !! k') /\
  fundingYaml d =
    (if Js.or_else f (requires_blockchain_funding p)
     then Some (private_key p, Store.network p) else None).
Proof.
  intros Hk d. subst d.
  unfold deployment_template, mergedEnv, funding_of, settings_update, spread2.
  cbn [envYaml fundingYaml agent_config requires_blockchain_funding private_key
       Store.network Js.or_else].
  split; [|split; [|reflexivity]].
  - apply lookup_union_Some_l, lookup_union_Some_l. exact Hk.
  - intros k' Hnone. rewrite !lookup_union, Hnone.
    now destruct (Js.or_else (agent_config p) ∅ !! k').
Qed.

Lemma settings_env_reaches_the_deployment_witness :
  envYaml (deployment_template Examples.body_plain Examples.agent_custom
             (settings_update (Some {[ "LOG_LEVEL"%string := "debug"%string ]}) None
                (Examples.project1 0))) !! "LOG_LEVEL"%string = Some "debug"%string.
Proof.
  exact (proj1 (settings_env_reaches_the_deployment
                  {[ "LOG_LEVEL"%string := "debug"%string ]} None Examples.body_plain
                  Examples.agent_custom (Examples.project1 0) "LOG_LEVEL" "debug" eq_refl)).
Defined.

End ListingProperties.

Module ResourceLogsProperties.

Import Store ResourceLogs.

(** X21: [sanitizeTailValue] returns an integer between 1 and 10000, the floor
    of its argument clamped to that range, for every number but NaN, for which
    it returns NaN. *)
Theorem sanitized_tail_is_bounded (tail : Number) :
  match sanitizeTailValue tail with
  | Int n =>
      1 <= n <= MAX_TAIL_LINES /\
      match tail with
      | Finite q => n = Z.min (Z.max 1 (Qfloor q)) MAX_TAIL_LINES
      | PlusInfinity => n = MAX_TAIL_LINES
      | MinusInfinity => n = 1
      | NaN => False
      end
  | IntNaN => tail = NaN
  | IntPlusInfinity | IntMinusInfinity => False
  end.
Proof.
  unfold sanitizeTailValue, MAX_TAIL_LINES.
  destruct tail as [q| | |]; simpl.
  - split; [lia|reflexivity].
  - split; [lia|reflexivity].
  - split; [lia|reflexivity].
  - reflexivity.
Qed.

Lemma sanitized_cases (tail : Number) :
  tail <> NaN -> exists n, sanitizeTailValue tail = Int n /\ 1 <= n <= MAX_TAIL_LINES.
Proof.
  unfold sanitizeTailValue, MAX_TAIL_LINES. intros Hn.
  destruct tail as [q| | |]; simpl; [| | |contradiction]; eexists; (split; [reflexivity|lia]).
Qed.

Lemma find_pod_name (f : Pod -> bool) items pod :
  List.find f items = Some pod -> pod_name pod ∈ map pod_name items.
Proof.
  intros H. apply find_some in H as [Hin _].
  apply list_elem_of_In, in_map. exact Hin.
Qed.

Lemma logs_command_whitelisted project resource since tail items cmd :
  resource ∈ RESOURCES -> since ∈ VALID_LOG_PERIODS -> tail <> NaN ->
  logs_command ("mandala-project-" +:+ project_uuid project) resource since
    (sanitizeTailValue tail) items = inr cmd ->
  whitelisted project items cmd.
Proof.
  intros Hres Hsince Htail.
  destruct (sanitized_cases tail Htail) as (n & -> & Hn).
  unfold RESOURCES in Hres. unfold logs_command, whitelisted.
  repeat (apply elem_of_cons in Hres as [->|Hres]); [| | | | |now apply elem_of_nil in Hres];
    cbn [String.eqb Ascii.eqb Bool.eqb orb to_text].
  - (* frontend *)
    destruct (List.find _ items) as [pod|] eqn:Hpod; [|discriminate].
    destruct (List.find _ (containers pod)); [|discriminate]. intros [= <-].
    exists (pod_name pod), " -c frontend"%string, since, n.
    split; [left; exact (find_pod_name _ _ _ Hpod)|].
    split; [right; exists "frontend"%string; split; [repeat constructor|reflexivity]|].
    split; [exact Hsince|]. split; [exact Hn|reflexivity].
  - (* agent *)
    destruct (List.find _ items) as [pod|] eqn:Hpod; [|discriminate].
    destruct (List.find _ (containers pod)); [|discriminate]. intros [= <-].
    exists (pod_name pod), " -c agent"%string, since, n.
    split; [left; exact (find_pod_name _ _ _ Hpod)|].
    split; [right; exists "agent"%string; split; [repeat constructor|reflexivity]|].
    split; [exact Hsince|]. split; [exact Hn|reflexivity].
  - (* mongo *)
    destruct (List.find _ items); [|discriminate]. intros [= <-].
    exists "mongo-0"%string, EmptyString, since, n.
    split; [right; repeat constructor|]. split; [now left|].
    split; [exact Hsince|]. split; [exact Hn|reflexivity].
  - (* mysql *)
    destruct (List.find _ items); [|discriminate]. intros [= <-].
    exists "mysql-0"%string, EmptyString, since, n.
    split; [right; repeat constructor|]. split; [now left|].
    split; [exact Hsince|]. split; [exact Hn|reflexivity].
  - (* redis *)
    destruct (List.find _ items) as [pod|] eqn:Hpod; [|discriminate]. intros [= <-].
    exists (pod_name pod), EmptyString, since, n.
    split; [left; exact (find_pod_name _ _ _ Hpod)|]. split; [now left|].
    split; [exact Hsince|]. split; [exact Hn|reflexivity].
Qed.

(** X22: When the tail is not NaN, every command the resource-logs route runs
    is either the pod listing of the project's namespace or a kubectl logs on
    that namespace, for a listed pod or a fixed database pod, with a container
    flag from a fixed set, a period from the allowed list and a tail between 1
    and 10000; and none runs unless resource, period and level are valid. *)
Theorem resource_logs_runs_whitelisted_commands (k : Kubectl) (project : Project)
    (resource : string) (since : Field) (tail : option Number) (level : Field) (cmd : string) :
  Js.or_else tail (Finite 1000) <> NaN ->
  In cmd (fst (resource_logs k project resource since tail level)) ->
  resource ∈ RESOURCES /\
  isValidLogPeriod (or_default since "1h") = true /\
  isValidLogLevel (or_default level "all") = true /\
  (cmd = "kubectl get pods -n mandala-project-" +:+ project_uuid project +:+ " -o json" \/
   exists items, get_pods k ("mandala-project-" +:+ project_uuid project) = Some items /\
                 whitelisted project items cmd).
Proof.
  intros Htail. unfold resource_logs. cbv zeta.
  destruct (bool_decide (resource ∈ RESOURCES)) eqn:Hres; [|intros []].
  apply bool_decide_eq_true in Hres.
  destruct (isValidLogPeriod (or_default since "1h")) eqn:Hsince; [|intros []].
  destruct (isValidLogLevel (or_default level "all")) eqn:Hlevel; [|intros []].
  cbn [negb]. intros Hin. split; [exact Hres|]. split; [reflexivity|]. split; [reflexivity|].
  destruct (or_default since "1h") as [s|]; [|discriminate Hsince].
  apply bool_decide_eq_true in Hsince. cbn [Js.or_else] in Hin.
  destruct (get_pods k ("mandala-project-" +:+ project_uuid project)) as [items|] eqn:Hpods;
    [|destruct Hin as [<-|[]]; now left].
  destruct items as [|pod items]; [destruct Hin as [<-|[]]; now left|].
  destruct (logs_command _ resource s _ (pod :: items)) as [answer|c] eqn:Hcmd;
    [destruct Hin as [<-|[]]; now left|].
  assert (Hw : whitelisted project (pod :: items) c)
    by exact (logs_command_whitelisted project resource s _ _ c Hres Hsince Htail Hcmd).
  destruct (get_logs k c); destruct Hin as [<-|[<-|[]]];
    first [now left | right; eauto].
Qed.

Lemma resource_logs_runs_whitelisted_commands_witness :
  exists items,
    get_pods Examples3.kube1 ("mandala-project-" +:+ Examples.uuid1) = Some items /\
    whitelisted (Examples.project1 0) items
      "kubectl logs -n mandala-project-0123456789abcdef0123456789abcdef mandala-project-0123456789abcdef01234567-deployment-5d9f -c agent --since=1h --tail=3".
Proof.
  destruct (resource_logs_runs_whitelisted_commands
              Examples3.kube1 (Examples.project1 0) "agent" Absent
              (Some (Finite (7 # 2))) Absent
              "kubectl logs -n mandala-project-0123456789abcdef0123456789abcdef mandala-project-0123456789abcdef01234567-deployment-5d9f -c agent --since=1h --tail=3")
    as (_ & _ & _ & [H|H]).
  - discriminate.
  - vm_compute. right. left. reflexivity.
  - vm_compute in H. discriminate H.
  - exact H.
Defined.

End ResourceLogsProperties.

Module DomainFacts.

Import Manifest Store Chart Handler Projects Listings Domains.

Lemma all_chars_In f s :
  all_chars f s = true -> forall c, In c (list_ascii_of_string s) -> f c = true.
Proof.
  induction s as [|a s IH]; simpl; [intros _ c []|].
  intros H c [<-|Hc]; apply andb_true_iff in H as [Ha Hs]; [exact Ha|now apply IH].
Qed.

Lemma substring_all s : String.substring 0 (String.length s) s = s.
Proof. induction s as [|a s IH]; [reflexivity|]. simpl. now rewrite IH. Qed.

Lemma substring_split i s :
  (i <= String.length s)%nat ->
  s = String.substring 0 i s +:+ String.substring i (String.length s - i) s.
Proof.
  revert i. induction s as [|a s IH]; intros [|i] Hi.
  - reflexivity.
  - simpl in Hi. lia.
  - rewrite Nat.sub_0_r, substring_all. reflexivity.
  - change (String a s = String a (String.substring 0 i s +:+
                                   String.substring i (String.length s - i) s)).
    rewrite <- (IH i) by (simpl in Hi; lia). reflexivity.
Qed.

Lemma list_ascii_app a b :
  list_ascii_of_string (a +:+ b) = list_ascii_of_string a ++ list_ascii_of_string b.
Proof. induction a as [|c a IH]; [reflexivity|]. simpl. now rewrite <- IH. Qed.

Lemma domain_format_plain s : domain_format s = true -> plain_host_name s.
Proof.
  unfold domain_format. intros H. apply existsb_exists in H as (i & Hi & H).
  apply in_seq in Hi.
  destruct (String.substring i (String.length s - i) s) as [|c b] eqn:Hrest; [discriminate|].
  destruct (Ascii.eqb_spec c "."%char) as [->|Hne].
  2:{ destruct c as [[] [] [] [] [] [] [] []]; try discriminate H. now destruct Hne. }
  apply andb_true_iff in H as [H Hb]. apply andb_true_iff in H as [H Hlen].
  apply andb_true_iff in H as [Hpos Ha].
  apply Nat.ltb_lt in Hpos. apply Nat.leb_le in Hlen.
  pose proof (substring_split i s ltac:(lia)) as Hs. rewrite Hrest in Hs.
  split.
  - intros c Hc. rewrite Hs, list_ascii_app in Hc. apply in_app_or in Hc as [Hc|Hc].
    + exact (all_chars_In _ _ Ha c Hc).
    + simpl in Hc. destruct Hc as [<-|Hc]; [reflexivity|].
      unfold label_char. now rewrite (all_chars_In _ _ Hb c Hc).
  - exists (String.substring 0 i s), b. split; [exact Hs|]. split; [|split].
    + intros He. destruct s as [|a s']; [simpl in Hi; lia|].
      destruct i; [lia|]. discriminate He.
    + exact Hlen.
    + exact (all_chars_In _ _ Hb).
Qed.

Lemma includes_In x l : includes x l = true -> In x l.
Proof.
  unfold includes. intros H. apply existsb_exists in H as (y & Hin & Hy).
  apply String.eqb_eq in Hy. now subst.
Qed.

Lemma handleCustomDomain_cases r project user t domain db :
  let run := handleCustomDomain r project user t domain db in
  (store run = db /\ exists e i, answer run = DomainRefused e i) \/
  (exists s, domain = Some s /\ domain_format s = true /\ proved_by r project t s /\
     store run =
       run_stmt (project_log project
                   (capitalized (type_name t) +:+ " custom domain set: " +:+ s))
         (update_domain t (id project) s db) /\
     (answer run = DomainVerified
                     (capitalized (type_name t) +:+ " custom domain verified and set") s \/
      exists i, answer run = DomainRefused "Failed to verify domain" i)).
Proof.
  intros run. subst run. unfold handleCustomDomain.
  destruct (negb (Js.truthy domain) || negb (domain_format (Js.or_else domain EmptyString)))
    eqn:Hbad; [left; simpl; eauto|].
  apply orb_false_iff in Hbad as [Ht Hf]. apply negb_false_iff in Ht, Hf.
  destruct domain as [s|]; [|discriminate Ht]. simpl Js.or_else in *. cbv zeta.
  destruct (resolveTxt r (verificationHost s)) as [records|msg] eqn:Hdns;
    [|left; simpl; eauto].
  destruct (existsb (includes (expectedRecord project t)) records) eqn:Hfound;
    [|left; simpl; eauto].
  right. exists s. split; [reflexivity|]. split; [exact Hf|]. split.
  - apply existsb_exists in Hfound as (recordSet & Hin & Hinc).
    exists records, recordSet. split; [exact Hdns|]. split; [exact Hin|].
    exact (includes_In _ _ Hinc).
  - destruct (sendDomainChangeEmail r _ _ _); simpl; eauto.
Qed.

End DomainFacts.

Module DomainProperties.

Import Manifest Store Chart Handler Projects Listings ListingFacts Domains DomainFacts.

(** X23: A custom domain that passes the format check consists of letters,
    digits, dots and hyphens only, with a last label of at least two letters:
    it contains no space, line break, quote, colon, slash or underscore. *)
Theorem accepted_domain_is_a_plain_host_name (r : Resolver) (project : Project) (user : User)
    (t : DomainType) (domain : option string) (db : Db) :
  answer (handleCustomDomain r project user t domain db) <>
    DomainRefused "Invalid domain format. Please provide a valid domain (e.g. example.com)"
      None ->
  exists s, domain = Some s /\ plain_host_name s /\
            forall c, In c [" "; "010"; "013"; "034"; "039"; ":"; "/"; "$"; "`"; ";"; "#";
                            "{"; "}"; "_"]%char ->
                      ~ In c (list_ascii_of_string s).
Proof.
  unfold handleCustomDomain. intros H.
  destruct domain as [s|]; [|now destruct H]. exists s. split; [reflexivity|].
  simpl Js.or_else in H.
  destruct (domain_format s) eqn:Hf;
    [|rewrite orb_true_r in H; now destruct H].
  pose proof (domain_format_plain s Hf) as Hp. split; [exact Hp|].
  intros c Hc Hin. apply (proj1 Hp) in Hin.
  repeat (destruct Hc as [<-|Hc]; [discriminate Hin|]). destruct Hc.
Qed.

Lemma accepted_domain_is_a_plain_host_name_witness :
  plain_host_name "api.example.com".
Proof.
  destruct (accepted_domain_is_a_plain_host_name Examples4.resolver1 (Examples.project1 0)
              Examples.alice ForAgent (Some "api.example.com"%string) (Examples.db1 0))
    as (s & Hs & Hp & _).
  - vm_compute. discriminate.
  - injection Hs as <-. exact Hp.
Defined.

(** X24: The custom-domain handler either refuses with the store unchanged,
    or the domain passed the format check and a TXT record set of
    mandala_project.<domain> holds the project's verification record for this
    domain type; the store is then updated even when the notification mail
    fails and the answer is 400. *)
Theorem custom_domain_needs_dns_proof (r : Resolver) (project : Project) (user : User)
    (t : DomainType) (domain : option string) (db : Db) :
  let run := handleCustomDomain r project user t domain db in
  (store run = db /\ exists e i, answer run = DomainRefused e i) \/
  (exists s, domain = Some s /\ domain_format s = true /\ proved_by r project t s /\
     store run =
       run_stmt (project_log project
                   (capitalized (type_name t) +:+ " custom domain set: " +:+ s))
         (update_domain t (id project) s db) /\
     (answer run = DomainVerified
                     (capitalized (type_name t) +:+ " custom domain verified and set") s \/
      exists i, answer run = DomainRefused "Failed to verify domain" i)).
Proof. exact (handleCustomDomain_cases r project user t domain db). Qed.

(** X25: After the handler has verified an agent domain, that domain is the
    project's backend domain and a host of the ingress and certificate of its
    next chart. *)
Theorem verified_agent_domain_is_routed (h : Host) (r : Resolver) (project : Project)
    (user : User) (domain : option string) (db : Db) (m d : string) (p : Project) :
  answer (handleCustomDomain r project user ForAgent domain db) = DomainVerified m d ->
  In p (projects (store (handleCustomDomain r project user ForAgent domain db))) ->
  id p = id project ->
  domain = Some d /\ proved_by r project ForAgent d /\
  getBackendDomain h p = d /\
  forall body ai fi port,
    exists hr, In (hr, port) (ingress_rules body p port) /\
               In hr (tlsHosts_of body
                        (valuesObj (PROJECT_DEPLOYMENT_DNS_NAME h) body p ai fi)) /\
               host (valuesObj (PROJECT_DEPLOYMENT_DNS_NAME h) body p ai fi) hr = d.
Proof.
  intros Hans Hin Hid.
  destruct (handleCustomDomain_cases r project user ForAgent domain db)
    as [(_ & e & i & He)|(s & Hs & Hf & Hproof & Hstore & Hok)].
  - rewrite He in Hans. discriminate Hans.
  - assert (Hd : s = d).
    { destruct Hok as [Hok|[i Hok]]; rewrite Hok in Hans; [|discriminate Hans].
      now injection Hans. }
    subst s. split; [exact Hs|]. split; [exact Hproof|].
    rewrite Hstore in Hin. simpl in Hin. apply in_map_iff in Hin as (q & Hq & Hin).
    assert (Hb : backend_custom_domain p = Some d).
    { destruct (id q =? id project) eqn:He; [now subst p|].
      subst p. apply Z.eqb_neq in He. contradiction. }
    assert (Hne : Js.truthy (Some d) = true).
    { destruct (domain_format_plain d Hf) as (_ & a & b & -> & Ha & _).
      destruct a; [now destruct Ha|reflexivity]. }
    assert (Hg : getBackendDomain h p = d).
    { unfold getBackendDomain, Js.str_or. now rewrite Hb, Hne. }
    split; [exact Hg|]. intros body ai fi port.
    destruct (backend_route h body p ai fi port) as (hr & H1 & H2 & H3).
    exists hr. rewrite H3, Hg. auto.
Qed.

Lemma verified_agent_domain_is_routed_witness :
  getBackendDomain (Examples.host None Examples.manifest_v2 Examples.exec_ok)
    (set_domain ForAgent "api.example.com" (Examples.project1 0)) = "api.example.com"%string.
Proof.
  refine (proj1 (proj2 (proj2
    (verified_agent_domain_is_routed
       (Examples.host None Examples.manifest_v2 Examples.exec_ok) Examples4.resolver1
       (Examples.project1 0) Examples.alice (Some "api.example.com"%string) (Examples.db1 0)
       "Agent custom domain verified and set" "api.example.com"
       (set_domain ForAgent "api.example.com" (Examples.project1 0)) _ _ _)))).
  - reflexivity.
  - left. reflexivity.
  - reflexivity.
Defined.

End DomainProperties.
